(** * Fixed-window rate limiter: a shallow embedding of [app/rate_limiter.py],
      [app/redis_client.py] and [app/config.py], with the properties of the
      admission-control engine stated and proved over it.

    Layout:
    - [Py]          the Python built-ins the code relies on ([str], [int],
                    exceptions);
    - [Datetime]    aware UTC datetimes as instants, [strftime], [replace];
    - [Config]      [RATE_LIMITS] and [RATE_LIMIT_STRATEGIES];
    - [Redis]       the store behind the raw client (commands GET, INCR,
                    EXPIRE, TTL, DEL and their errors);
    - [RedisClient] the wrapper of [app/redis_client.py] that turns
                    [RedisError] into in-band values;
    - [RateLimiter] [check_rate_limit], [get_rate_limit_status],
                    [reset_rate_limit] and their helpers;
    - [Text]        more of Python's [str]: [split], [join], [in];
    - [Middleware]  [dispatch], [_extract_identifier] and
                    [_build_rate_limit_headers] of [app/middleware.py];
    - [Main]        the health and status endpoints of [app/main.py];
    - [Sentinel], [Singleton]
                    [_parse_sentinel_hosts] and the process-wide client of
                    [app/redis_client.py];
    - [LoadTest]    the counters of [scripts/load_test.py];
    - the theorems. *)

From Stdlib Require Import ZArith Lia Bool List Ascii String.
From Stdlib Require Import DecimalString DecimalZ.
From stdpp Require Import base option list gmap strings.

#[local] Open Scope string_scope.
#[local] Open Scope Z_scope.

(* ===================================================================== *)
(** ** Python built-ins *)
(* ===================================================================== *)

Module Py.

(** Exceptions that can leave the rate limiter.  [ValueError] is the only
    one the source catches itself (in [_get_current_count]). *)
Inductive exn : Type :=
| KeyError
| ZeroDivisionError
| TypeError.

(** Outcome of running a piece of Python: a value or a raised exception. *)
Inductive outcome (A : Type) : Type :=
| Returned (a : A)
| Raised (e : exn).
Arguments Returned {A} a.
Arguments Raised {A} e.

(** [str(n)] for an [int]: decimal digits, a leading [-] for negatives. *)
Definition str (n : Z) : string := NilZero.string_of_int (Z.to_int n).

(** Text is a sequence of code points below 256; text with other code
    points is outside the model. *)

(** [c.isspace()], which is what [str.strip()] removes: TAB to CR, the
    four separators FS, GS, RS and US, the space, NEL and the no-break
    space. *)
Definition is_space (c : ascii) : bool :=
  let n := nat_of_ascii c in
  ((9 <=? n)%nat && (n <=? 13)%nat) || ((28 <=? n)%nat && (n <=? 32)%nat)
  || (n =? 133)%nat || (n =? 160)%nat.

(** The white space [int()] skips at both ends of its argument: that of
    [str.isspace()] without the four separators FS, GS, RS and US. *)
Definition is_int_space (c : ascii) : bool :=
  let n := nat_of_ascii c in
  ((9 <=? n)%nat && (n <=? 13)%nat) || (n =? 32)%nat
  || (n =? 133)%nat || (n =? 160)%nat.

Definition is_digit (c : ascii) : bool :=
  let n := nat_of_ascii c in (48 <=? n)%nat && (n <=? 57)%nat.

(** Every character of [s] satisfies [p]. *)
Fixpoint all_chars (p : ascii -> bool) (s : string) : bool :=
  match s with
  | EmptyString => true
  | String c s' => p c && all_chars p s'
  end.

Fixpoint lstrip (s : string) : string :=
  match s with
  | String c s' => if is_space c then lstrip s' else s
  | EmptyString => EmptyString
  end.

(** Strip from the right: a character is kept when something kept follows
    it or when it is not a space. *)
Fixpoint rstrip (s : string) : string :=
  match s with
  | EmptyString => EmptyString
  | String c s' =>
      match rstrip s' with
      | EmptyString => if is_space c then EmptyString else String c EmptyString
      | r => String c r
      end
  end.

Definition strip (s : string) : string := rstrip (lstrip s).

(** The same for the white space of [int()]. *)
Fixpoint int_lstrip (s : string) : string :=
  match s with
  | String c s' => if is_int_space c then int_lstrip s' else s
  | EmptyString => EmptyString
  end.

Fixpoint int_rstrip (s : string) : string :=
  match s with
  | EmptyString => EmptyString
  | String c s' =>
      match int_rstrip s' with
      | EmptyString => if is_int_space c then EmptyString else String c EmptyString
      | r => String c r
      end
  end.

Definition int_strip (s : string) : string := int_rstrip (int_lstrip s).

(** The digits of an integer literal with its underscores removed; an
    underscore is legal only between two digits.  [prev] tells whether the
    previous character was a digit. *)
Fixpoint digits_of (prev : bool) (s : string) : option string :=
  match s with
  | EmptyString => if prev then Some EmptyString else None
  | String c s' =>
      if is_digit c then String c <$> digits_of true s'
      else if Ascii.eqb c "_" then
        (if prev then
           match s' with
           | String d _ => if is_digit d then digits_of false s' else None
           | EmptyString => None
           end
         else None)
      else None
  end.

(** [sys.int_info.default_max_str_digits]: [int()] raises [ValueError]
    on a literal with more digits, leading zeros counted, underscores and
    sign not.  The application leaves the limit as it is. *)
Definition MAX_STR_DIGITS : nat := 4300.

Definition unsigned_of (s : string) : option Z :=
  match digits_of false s with
  | Some ds =>
      if (String.length ds <=? MAX_STR_DIGITS)%nat
      then Z.of_uint <$> NilZero.uint_of_string ds
      else None
  | None => None
  end.

(** [int(s)] for a [str]: [None] stands for [ValueError].  Surrounding
    white space, one sign and single underscores between digits are
    accepted, as in the language reference; below code point 256 the
    decimal digits are the ASCII ones. *)
Definition int (s : string) : option Z :=
  match int_strip s with
  | EmptyString => None
  | String c r =>
      if Ascii.eqb c "-" then Z.opp <$> unsigned_of r
      else if Ascii.eqb c "+" then unsigned_of r
      else unsigned_of (String c r)
  end.

(** [a == b] where [a] may be [None] and [b] is an [int]. *)
Definition eq_int (a : option Z) (b : Z) : bool :=
  match a with
  | Some n => n =? b
  | None => false
  end.

End Py.

(* ===================================================================== *)
(** ** Aware UTC datetimes *)
(* ===================================================================== *)

Module Datetime.

(** [datetime.now(timezone.utc)] denotes an instant; it is represented by
    the number of microseconds since 1970-01-01T00:00:00Z.  The calendar
    fields are read off the instant (UTC has no leap seconds in
    [datetime]). *)
Definition datetime : Type := Z.

Definition us_per_second : Z := 1000000.
Definition us_per_minute : Z := 60 * us_per_second.
Definition us_per_hour : Z := 60 * us_per_minute.
Definition us_per_day : Z := 24 * us_per_hour.

Definition microsecond (t : datetime) : Z := t mod us_per_second.
Definition second (t : datetime) : Z := (t / us_per_second) mod 60.
Definition minute (t : datetime) : Z := (t / us_per_minute) mod 60.
Definition hour (t : datetime) : Z := (t / us_per_hour) mod 24.
Definition days (t : datetime) : Z := t / us_per_day.

(** Proleptic Gregorian date of a day number counted from 1970-01-01. *)
Definition civil_from_days (z0 : Z) : Z * Z * Z :=
  let z := z0 + 719468 in
  let era := z / 146097 in
  let doe := z - era * 146097 in
  let yoe := (doe - doe / 1460 + doe / 36524 - doe / 146096) / 365 in
  let y := yoe + era * 400 in
  let doy := doe - (365 * yoe + yoe / 4 - yoe / 100) in
  let mp := (5 * doy + 2) / 153 in
  let d := doy - (153 * mp + 2) / 5 + 1 in
  let m := if mp <? 10 then mp + 3 else mp - 9 in
  (if m <=? 2 then y + 1 else y, m, d).

Definition year (t : datetime) : Z := (civil_from_days (days t)).1.1.
Definition month (t : datetime) : Z := (civil_from_days (days t)).1.2.
Definition day (t : datetime) : Z := (civil_from_days (days t)).2.

(** The proleptic Gregorian calendar as [datetime] defines it
    ([_is_leap], [_days_in_month], [_days_before_year], [_ymd2ord]), with
    day numbers counted from 1970-01-01 instead of from 0001-01-01. *)
Definition is_leap (y : Z) : bool :=
  (y mod 4 =? 0) && (negb (y mod 100 =? 0) || (y mod 400 =? 0)).

Definition days_in_month (y m : Z) : Z :=
  if m =? 2 then (if is_leap y then 29 else 28)
  else if (m =? 4) || (m =? 6) || (m =? 9) || (m =? 11) then 30
  else 31.

(** Days from 1970-01-01 to the first of January of year [y]. *)
Definition days_before_year (y : Z) : Z :=
  let p := y - 1 in
  365 * p + p / 4 - p / 100 + p / 400 - 719162.

(** Days of year [y] before the first of month [m]. *)
Definition days_before_month (y m : Z) : Z :=
  fold_right Z.add 0 (map (days_in_month y) (map Z.of_nat (seq 1 (Z.to_nat (m - 1))))).

(** The day number of the date [y]-[m]-[d]. *)
Definition days_from_civil (y m d : Z) : Z :=
  days_before_year y + days_before_month y m + (d - 1).

(** [y]-[m]-[d] is a date of the calendar. *)
Definition valid_date (y m d : Z) : Prop :=
  1 <= m <= 12 /\ 1 <= d <= days_in_month y m.

(** Zero-padded decimal fields of [strftime]. *)
Definition pad2 (n : Z) : string :=
  if n <? 10 then "0" +:+ Py.str n else Py.str n.

(** A two-digit field that [int] reads back and that has two
    characters. *)
Definition pad2_ok (n : nat) : bool :=
  match Py.int (pad2 (Z.of_nat n)) with
  | Some m => (m =? Z.of_nat n) && (String.length (pad2 (Z.of_nat n)) =? 2)%nat
  | None => false
  end.

Definition pad4 (n : Z) : string :=
  if n <? 10 then "000" +:+ Py.str n
  else if n <? 100 then "00" +:+ Py.str n
  else if n <? 1000 then "0" +:+ Py.str n
  else Py.str n.

(** [t.strftime("%Y-%m-%d-%H")] *)
Definition strftime_hour (t : datetime) : string :=
  pad4 (year t) +:+ "-" +:+ pad2 (month t) +:+ "-" +:+ pad2 (day t)
    +:+ "-" +:+ pad2 (hour t).

(** [t.strftime("%Y-%m-%d-%H:%M")] *)
Definition strftime_minute (t : datetime) : string :=
  strftime_hour t +:+ ":" +:+ pad2 (minute t).

(** [t.replace(second=0, microsecond=0)]: the two fields are cleared. *)
Definition replace_second_microsecond (t : datetime) : datetime :=
  t - (second t * us_per_second + microsecond t).

(** [t.replace(minute=0, second=0, microsecond=0)] *)
Definition replace_minute_second_microsecond (t : datetime) : datetime :=
  t - (minute t * us_per_minute + second t * us_per_second + microsecond t).

(** [timedelta(...)] values, in microseconds; [t + delta] is [Z.add]. *)
Definition timedelta_seconds (n : Z) : Z := n * us_per_second.
Definition timedelta_minutes (n : Z) : Z := n * us_per_minute.
Definition timedelta_hours (n : Z) : Z := n * us_per_hour.

(** [x / y] rounded to the nearest integer, ties to the even one, for
    [0 < y]. *)
Definition div_half_even (x y : Z) : Z :=
  let q := x / y in
  let r := x mod y in
  if 2 * r <? y then q
  else if y <? 2 * r then q + 1
  else if Z.even q then q else q + 1.

(** [int(a / b)] for [int]s [0 <= a] and [0 < b]: the true division gives
    the float nearest to the quotient (53 significant bits, ties to
    even), and [int] drops its fraction.  A quotient below 1 stays below
    1; quotients too large for a float do not occur for a [datetime]. *)
Definition int_of_true_div (a b : Z) : Z :=
  let n := a / b in
  if n =? 0 then 0
  else
    let e := Z.log2 n in
    if e <? 52 then div_half_even (a * 2 ^ (52 - e)) b / 2 ^ (52 - e)
    else div_half_even a (b * 2 ^ (e - 52)) * 2 ^ (e - 52).

(** [int(t.timestamp())] for an aware [t]: [timestamp()] is
    [(t - epoch).total_seconds()], the microseconds divided by [10**6] as
    a float, and [int] truncates towards zero. *)
Definition int_timestamp (t : datetime) : Z :=
  Z.sgn t * int_of_true_div (Z.abs t) us_per_second.

(** The first instant at which the float of [timestamp()] may round a
    reading up to the next second: [2**34] seconds after the epoch
    (2514-05-30T01:53:04Z). *)
Definition exact_until : datetime := 2 ^ 34 * us_per_second.

(** [datetime.fromtimestamp(n, tz=timezone.utc)] for an [int] [n]. *)
Definition fromtimestamp (n : Z) : datetime := n * us_per_second.

End Datetime.

(* ===================================================================== *)
(** ** Configuration ([app/config.py]) *)
(* ===================================================================== *)

Module Config.

(** One entry of [RATE_LIMITS]. *)
Record Tier : Type := {
  requests_per_minute : Z;
  requests_per_hour : Z;
}.

(** Predefined rate limit tiers; [-1] is commented "No limits" in the
    source. *)
Definition RATE_LIMITS : gmap string Tier :=
  <["free" := {| requests_per_minute := 20; requests_per_hour := 1000 |}]>
  (<["premium" := {| requests_per_minute := 100; requests_per_hour := 10000 |}]>
  (<["admin" := {| requests_per_minute := -1; requests_per_hour := -1 |}]> ∅)).

Definition DEFAULT_TIER : string := "free".

(** One entry of [RATE_LIMIT_STRATEGIES]: the dict
    [{"limit": ..., "window": ...}]. *)
Record Strategy : Type := {
  limit : Z;
  window : Z;
}.

Definition tier_per_minute (name : string) : Z :=
  default 0 (requests_per_minute <$> RATE_LIMITS !! name).

(** The strategy table shipped in the source: both kinds use the free
    tier's per-minute quota over a 60 second window. *)
Definition RATE_LIMIT_STRATEGIES : gmap string Strategy :=
  <["user" := {| limit := tier_per_minute "free"; window := 60 |}]>
  (<["ip" := {| limit := tier_per_minute "free"; window := 60 |}]> ∅).

End Config.

(* ===================================================================== *)
(** ** The store behind the raw client *)
(* ===================================================================== *)

(** The server is not part of the repository.  Its commands follow their
    documented behaviour, which is also the contract the rate limiter
    relies on: GET returns the stored text, INCR counts from 0 on an
    absent key and rejects text that is not an integer, EXPIRE arms a
    lifetime, TTL answers [-2] and [-1] for "no key" and "no expiry", DEL
    removes.  Time does not pass inside one call. *)
Module Redis.

(** A record of the store: a string value and, when an expiry is armed,
    the seconds that remain. *)
Record cell : Type := {
  value : string;
  lifetime : option Z;
}.

(** What the raw client ([redis.Redis], [decode_responses=True]) talks to:
    the key space, and for each coming command whether the connection
    fails on it ([true] = the command raises [ConnectionError]); an empty
    plan is a reachable store. *)
Record conn : Type := {
  cells : gmap string cell;
  outage : list bool;
}.

(** [redis.exceptions.RedisError] and the two subclasses that matter. *)
Inductive RedisError : Type :=
| ConnectionError
| ResponseError.

Definition reply (A : Type) : Type := (RedisError + A)%type.

Definition INT64_MIN : Z := - 2 ^ 63.
Definition INT64_MAX : Z := 2 ^ 63 - 1.

(** The store's own reading of a value as an integer: the canonical
    decimal form of a signed 64-bit number and nothing else. *)
Definition as_integer (v : string) : option Z :=
  match Py.int v with
  | Some n =>
      if String.eqb (Py.str n) v && (INT64_MIN <=? n) && (n <=? INT64_MAX)
      then Some n else None
  | None => None
  end.

(** Consume one entry of the outage plan. *)
Definition attempt (c : conn) : bool * conn :=
  match outage c with
  | [] => (true, c)
  | down :: rest => (negb down, {| cells := cells c; outage := rest |})
  end.

Definition with_cells (c : conn) (m : gmap string cell) : conn :=
  {| cells := m; outage := outage c |}.

(** GET: the value, or nothing when the key is absent. *)
Definition GET (key : string) (c : conn) : reply (option string) * conn :=
  let '(up, c) := attempt c in
  if up then (inr (value <$> cells c !! key), c)
  else (inl ConnectionError, c).

(** INCR: an absent key counts as 0; the lifetime of the record is kept.
    A value that is not an integer, or an overflow, is an error reply. *)
Definition INCR (key : string) (c : conn) : reply Z * conn :=
  let '(up, c) := attempt c in
  if up then
    match cells c !! key with
    | None =>
        (inr 1, with_cells c (<[key := {| value := Py.str 1; lifetime := None |}]> (cells c)))
    | Some r =>
        match as_integer (value r) with
        | Some n =>
            if n <? INT64_MAX then
              (inr (n + 1),
               with_cells c (<[key := {| value := Py.str (n + 1);
                                         lifetime := lifetime r |}]> (cells c)))
            else (inl ResponseError, c)
        | None => (inl ResponseError, c)
        end
    end
  else (inl ConnectionError, c).

(** EXPIRE: arms or refreshes the lifetime of an existing key; a lifetime
    that is not positive removes the key at once. *)
Definition EXPIRE (key : string) (seconds : Z) (c : conn) : reply bool * conn :=
  let '(up, c) := attempt c in
  if up then
    match cells c !! key with
    | None => (inr false, c)
    | Some r =>
        if 0 <? seconds then
          (inr true,
           with_cells c (<[key := {| value := value r; lifetime := Some seconds |}]> (cells c)))
        else (inr true, with_cells c (base.delete key (cells c)))
    end
  else (inl ConnectionError, c).

(** TTL: [-2] for an absent key, [-1] for a key without expiry. *)
Definition TTL (key : string) (c : conn) : reply Z * conn :=
  let '(up, c) := attempt c in
  if up then
    match cells c !! key with
    | None => (inr (-2), c)
    | Some r => (inr (default (-1) (lifetime r)), c)
    end
  else (inl ConnectionError, c).

(** DEL: the number of keys removed. *)
Definition DEL (key : string) (c : conn) : reply Z * conn :=
  let '(up, c) := attempt c in
  if up then
    match cells c !! key with
    | None => (inr 0, c)
    | Some _ => (inr 1, with_cells c (base.delete key (cells c)))
    end
  else (inl ConnectionError, c).

End Redis.

(* ===================================================================== *)
(** ** The client wrapper ([app/redis_client.py]) *)
(* ===================================================================== *)

(** The methods of [RedisClient] that [RateLimiter] calls on [self.redis],
    over any state [S]: the real wrapper below and a [Mock(spec=RedisClient)]
    both provide them. *)
Class RedisClientSpec (S : Type) : Type := {
  client_get : string -> S -> option string * S;
  client_incr : string -> S -> option Z * S;
  client_expire : string -> Z -> S -> bool * S;
  client_ttl : string -> S -> Z * S;
  client_delete : string -> S -> bool * S;
}.

Module RedisClient.

(** [try: return self._client.get(key) / except RedisError: return None] *)
Definition get (key : string) (c : Redis.conn) : option string * Redis.conn :=
  match Redis.GET key c with
  | (inr v, c') => (v, c')
  | (inl _, c') => (None, c')
  end.

(** [try: return self._client.incr(key) / except RedisError: return None] *)
Definition incr (key : string) (c : Redis.conn) : option Z * Redis.conn :=
  match Redis.INCR key c with
  | (inr n, c') => (Some n, c')
  | (inl _, c') => (None, c')
  end.

(** [try: return self._client.expire(key, seconds) / except RedisError:
    return False] *)
Definition expire (key : string) (seconds : Z) (c : Redis.conn) : bool * Redis.conn :=
  match Redis.EXPIRE key seconds c with
  | (inr b, c') => (b, c')
  | (inl _, c') => (false, c')
  end.

(** [try: return self._client.ttl(key) / except RedisError: return -1] *)
Definition ttl (key : string) (c : Redis.conn) : Z * Redis.conn :=
  match Redis.TTL key c with
  | (inr n, c') => (n, c')
  | (inl _, c') => (-1, c')
  end.

(** [try: return bool(self._client.delete(key)) / except RedisError:
    return False] *)
Definition delete (key : string) (c : Redis.conn) : bool * Redis.conn :=
  match Redis.DEL key c with
  | (inr n, c') => (negb (n =? 0), c')
  | (inl _, c') => (false, c')
  end.

End RedisClient.

#[global] Instance redis_client : RedisClientSpec Redis.conn := {|
  client_get := RedisClient.get;
  client_incr := RedisClient.incr;
  client_expire := RedisClient.expire;
  client_ttl := RedisClient.ttl;
  client_delete := RedisClient.delete;
|}.

(** [Mock(spec=RedisClient)] of the unit tests with every [return_value]
    set: each method answers its configured value whatever the key. *)
Record Mock : Type := {
  get_return_value : option string;
  incr_return_value : option Z;
  expire_return_value : bool;
  ttl_return_value : Z;
  delete_return_value : bool;
}.

#[global] Instance mock_client : RedisClientSpec Mock := {|
  client_get _ m := (get_return_value m, m);
  client_incr _ m := (incr_return_value m, m);
  client_expire _ _ m := (expire_return_value m, m);
  client_ttl _ m := (ttl_return_value m, m);
  client_delete _ m := (delete_return_value m, m);
|}.

(* ===================================================================== *)
(** ** The rate limiter ([app/rate_limiter.py]) *)
(* ===================================================================== *)

Module RateLimiter.

Import Datetime.

(** Result of a rate limit check ([@dataclass RateLimitResult]);
    [retry_after] defaults to 0. *)
Record RateLimitResult : Type := {
  allowed : bool;
  limit : Z;
  remaining : Z;
  reset_at : datetime;
  current_count : Z;
  window : string;
  retry_after : Z;
}.

(** A call made on [self.redis], as a [Mock] records it. *)
Inductive call : Type :=
| Get (key : string)
| Incr (key : string)
| Expire (key : string) (seconds : Z)
| Ttl (key : string)
| Delete (key : string).

Definition key_of (c : call) : string :=
  match c with
  | Get k | Incr k | Expire k _ | Ttl k | Delete k => k
  end.

Definition is_write (c : call) : bool :=
  match c with
  | Incr _ | Expire _ _ | Delete _ => true
  | Get _ | Ttl _ => false
  end.

Definition is_expire (c : call) : bool :=
  match c with
  | Expire _ _ => true
  | _ => false
  end.

(** What a method of [RateLimiter] runs in: the client it holds, the wall
    clock ([clock] is what [datetime.now] returns next, [ticks] the
    readings after it; the clock stays at the last one), and the calls made
    on the client so far, oldest first. *)
Record world (S : Type) : Type := {
  redis : S;
  clock : datetime;
  ticks : list datetime;
  calls : list call;
}.
Arguments redis {S} w.
Arguments clock {S} w.
Arguments ticks {S} w.
Arguments calls {S} w.

(** Computations over a world that may raise. *)
Definition M (S A : Type) : Type := world S -> Py.outcome A * world S.

Definition ret {S A} (a : A) : M S A := fun w => (Py.Returned a, w).

Definition raise {S A} (e : Py.exn) : M S A := fun w => (Py.Raised e, w).

Definition bind {S A B} (m : M S A) (k : A -> M S B) : M S B :=
  fun w =>
    match m w with
    | (Py.Returned a, w') => k a w'
    | (Py.Raised e, w') => (Py.Raised e, w')
    end.

Notation "x <- m ;; k" := (bind m (fun x => k))
  (at level 100, m at next level, right associativity).

Section Limiter.

Context {S : Type} {client : RedisClientSpec S}.

(** [RATE_LIMIT_STRATEGIES], the module-level table the methods read. *)
Variable strategies : gmap string Config.Strategy.

(** The world after one reading of the clock. *)
Definition advance (w : world S) : world S :=
  match ticks w with
  | [] => w
  | t :: ts => {| redis := redis w; clock := t; ticks := ts; calls := calls w |}
  end.

(** [datetime.now(timezone.utc)] *)
Definition datetime_now : M S datetime :=
  fun w => (Py.Returned (clock w), advance w).

(** The world once the client has moved to [r] and [new] calls have been
    recorded. *)
Definition after (w : world S) (r : S) (new : list call) : world S :=
  {| redis := r; clock := clock w; ticks := ticks w; calls := calls w ++ new |}.

(** A method call on [self.redis]: it is recorded and runs on the client. *)
Definition on_redis {A} (c : call) (op : S -> A * S) : M S A :=
  fun w =>
    let '(a, r) := op (redis w) in
    (Py.Returned a, after w r [c]).

Definition redis_get (key : string) : M S (option string) :=
  on_redis (Get key) (client_get key).
Definition redis_incr (key : string) : M S (option Z) :=
  on_redis (Incr key) (client_incr key).
Definition redis_expire (key : string) (seconds : Z) : M S bool :=
  on_redis (Expire key seconds) (client_expire key seconds).
Definition redis_ttl (key : string) : M S Z :=
  on_redis (Ttl key) (client_ttl key).
Definition redis_delete (key : string) : M S bool :=
  on_redis (Delete key) (client_delete key).

(** [RATE_LIMIT_STRATEGIES.get(identifier_type, RATE_LIMIT_STRATEGIES["ip"])]:
    the default is evaluated first and raises [KeyError] when the table has
    no ["ip"] entry. *)
Definition strategy_for (identifier_type : string) : M S Config.Strategy :=
  match strategies !! "ip" with
  | None => raise Py.KeyError
  | Some fallback => ret (default fallback (strategies !! identifier_type))
  end.

(** [_build_redis_key]: [f"rate:{identifier_type}:{identifier}:{window}"] *)
Definition _build_redis_key (identifier_type identifier window : string) : string :=
  "rate:" +:+ identifier_type +:+ ":" +:+ identifier +:+ ":" +:+ window.

(** [(epoch // window_seconds) * window_seconds]; [//] raises
    [ZeroDivisionError] on a zero divisor. *)
Definition window_start_of (now : datetime) (window_seconds : Z) : M S Z :=
  let epoch := int_timestamp now in
  if window_seconds =? 0 then raise Py.ZeroDivisionError
  else ret ((epoch / window_seconds) * window_seconds).

(** [_get_current_window] *)
Definition _get_current_window (window_seconds : Z) : M S string :=
  now <- datetime_now ;;
  if window_seconds =? 60 then
    ret (strftime_minute now)
  else if window_seconds =? 3600 then
    ret (strftime_hour now)
  else
    window_start <- window_start_of now window_seconds ;;
    ret (Py.str window_start).

(** [_calculate_reset_time]; the [window] argument is not used by the
    source, the clock is read again. *)
Definition _calculate_reset_time (window : string) (window_seconds : Z) : M S datetime :=
  now <- datetime_now ;;
  if window_seconds =? 60 then
    let reset := replace_second_microsecond now in
    ret (reset + timedelta_minutes 1)
  else if window_seconds =? 3600 then
    let reset := replace_minute_second_microsecond now in
    ret (reset + timedelta_hours 1)
  else
    window_start <- window_start_of now window_seconds ;;
    ret (fromtimestamp window_start + timedelta_seconds window_seconds).

(** [_get_current_count]: 0 when the key is absent, and 0 when [int]
    raises [ValueError] on the stored text. *)
Definition _get_current_count (redis_key : string) : M S Z :=
  count_str <- redis_get redis_key ;;
  match count_str with
  | None => ret 0
  | Some s =>
      match Py.int s with
      | Some n => ret n
      | None => ret 0
      end
  end.

(** [check_rate_limit] *)
Definition check_rate_limit (identifier identifier_type : string) : M S RateLimitResult :=
  config <- strategy_for identifier_type ;;
  let limit := Config.limit config in
  let window_seconds := Config.window config in
  window <- _get_current_window window_seconds ;;
  let redis_key := _build_redis_key identifier_type identifier window in
  current_count <- _get_current_count redis_key ;;
  if limit <=? current_count then
    (* Deny if limit already reached *)
    ttl <- redis_ttl redis_key ;;
    let retry_after := if 0 <? ttl then ttl else window_seconds in
    reset <- _calculate_reset_time window window_seconds ;;
    ret {| allowed := false; limit := limit; remaining := 0;
           reset_at := reset; current_count := current_count;
           window := window; retry_after := retry_after |}
  else
    new_count <- redis_incr redis_key ;;
    (* Set TTL on first request *)
    _ <- (if Py.eq_int new_count 1
          then redis_expire redis_key window_seconds
          else ret false) ;;
    match new_count with
    | None => raise Py.TypeError        (* limit - None *)
    | Some n =>
        let remaining := Z.max 0 (limit - n) in
        reset <- _calculate_reset_time window window_seconds ;;
        ret {| allowed := true; limit := limit; remaining := remaining;
               reset_at := reset; current_count := n;
               window := window; retry_after := 0 |}
    end.

(** [get_rate_limit_status] *)
Definition get_rate_limit_status (identifier identifier_type : string) : M S RateLimitResult :=
  config <- strategy_for identifier_type ;;
  let limit := Config.limit config in
  let window_seconds := Config.window config in
  window <- _get_current_window window_seconds ;;
  let redis_key := _build_redis_key identifier_type identifier window in
  current_count <- _get_current_count redis_key ;;
  let remaining := Z.max 0 (limit - current_count) in
  reset <- _calculate_reset_time window window_seconds ;;
  ret {| allowed := current_count <? limit; limit := limit; remaining := remaining;
         reset_at := reset; current_count := current_count;
         window := window; retry_after := 0 |}.

(** [reset_rate_limit] *)
Definition reset_rate_limit (identifier identifier_type : string) : M S bool :=
  config <- strategy_for identifier_type ;;
  window <- _get_current_window (Config.window config) ;;
  let redis_key := _build_redis_key identifier_type identifier window in
  redis_delete redis_key.

(** *** The pure parts of the methods, named for the statements below *)

(** The strategy [strategy_for] selects; [None] is its [KeyError]. *)
Definition strategy_of (identifier_type : string) : option Config.Strategy :=
  match strategies !! "ip" with
  | None => None
  | Some fallback => Some (default fallback (strategies !! identifier_type))
  end.

(** The label [_get_current_window] derives from a clock reading; [None]
    is its [ZeroDivisionError]. *)
Definition label_at (window_seconds : Z) (now : datetime) : option string :=
  if window_seconds =? 60 then Some (strftime_minute now)
  else if window_seconds =? 3600 then Some (strftime_hour now)
  else if window_seconds =? 0 then None
  else Some (Py.str ((int_timestamp now / window_seconds) * window_seconds)).

(** The reset instant [_calculate_reset_time] derives from a clock
    reading. *)
Definition reset_for (window_seconds : Z) (now : datetime) : option datetime :=
  if window_seconds =? 60 then
    Some (replace_second_microsecond now + timedelta_minutes 1)
  else if window_seconds =? 3600 then
    Some (replace_minute_second_microsecond now + timedelta_hours 1)
  else if window_seconds =? 0 then None
  else Some (fromtimestamp ((int_timestamp now / window_seconds) * window_seconds)
             + timedelta_seconds window_seconds).

(** The count [_get_current_count] makes of what [get] returned. *)
Definition count_of (count_str : option string) : Z :=
  match count_str with
  | None => 0
  | Some s => default 0 (Py.int s)
  end.

(** [n] consecutive calls of [check_rate_limit] for one identifier, each
    an independent request: a call that raises does not stop the next. *)
Fixpoint checks (n : nat) (identifier identifier_type : string) (w : world S)
  : list (Py.outcome RateLimitResult) * world S :=
  match n with
  | O => ([], w)
  | Datatypes.S n' =>
      let '(o, w1) := check_rate_limit identifier identifier_type w in
      let '(os, w2) := checks n' identifier identifier_type w1 in
      (o :: os, w2)
  end.

End Limiter.

(** The outcome is an allowed decision. *)
Definition is_allowed (o : Py.outcome RateLimitResult) : bool :=
  match o with
  | Py.Returned d => allowed d
  | Py.Raised _ => false
  end.

(** The outcome is a denial. *)
Definition is_denied (o : Py.outcome RateLimitResult) : bool :=
  match o with
  | Py.Returned d => negb (allowed d)
  | Py.Raised _ => false
  end.

(** The record of [key] is the integer [n]; no record counts as 0. *)
Definition holds_count (m : gmap string Redis.cell) (key : string) (n : Z) : Prop :=
  match m !! key with
  | None => n = 0
  | Some r => Redis.as_integer (Redis.value r) = Some n
  end.

(** Every reading the clock will give falls in the window [label]. *)
Definition in_window {S} (window_seconds : Z) (label : string) (w : world S) : Prop :=
  Forall (fun t => label_at window_seconds t = Some label) (clock w :: ticks w).

(** The record an allowed call leaves behind when it found count [c]:
    the next count, with the expiry armed on the first increment and left
    as it was otherwise. *)
Definition counted (old : option Redis.cell) (c window_seconds : Z) : Redis.cell :=
  {| Redis.value := Py.str (c + 1);
     Redis.lifetime := if c + 1 =? 1 then Some window_seconds
                       else old ≫= Redis.lifetime |}.

(** The counter of [key] lives: its record holds a count of at least 1,
    with lifetime [l]. *)
Definition living (m : gmap string Redis.cell) (key : string) (l : option Z) : Prop :=
  exists r c, m !! key = Some r /\ Redis.as_integer (Redis.value r) = Some c
              /\ 1 <= c /\ Redis.lifetime r = l.

(** The store is reachable and the clock stays in the window [label]. *)
Definition steady (window_seconds : Z) (label : string) (w : world Redis.conn) : Prop :=
  in_window window_seconds label w /\ Redis.outage (redis w) = [].

(** The [expire] calls among a list of calls. *)
Definition expire_calls (l : list call) : list call := filter (fun c => is_expire c = true) l.

(** The calls made between two worlds. *)
Definition new_calls {S} (w w' : world S) : list call :=
  drop (length (calls w)) (calls w').

End RateLimiter.

(* ===================================================================== *)
(** ** Concrete worlds used by the examples *)
(* ===================================================================== *)

Module Scenario.

Import RateLimiter.

(** 2025-10-24T14:30:15.250000Z *)
Definition now0 : Datetime.datetime := 1761316215250000.

(** The key of identifier ["u1"], kind ["user"], in the minute of [now0]. *)
Definition key0 : string := "rate:user:u1:2025-10-24-14:30".

(** A reachable store holding [m]. *)
Definition store (m : gmap string Redis.cell) : Redis.conn :=
  {| Redis.cells := m; Redis.outage := [] |}.

(** A world whose clock stands at [now0]. *)
Definition world_of {S} (r : S) : world S :=
  {| redis := r; clock := now0; ticks := []; calls := [] |}.

(** No record at all. *)
Definition fresh : world Redis.conn := world_of (store ∅).

(** The counter of ["u1"] stands at [v], with [s] seconds to live. *)
Definition counting (v : string) (s : option Z) : world Redis.conn :=
  world_of (store {[ key0 := {| Redis.value := v; Redis.lifetime := s |} ]}).

(** The store answers the GET and is unreachable for the command after
    it. *)
Definition failing_incr : world Redis.conn :=
  world_of {| Redis.cells := ∅; Redis.outage := [false; true] |}.


(** A table with a small quota over a window that is neither a minute nor
    an hour. *)
Definition small_strategies : gmap string Config.Strategy :=
  <["user" := {| Config.limit := 2; Config.window := 7 |}]>
    Config.RATE_LIMIT_STRATEGIES.

(** The ["user"] strategy of [small_strategies], the 7-second bucket of
    [now0] and the counter key of ["u1"] in it. *)
Definition small : Config.Strategy := {| Config.limit := 2; Config.window := 7 |}.
Definition label7 : string := "1761316214".
Definition key7 : string := "rate:user:u1:1761316214".

(** The mock of [test_rate_limit_first_request]. *)
Definition first_request_mock : Mock :=
  {| get_return_value := None; incr_return_value := Some 1;
     expire_return_value := true; ttl_return_value := -2;
     delete_return_value := true |}.

(** The mock of [test_rate_limit_at_limit]. *)
Definition at_limit_mock : Mock :=
  {| get_return_value := Some "100"; incr_return_value := Some 101;
     expire_return_value := true; ttl_return_value := 30;
     delete_return_value := true |}.


(** The strategy both kinds get from [RATE_LIMIT_STRATEGIES]. *)
Definition free_minute : Config.Strategy :=
  {| Config.limit := 20; Config.window := 60 |}.

(** The minute of [now0] and the instant it ends. *)
Definition label0 : string := "2025-10-24-14:30".
Definition reset0 : Datetime.datetime := 1761316260000000.

(** A denial in the minute of [now0]. *)
Definition denial (limit count retry : Z) : RateLimitResult :=
  {| allowed := false; limit := limit; remaining := 0; reset_at := reset0;
     current_count := count; window := label0; retry_after := retry |}.

(** An allowed decision in the minute of [now0]. *)
Definition admission (limit count : Z) : RateLimitResult :=
  {| allowed := true; limit := limit; remaining := Z.max 0 (limit - count);
     reset_at := reset0; current_count := count; window := label0;
     retry_after := 0 |}.

End Scenario.

(* ===================================================================== *)
(** ** More of Python's [str] *)
(* ===================================================================== *)

Module Text.

(** [s.split(sep)] for a separator of one character: the pieces between
    the separators, at least one. *)
Fixpoint split (sep : ascii) (s : string) : list string :=
  match s with
  | EmptyString => [EmptyString]
  | String c s' =>
      if Ascii.eqb c sep then EmptyString :: split sep s'
      else match split sep s' with
           | piece :: pieces => String c piece :: pieces
           | [] => [String c EmptyString]
           end
  end.

(** [sep.join(pieces)] for a separator of one character. *)
Fixpoint join (sep : ascii) (pieces : list string) : string :=
  match pieces with
  | [] => EmptyString
  | [piece] => piece
  | piece :: rest => piece +:+ String sep (join sep rest)
  end.

(** [c in s] for a character [c]. *)
Fixpoint contains (c : ascii) (s : string) : bool :=
  match s with
  | EmptyString => false
  | String c' s' => Ascii.eqb c' c || contains c s'
  end.

(** [s.count(c)] for a character [c]. *)
Fixpoint count (c : ascii) (s : string) : nat :=
  match s with
  | EmptyString => O
  | String c' s' => (if Ascii.eqb c' c then 1 else 0) + count c s'
  end.

(** [s.lower()] on ASCII text. *)
Definition lower_char (c : ascii) : ascii :=
  let n := nat_of_ascii c in
  if (65 <=? n)%nat && (n <=? 90)%nat then ascii_of_nat (n + 32) else c.

Fixpoint lower (s : string) : string :=
  match s with
  | EmptyString => EmptyString
  | String c s' => String (lower_char c) (lower s')
  end.

(** Truth value of an [Optional[str]]: [None] and [""] are false. *)
Definition truthy (s : option string) : bool :=
  match s with
  | Some (String _ _) => true
  | _ => false
  end.

(** [a or b] on [Optional[str]]. *)
Definition or_else (a b : option string) : option string :=
  if truthy a then a else b.

(** The first and last characters of [s] are no white space. *)
Definition trimmed (s : string) : Prop := Py.strip s = s.

(** Text is stripped on the left when it is empty or starts with a
    character that is no white space. *)
Definition left_clean (s : string) : Prop :=
  match s with
  | EmptyString => True
  | String c _ => Py.is_space c = false
  end.

End Text.

(* ===================================================================== *)
(** ** The middleware ([app/middleware.py]) *)
(* ===================================================================== *)

Module Middleware.

Import RateLimiter.

(** What the middleware reads of a [Request]: the path of the URL, the
    headers and the host of the peer ([request.client], which may be
    [None]).  Header names are matched without regard to case; the map is
    keyed by the lower-case names, as the server delivers them. *)
Record Request : Type := {
  path : string;
  headers : gmap string string;
  client : option string;
}.

(** [request.headers.get(name)] *)
Definition header (request : Request) (name : string) : option string :=
  headers request !! Text.lower name.

(** The body of a response: what the downstream handler produced, or the
    JSON object of a rejection. *)
Inductive Content (P : Type) : Type :=
| Payload (p : P)
| Rejection (error : string) (limit retry_after : Z) (window : string).
Arguments Payload {P} p.
Arguments Rejection {P} error limit retry_after window.

(** A response: status, the headers set by the application (keyed by
    lower-case name; the framework adds those that describe the body when
    it sends the response) and the body. *)
Record Response (P : Type) : Type := {
  status_code : Z;
  response_headers : gmap string string;
  content : Content P;
}.
Arguments status_code {P} r.
Arguments response_headers {P} r.
Arguments content {P} r.

(** [response.headers.get(name)] *)
Definition response_header {P} (response : Response P) (name : string)
  : option string :=
  response_headers response !! Text.lower name.

(** Paths that bypass rate limiting. *)
Definition BYPASS_PATHS : list string :=
  ["/health"; "/rate-limit/status"; "/docs"; "/redoc"; "/openapi.json"; "/"].

(** [response.headers[key] = value] *)
Definition set_header (key value : string) (h : gmap string string)
  : gmap string string :=
  <[Text.lower key := value]> h.

(** [for key, value in headers.items(): response.headers[key] = value] *)
Definition set_headers (items : list (string * string)) (h : gmap string string)
  : gmap string string :=
  foldl (fun acc kv => set_header kv.1 kv.2 acc) h items.

(** [_extract_identifier] *)
Definition _extract_identifier (request : Request) : string * string :=
  let api_key := Text.or_else (header request "X-API-Key")
                              (header request "x-api-key") in
  if Text.truthy api_key then (default "" api_key, "user")
  else
    let forwarded_for := header request "X-Forwarded-For" in
    let client_ip :=
      if Text.truthy forwarded_for
      then Py.strip (hd "" (Text.split "," (default "" forwarded_for)))
      else match client request with
           | Some host => host
           | None => "unknown"
           end in
    (client_ip, "ip").

(** [_build_rate_limit_headers]: the dict, in insertion order. *)
Definition _build_rate_limit_headers (result : RateLimitResult)
  : list (string * string) :=
  [("X-RateLimit-Limit", Py.str (limit result));
   ("X-RateLimit-Remaining", Py.str (remaining result));
   ("X-RateLimit-Reset", Py.str (Datetime.int_timestamp (reset_at result)))]
  ++ (if negb (allowed result)
      then [("Retry-After", Py.str (retry_after result))]
      else []).

Section Dispatch.

Context {S : Type} {client_spec : RedisClientSpec S}.

(** The strategy table, the state [H] of the application behind the
    middleware and the payloads [P] it answers with. *)
Variable strategies : gmap string Config.Strategy.
Context {H P : Type}.

(** [call_next]: the next middleware or the endpoint.  It may use the
    same store as the rate limiter, and an exception of the endpoint comes
    back through it. *)
Variable call_next :
  Request -> world S -> H -> Py.outcome (Response P) * world S * H.

(** [dispatch]: the outcome, the world of the rate limiter and the state
    of the application after the request. *)
Definition dispatch (request : Request) (w : world S) (h : H)
  : Py.outcome (Response P) * world S * H :=
  if bool_decide (path request ∈ BYPASS_PATHS) then
    call_next request w h
  else
    let '(identifier, identifier_type) := _extract_identifier request in
    match check_rate_limit strategies identifier identifier_type w with
    | (Py.Raised e, w') => (Py.Raised e, w', h)
    | (Py.Returned result, w') =>
        if negb (allowed result) then
          (Py.Returned
             {| status_code := 429;
                response_headers := set_headers (_build_rate_limit_headers result) ∅;
                content := Rejection "Rate limit exceeded" (limit result)
                             (retry_after result) (window result) |},
           w', h)
        else
          match call_next request w' h with
          | (Py.Raised e, w2, h') => (Py.Raised e, w2, h')
          | (Py.Returned response, w2, h') =>
              (Py.Returned
                 {| status_code := status_code response;
                    response_headers :=
                      set_headers (_build_rate_limit_headers result)
                        (response_headers response);
                    content := content response |},
               w2, h')
          end
    end.

(** The same request sent [n] times; a request whose handling raises is
    answered by the exception handler of the application and the next one
    is served all the same. *)
Fixpoint serve (n : nat) (request : Request) (w : world S) (h : H)
  : list (Py.outcome (Response P)) * world S * H :=
  match n with
  | O => ([], w, h)
  | Datatypes.S n' =>
      let '(o, w1, h1) := dispatch request w h in
      let '(os, w2, h2) := serve n' request w1 h1 in
      (o :: os, w2, h2)
  end.

End Dispatch.

End Middleware.

(* ===================================================================== *)
(** ** The endpoints that use the limiter and the store ([app/main.py]) *)
(* ===================================================================== *)

Module Main.

Import RateLimiter.

(** Response model of the status endpoint ([RateLimitStatus]). *)
Record RateLimitStatus : Type := {
  identifier : string;
  identifier_type : string;
  limit : Z;
  remaining : Z;
  reset_at : Datetime.datetime;
  window : string;
  current_count : Z;
}.

(** Response model of the health endpoint ([HealthResponse]). *)
Record HealthResponse : Type := {
  status : string;
  redis_status : string;
  version : string;
  timestamp : Datetime.datetime;
}.

(** PING of the raw client. *)
Definition PING (c : Redis.conn) : Redis.reply bool * Redis.conn :=
  let '(up, c) := Redis.attempt c in
  if up then (inr true, c) else (inl Redis.ConnectionError, c).

(** [RedisClient.ping]:
    [try: return self._client.ping() / except RedisError: return False] *)
Definition ping (c : Redis.conn) : bool * Redis.conn :=
  match PING c with
  | (inr b, c') => (b, c')
  | (inl _, c') => (false, c')
  end.

Section Endpoints.

Variable strategies : gmap string Config.Strategy.

(** [__version__] of the package. *)
Variable __version__ : string.

(** [health_check] *)
Definition health_check (w : world Redis.conn) : HealthResponse * world Redis.conn :=
  let '(alive, c) := ping (redis w) in
  let redis_status := if alive then "connected" else "disconnected" in
  let w1 := {| redis := c; clock := clock w; ticks := ticks w; calls := calls w |} in
  ({| status := if String.eqb redis_status "connected" then "healthy" else "degraded";
      redis_status := redis_status;
      version := __version__;
      timestamp := clock w1 |},
   advance w1).

Context {S : Type} {client_spec : RedisClientSpec S}.

(** [get_rate_limit_status] of [app/main.py]; [x_api_key] is the header
    [X-API-Key] of the request. *)
Definition get_rate_limit_status (request : Middleware.Request) : M S RateLimitStatus :=
  let x_api_key := Middleware.header request "X-API-Key" in
  let '(identifier, identifier_type) :=
    if Text.truthy x_api_key then (default "" x_api_key, "user")
    else
      let forwarded_for := Middleware.header request "X-Forwarded-For" in
      (if Text.truthy forwarded_for
       then Py.strip (hd "" (Text.split "," (default "" forwarded_for)))
       else match Middleware.client request with
            | Some host => host
            | None => "unknown"
            end,
       "ip") in
  result <- RateLimiter.get_rate_limit_status strategies identifier identifier_type ;;
  ret {| identifier := identifier;
         identifier_type := identifier_type;
         limit := RateLimiter.limit result;
         remaining := RateLimiter.remaining result;
         reset_at := RateLimiter.reset_at result;
         window := RateLimiter.window result;
         current_count := RateLimiter.current_count result |}.

(** The status endpoint as the middleware sees it behind [call_next]:
    the model is answered with status 200. *)
Definition status_route {H : Type} (request : Middleware.Request) (w : world S) (h : H)
  : Py.outcome (Middleware.Response RateLimitStatus) * world S * H :=
  match get_rate_limit_status request w with
  | (Py.Returned model, w') =>
      (Py.Returned {| Middleware.status_code := 200;
                      Middleware.response_headers := ∅;
                      Middleware.content := Middleware.Payload model |},
       w', h)
  | (Py.Raised e, w') => (Py.Raised e, w', h)
  end.

End Endpoints.

End Main.

(* ===================================================================== *)
(** ** Sentinel hosts and the process-wide client ([app/redis_client.py]) *)
(* ===================================================================== *)

Module Sentinel.

(** One entry of [redis_sentinel_hosts]; [None] is the [ValueError] of
    unpacking [host_str.split(":")] into two names or of [int(port)]. *)
Definition parse_host (host_str : string) : option (string * Z) :=
  let host_str := Py.strip host_str in
  if Text.contains ":" host_str then
    match Text.split ":" host_str with
    | [host; port] =>
        match Py.int port with
        | Some n => Some (host, n)
        | None => None
        end
    | _ => None
    end
  else Some (host_str, 26379).

(** [_parse_sentinel_hosts] on the text of the setting; the first entry
    that raises ends the loop. *)
Definition _parse_sentinel_hosts (redis_sentinel_hosts : string)
  : option (list (string * Z)) :=
  mapM parse_host (Text.split "," redis_sentinel_hosts).

(** A host as it is written in the setting. *)
Definition show_host (h : string * Z) : string := h.1 +:+ ":" +:+ Py.str h.2.

(** A host name that can be written in the setting and read back. *)
Definition plain_host (host : string) : Prop :=
  Text.contains "," host = false /\ Text.contains ":" host = false
  /\ Text.trimmed host.

(** A port [int()] reads back: one of [MAX_STR_DIGITS] digits at most. *)
Definition printable_port (port : Z) : Prop :=
  Z.abs port < 10 ^ Z.of_nat Py.MAX_STR_DIGITS.

End Sentinel.

Module Singleton.

(** The module-level [_redis_client]: [None], or the client created by
    the [n]-th call of the constructor. *)
Record globals : Type := {
  _redis_client : option nat;
  created : nat;
  server : Redis.conn;
}.

(** [RedisClient.connect]: the handle is set up and one PING is sent;
    its [RedisError] is raised again. *)
Definition connect (c : Redis.conn) : Redis.reply unit * Redis.conn :=
  match Main.PING c with
  | (inr _, c') => (inr tt, c')
  | (inl e, c') => (inl e, c')
  end.

(** [get_redis_client] *)
Definition get_redis_client (g : globals) : Redis.reply nat * globals :=
  match _redis_client g with
  | None =>
      let instance := created g in
      match connect (server g) with
      | (inr _, c') =>
          (inr instance,
           {| _redis_client := Some instance; created := Datatypes.S (created g);
              server := c' |})
      | (inl e, c') =>
          (inl e,
           {| _redis_client := Some instance; created := Datatypes.S (created g);
              server := c' |})
      end
  | Some instance => (inr instance, g)
  end.

(** [close_redis_client] *)
Definition close_redis_client (g : globals) : globals :=
  match _redis_client g with
  | Some _ => {| _redis_client := None; created := created g; server := server g |}
  | None => g
  end.

End Singleton.

(* ===================================================================== *)
(** ** The counters of the load test ([scripts/load_test.py]) *)
(* ===================================================================== *)

Module LoadTest.

Section Result.

(** Latencies are floats; only their number matters here. *)
Variable latency : Type.

Record LoadTestResult : Type := {
  total_requests : Z;
  successful_requests : Z;
  failed_requests : Z;
  rate_limited_requests : Z;
  latencies : list latency;
}.

(** [LoadTestResult.__init__] *)
Definition init : LoadTestResult :=
  {| total_requests := 0; successful_requests := 0; failed_requests := 0;
     rate_limited_requests := 0; latencies := [] |}.

(** [add_result] *)
Definition add_result (r : LoadTestResult) (status_code : Z) (l : latency)
  : LoadTestResult :=
  let total := total_requests r + 1 in
  let lat := (latencies r ++ [l])%list in
  if status_code =? 200 then
    {| total_requests := total; successful_requests := successful_requests r + 1;
       failed_requests := failed_requests r;
       rate_limited_requests := rate_limited_requests r; latencies := lat |}
  else if status_code =? 429 then
    {| total_requests := total; successful_requests := successful_requests r;
       failed_requests := failed_requests r;
       rate_limited_requests := rate_limited_requests r + 1; latencies := lat |}
  else
    {| total_requests := total; successful_requests := successful_requests r;
       failed_requests := failed_requests r + 1;
       rate_limited_requests := rate_limited_requests r; latencies := lat |}.

(** The results of a run added one by one. *)
Definition add_results (results : list (Z * latency)) : LoadTestResult :=
  foldl (fun r x => add_result r x.1 x.2) init results.

End Result.

End LoadTest.

(* ===================================================================== *)
(** ** More concrete worlds *)
(* ===================================================================== *)

Module Cases.

Import RateLimiter Scenario.

(** A table without the ["ip"] entry. *)
Definition only_user : gmap string Config.Strategy := {[ "user" := free_minute ]}.

(** The counter of ["u2"] in the minute of [now0]. *)
Definition key_u2 : string := "rate:user:u2:2025-10-24-14:30".

(** The counters of ["u1"] and ["u2"], both running. *)
Definition two_users : world Redis.conn :=
  world_of (store (<[key0 := {| Redis.value := "3"; Redis.lifetime := Some 30 |}]>
                   {[ key_u2 := {| Redis.value := "9"; Redis.lifetime := Some 12 |} ]})).

(** The counter of ["u1"] stands at 7 and the store fails on the next
    command. *)
Definition unreachable : world Redis.conn :=
  world_of {| Redis.cells := {[ key0 := {| Redis.value := "7";
                                           Redis.lifetime := Some 30 |} ]};
              Redis.outage := [true] |}.

(** The counter of ["u1"] in the minute before [now0], at the limit. *)
Definition earlier_label : string := "2025-10-24-14:29".
Definition earlier_cell : Redis.cell :=
  {| Redis.value := "20"; Redis.lifetime := Some 5 |}.
Definition after_rollover : world Redis.conn :=
  world_of (store {[ _build_redis_key "user" "u1" earlier_label := earlier_cell ]}).

(** A request for the protected resource that carries an API key. *)
Definition keyed_request : Middleware.Request :=
  {| Middleware.path := "/api/resource";
     Middleware.headers := {[ "x-api-key" := "u1" ]};
     Middleware.client := Some "10.0.0.9" |}.

(** A request without a key that came through two proxies. *)
Definition forwarded_chain : string := " 203.0.113.7 , 10.0.0.1".
Definition proxied_request : Middleware.Request :=
  {| Middleware.path := "/api/resource";
     Middleware.headers := {[ "x-forwarded-for" := forwarded_chain ]};
     Middleware.client := Some "10.0.0.9" |}.

(** A request without a key and without proxies, from a peer that is not
    known. *)
Definition bare_request : Middleware.Request :=
  {| Middleware.path := "/api/resource";
     Middleware.headers := ∅;
     Middleware.client := None |}.

(** The status request of the client of [keyed_request]. *)
Definition status_request : Middleware.Request :=
  {| Middleware.path := "/rate-limit/status";
     Middleware.headers := {[ "x-api-key" := "u1" ]};
     Middleware.client := Some "10.0.0.9" |}.

(** A handler in the manner of [protected_resource]: it reads the clock
    once, keeps away from the store and answers 200; its state counts its
    runs. *)
Definition counting_handler (request : Middleware.Request) (w : world Redis.conn)
    (runs : nat)
  : Py.outcome (Middleware.Response unit) * world Redis.conn * nat :=
  (Py.Returned {| Middleware.status_code := 200;
                  Middleware.response_headers :=
                    {[ "content-type" := "application/json" ]};
                  Middleware.content := Middleware.Payload tt |},
   advance w, Datatypes.S runs).

(** The status model of ["u1"] when its counter stands at 3. *)
Definition status_at_3 : Main.RateLimitStatus :=
  {| Main.identifier := "u1"; Main.identifier_type := "user";
     Main.limit := 20; Main.remaining := 17; Main.reset_at := reset0;
     Main.window := label0; Main.current_count := 3 |}.

(** Two sentinels, one on the default port and one on another. *)
Definition two_sentinels : list (string * Z) :=
  [("sentinel-1", 26379); ("10.0.0.5", 26380)].

(** No client yet, and a server that does not answer the next command. *)
Definition server_down : Singleton.globals :=
  {| Singleton._redis_client := None; Singleton.created := 0;
     Singleton.server := {| Redis.cells := ∅; Redis.outage := [true] |} |}.

(** The minute of [now0] ends between the two readings of the clock. *)
Definition across_boundary : world Redis.conn :=
  {| redis := store ∅; clock := now0; ticks := [reset0]; calls := [] |}.

(** The status of ["u1"] read across that boundary. *)
Definition late_status : RateLimitResult :=
  {| allowed := true; limit := 20; remaining := 20;
     reset_at := 1761316320000000; current_count := 0; window := label0;
     retry_after := 0 |}.

(** A world without records whose clock stands at [t]. *)
Definition world_at (t : Datetime.datetime) : world Redis.conn :=
  {| redis := store ∅; clock := t; ticks := []; calls := [] |}.

(** [n] zeros. *)
Definition zeros (n : nat) : string := string_of_list_ascii (repeat "0"%char n).

(** 2600-01-01T00:00:12.999999Z and 1969-12-31T23:59:59.500000Z. *)
Definition far_future : Datetime.datetime := 19880899212999999.
Definition before_epoch : Datetime.datetime := -500000.

End Cases.

(* ===================================================================== *)
(** ** Python built-ins: [int] reads back what [str] prints *)
(* ===================================================================== *)

Section PyFacts.

Import Py.

Lemma digits_printed (d : Decimal.uint) :
  all_chars is_digit (NilEmpty.string_of_uint d) = true.
Proof. induction d; simpl; auto. Qed.

#[local] Ltac by_code_point :=
  repeat match goal with
         | |- context [(?a <=? ?b)%nat] => destruct (Nat.leb_spec a b)
         | |- context [(?a =? ?b)%nat] => destruct (Nat.eqb_spec a b)
         end; simpl; try reflexivity; lia.

Lemma digit_not_space (c : ascii) : is_digit c = true -> is_space c = false.
Proof.
  unfold is_digit, is_space. intros Hd.
  apply andb_true_iff in Hd as [H1 H2].
  apply Nat.leb_le in H1. apply Nat.leb_le in H2. by_code_point.
Qed.

Lemma digit_not_int_space (c : ascii) : is_digit c = true -> is_int_space c = false.
Proof.
  unfold is_digit, is_int_space. intros Hd.
  apply andb_true_iff in Hd as [H1 H2].
  apply Nat.leb_le in H1. apply Nat.leb_le in H2. by_code_point.
Qed.

(** [int()] skips no more than [strip()] removes. *)
Lemma int_space_is_space (c : ascii) : is_int_space c = true -> is_space c = true.
Proof.
  unfold is_int_space, is_space. intros Hc.
  destruct ((9 <=? nat_of_ascii c)%nat && (nat_of_ascii c <=? 13)%nat);
    [reflexivity|].
  destruct (Nat.eqb_spec (nat_of_ascii c) 133) as [->|]; [reflexivity|].
  destruct (Nat.eqb_spec (nat_of_ascii c) 160) as [->|]; [reflexivity|].
  destruct (Nat.eqb_spec (nat_of_ascii c) 32) as [->|]; [reflexivity|].
  discriminate Hc.
Qed.

Lemma digit_not_sign (c : ascii) :
  is_digit c = true -> Ascii.eqb c "-" = false /\ Ascii.eqb c "+" = false
                       /\ Ascii.eqb c "_" = false.
Proof.
  intros Hd. repeat split; apply Ascii.eqb_neq; intros ->; discriminate Hd.
Qed.

Lemma rstrip_digits (s : string) :
  all_chars is_digit s = true -> rstrip s = s.
Proof.
  induction s as [|c s IH]; simpl; [reflexivity|].
  intros Hs. apply andb_true_iff in Hs as [Hc Hs].
  rewrite (IH Hs). destruct s; [|reflexivity].
  now rewrite (digit_not_space c Hc).
Qed.

Lemma lstrip_digits (s : string) :
  all_chars is_digit s = true -> lstrip s = s.
Proof.
  destruct s as [|c s]; simpl; [reflexivity|].
  intros Hs. apply andb_true_iff in Hs as [Hc _].
  now rewrite (digit_not_space c Hc).
Qed.

Lemma int_rstrip_digits (s : string) :
  all_chars is_digit s = true -> int_rstrip s = s.
Proof.
  induction s as [|c s IH]; simpl; [reflexivity|].
  intros Hs. apply andb_true_iff in Hs as [Hc Hs].
  rewrite (IH Hs). destruct s; [|reflexivity].
  now rewrite (digit_not_int_space c Hc).
Qed.

Lemma int_lstrip_digits (s : string) :
  all_chars is_digit s = true -> int_lstrip s = s.
Proof.
  destruct s as [|c s]; simpl; [reflexivity|].
  intros Hs. apply andb_true_iff in Hs as [Hc _].
  now rewrite (digit_not_int_space c Hc).
Qed.

Lemma digits_of_digits (s : string) (prev : bool) :
  all_chars is_digit s = true -> s <> EmptyString ->
  digits_of prev s = Some s.
Proof.
  revert prev. induction s as [|c s IH]; intros prev Hs Hne; [congruence|].
  simpl in Hs. apply andb_true_iff in Hs as [Hc Hs].
  simpl. rewrite Hc. destruct s as [|c' s'].
  - reflexivity.
  - rewrite (IH true Hs); [reflexivity | discriminate].
Qed.

Lemma unsigned_of_printed (d : Decimal.uint) :
  d <> Decimal.Nil ->
  (String.length (NilEmpty.string_of_uint d) <= MAX_STR_DIGITS)%nat ->
  unsigned_of (NilEmpty.string_of_uint d) = Some (Z.of_uint d).
Proof.
  intros Hd Hlen. unfold unsigned_of.
  rewrite digits_of_digits; [| apply digits_printed | now destruct d].
  apply Nat.leb_le in Hlen. rewrite Hlen.
  replace (NilEmpty.string_of_uint d) with (NilZero.string_of_uint d)
    by now destruct d.
  now rewrite NilZero.usu.
Qed.

Lemma to_uint_nonnil (p : positive) : Pos.to_uint p <> Decimal.Nil.
Proof.
  intros Hp. pose proof (DecimalZ.of_to (Z.pos p)) as H.
  simpl in H. rewrite Hp in H. discriminate H.
Qed.

Lemma of_to_uint (p : positive) : Z.of_uint (Pos.to_uint p) = Z.pos p.
Proof. exact (DecimalZ.of_to (Z.pos p)). Qed.

(** *** The number of digits [str] prints *)

Lemma length_string_of_uint (d : Decimal.uint) :
  String.length (NilEmpty.string_of_uint d) = Decimal.nb_digits d.
Proof. induction d; simpl; congruence. Qed.

(** Digits read after [acc] leave [acc] in front of them. *)
Lemma of_uint_acc_lower (d : Decimal.uint) : forall acc : positive,
  Z.pos acc * 10 ^ Z.of_nat (Decimal.nb_digits d) <= Z.pos (Pos.of_uint_acc d acc).
Proof.
  induction d; intros acc;
    try (cbn [Decimal.nb_digits Pos.of_uint_acc];
         rewrite Nat2Z.inj_succ, Z.pow_succ_r by lia;
         match goal with
         | IH : forall a, _ <= Z.pos (Pos.of_uint_acc ?d a)
           |- _ <= Z.pos (Pos.of_uint_acc ?d ?a') =>
             specialize (IH a');
             pose proof (Z.pow_pos_nonneg 10 (Z.of_nat (Decimal.nb_digits d))
                           ltac:(lia) ltac:(lia))
         end; nia).
  simpl. lia.
Qed.

(** [Pos.to_uint] prints no leading zero. *)
Lemma to_uint_head (p : positive) :
  Decimal.nzhead (Pos.to_uint p) = Pos.to_uint p.
Proof.
  pose proof (DecimalPos.Unsigned.to_of (Pos.to_uint p)) as Hn.
  rewrite DecimalPos.Unsigned.of_to in Hn. simpl in Hn.
  destruct (Decimal.nzhead (Pos.to_uint p)) eqn:E;
    [exfalso; apply (DecimalPos.Unsigned.to_uint_nonzero p);
     rewrite Hn; now apply DecimalFacts.unorm_0 | ..];
    rewrite <- E; rewrite Hn at 2; symmetry;
    apply DecimalFacts.unorm_nzhead; rewrite E; discriminate.
Qed.

(** A positive number below [10 ^ k] is printed with [k] digits at
    most. *)
Lemma to_uint_digits (p : positive) (k : nat) :
  Z.pos p < 10 ^ Z.of_nat k -> (Decimal.nb_digits (Pos.to_uint p) <= k)%nat.
Proof.
  intros Hp.
  pose proof (to_uint_head p) as Hh.
  pose proof (DecimalPos.Unsigned.of_to p) as Hof.
  pose proof (DecimalFacts.nzhead_nonzero (Pos.to_uint p)) as Hnz.
  pose proof (to_uint_nonnil p) as Hnil.
  rewrite Hh in Hnz.
  destruct (Pos.to_uint p) as [|d|d|d|d|d|d|d|d|d|d] eqn:E;
    [congruence | exfalso; now apply (Hnz d) | ..];
    simpl in Hof; injection Hof as Hof;
    pose proof (of_uint_acc_lower d) as Hlow;
    match type of Hof with Pos.of_uint_acc d ?k = p => specialize (Hlow k) end;
    rewrite Hof in Hlow;
    pose proof (Z.pow_pos_nonneg 10 (Z.of_nat (Decimal.nb_digits d))
                  ltac:(lia) ltac:(lia)) as Hpos;
    assert (Hlt : 10 ^ Z.of_nat (Decimal.nb_digits d) < 10 ^ Z.of_nat k) by nia;
    apply Z.pow_lt_mono_r_iff in Hlt; simpl; lia.
Qed.

Lemma int_unsigned_digits (d : Decimal.uint) :
  d <> Decimal.Nil ->
  (Decimal.nb_digits d <= MAX_STR_DIGITS)%nat ->
  int (NilEmpty.string_of_uint d) = Some (Z.of_uint d).
Proof.
  intros Hd Hlen. unfold int, int_strip.
  pose proof (digits_printed d) as Hall.
  rewrite (int_lstrip_digits _ Hall), (int_rstrip_digits _ Hall).
  rewrite <- length_string_of_uint in Hlen.
  pose proof (unsigned_of_printed d Hd Hlen) as Hu.
  destruct (NilEmpty.string_of_uint d) as [|c r] eqn:E; [now destruct d|].
  simpl in Hall. apply andb_true_iff in Hall as [Hc _].
  destruct (digit_not_sign c Hc) as (-> & -> & _). exact Hu.
Qed.

(** [int(str(n)) == n], for [n] of [MAX_STR_DIGITS] digits at most. *)
Lemma int_str (n : Z) :
  Z.abs n < 10 ^ Z.of_nat MAX_STR_DIGITS -> int (str n) = Some n.
Proof.
  unfold str. destruct n as [|p|p]; [reflexivity| |]; intros Hn.
  - simpl. pose proof (to_uint_nonnil p) as Hp.
    replace (NilZero.string_of_uint (Pos.to_uint p))
      with (NilEmpty.string_of_uint (Pos.to_uint p))
      by now destruct (Pos.to_uint p).
    rewrite int_unsigned_digits; [now rewrite of_to_uint | exact Hp |].
    now apply to_uint_digits.
  - simpl. pose proof (to_uint_nonnil p) as Hp.
    replace (NilZero.string_of_uint (Pos.to_uint p))
      with (NilEmpty.string_of_uint (Pos.to_uint p))
      by now destruct (Pos.to_uint p).
    unfold int, int_strip. simpl int_lstrip.
    pose proof (digits_printed (Pos.to_uint p)) as Hall.
    assert (Hr : int_rstrip (String "-" (NilEmpty.string_of_uint (Pos.to_uint p)))
                 = String "-" (NilEmpty.string_of_uint (Pos.to_uint p))).
    { simpl. rewrite (int_rstrip_digits _ Hall).
      now destruct (NilEmpty.string_of_uint (Pos.to_uint p)). }
    rewrite Hr. simpl.
    rewrite unsigned_of_printed; [now rewrite of_to_uint | exact Hp |].
    rewrite length_string_of_uint. now apply to_uint_digits.
Qed.

(** A 64-bit number is far below the limit on digits. *)
Lemma int64_printable (n : Z) :
  Redis.INT64_MIN <= n <= Redis.INT64_MAX ->
  Z.abs n < 10 ^ Z.of_nat MAX_STR_DIGITS.
Proof.
  unfold Redis.INT64_MIN, Redis.INT64_MAX. intros Hn.
  apply Z.lt_le_trans with (10 ^ 19); [lia|].
  apply Z.pow_le_mono_r; [lia|]. unfold MAX_STR_DIGITS. lia.
Qed.

(** The store reads an integer exactly from its canonical text. *)
Lemma as_integer_str (n : Z) :
  Redis.INT64_MIN <= n <= Redis.INT64_MAX ->
  Redis.as_integer (str n) = Some n.
Proof.
  intros Hn. pose proof (int64_printable n Hn) as Hp. destruct Hn as [Hlo Hhi].
  unfold Redis.as_integer. rewrite (int_str n Hp), String.eqb_refl.
  apply Z.leb_le in Hlo. apply Z.leb_le in Hhi. now rewrite Hlo, Hhi.
Qed.

Lemma as_integer_inv (v : string) (n : Z) :
  Redis.as_integer v = Some n ->
  v = str n /\ int v = Some n /\ Redis.INT64_MIN <= n <= Redis.INT64_MAX.
Proof.
  unfold Redis.as_integer. destruct (int v) as [m|] eqn:E; [|discriminate].
  destruct (String.eqb (str m) v) eqn:Es; [|discriminate].
  destruct (Redis.INT64_MIN <=? m) eqn:E1; [|discriminate].
  destruct (m <=? Redis.INT64_MAX) eqn:E2; [|discriminate].
  simpl. intros [= <-]. apply String.eqb_eq in Es.
  apply Z.leb_le in E1. apply Z.leb_le in E2. auto.
Qed.

End PyFacts.

(* ===================================================================== *)
(** ** How the methods run *)
(* ===================================================================== *)

Section LimiterFacts.

Import RateLimiter.

Context {S : Type} {client : RedisClientSpec S}.
Variable strategies : gmap string Config.Strategy.

#[local] Ltac unfold_methods :=
  unfold check_rate_limit, get_rate_limit_status, reset_rate_limit,
    _get_current_count, _get_current_window, _calculate_reset_time,
    window_start_of, strategy_for, datetime_now,
    redis_get, redis_incr, redis_expire, redis_ttl, redis_delete, on_redis,
    bind, ret, raise in *.

Lemma redis_advance (w : world S) : redis (advance w) = redis w.
Proof. unfold advance. now destruct (ticks w). Qed.

Lemma calls_advance (w : world S) : calls (advance w) = calls w.
Proof. unfold advance. now destruct (ticks w). Qed.

Lemma advance_after (w : world S) (r : S) (new : list call) :
  advance (after w r new) = after (advance w) r new.
Proof. now destruct w as [r0 c0 [|t ts] cs]. Qed.

Lemma after_after (w : world S) (r r' : S) (l l' : list call) :
  after (after w r l) r' l' = after w r' (l ++ l').
Proof. unfold after. simpl. now rewrite app_assoc. Qed.

Lemma new_calls_advance_after (w : world S) (r : S) (new : list call) :
  new_calls w (advance (after (advance w) r new)) = new.
Proof.
  unfold new_calls. rewrite calls_advance. unfold after. simpl.
  rewrite calls_advance. now rewrite drop_app_length.
Qed.

Lemma strategy_for_run (identifier_type : string) (w : world S) :
  strategy_for strategies identifier_type w =
  (match strategy_of strategies identifier_type with
   | Some cfg => Py.Returned cfg
   | None => Py.Raised Py.KeyError
   end, w).
Proof.
  unfold strategy_for, strategy_of, ret, raise.
  now destruct (strategies !! "ip").
Qed.

Lemma get_current_window_run (window_seconds : Z) (w : world S) :
  _get_current_window window_seconds w =
  (match label_at window_seconds (clock w) with
   | Some l => Py.Returned l
   | None => Py.Raised Py.ZeroDivisionError
   end, advance w).
Proof.
  unfold_methods. unfold label_at.
  repeat (case_match; simplify_eq/=; try done).
Qed.

Lemma calculate_reset_time_run (window : string) (window_seconds : Z) (w : world S) :
  _calculate_reset_time window window_seconds w =
  (match reset_for window_seconds (clock w) with
   | Some t => Py.Returned t
   | None => Py.Raised Py.ZeroDivisionError
   end, advance w).
Proof.
  unfold_methods. unfold reset_for.
  repeat (case_match; simplify_eq/=; try done).
Qed.

Lemma get_current_count_run (key : string) (w : world S) :
  _get_current_count key w =
  (Py.Returned (count_of (client_get key (redis w)).1),
   after w (client_get key (redis w)).2 [Get key]).
Proof.
  unfold_methods. unfold count_of.
  destruct (client_get key (redis w)) as [[v|] r]; simpl; [|done].
  now destruct (Py.int v).
Qed.

(** A window size that yields a label yields a reset instant at every
    reading of the clock. *)
Lemma reset_for_defined (window_seconds : Z) (now now' : Datetime.datetime) (l : string) :
  label_at window_seconds now = Some l ->
  is_Some (reset_for window_seconds now').
Proof.
  unfold label_at, reset_for.
  repeat (case_match; simplify_eq/=; try done).
Qed.

(** The three ways through [check_rate_limit]. *)

Lemma check_rate_limit_deny identifier kind (w : world S) cfg label v r1 t r2 :
  strategy_of strategies kind = Some cfg ->
  label_at (Config.window cfg) (clock w) = Some label ->
  client_get (_build_redis_key kind identifier label) (redis w) = (v, r1) ->
  Config.limit cfg <= count_of v ->
  client_ttl (_build_redis_key kind identifier label) r1 = (t, r2) ->
  exists reset,
    reset_for (Config.window cfg) (clock (advance w)) = Some reset /\
    check_rate_limit strategies identifier kind w =
    (Py.Returned
       {| allowed := false; limit := Config.limit cfg; remaining := 0;
          reset_at := reset; current_count := count_of v; window := label;
          retry_after := if 0 <? t then t else Config.window cfg |},
     advance (after (advance w) r2
                [Get (_build_redis_key kind identifier label);
                 Ttl (_build_redis_key kind identifier label)])).
Proof.
  intros Hcfg Hlabel Hget Hle Httl.
  destruct (reset_for_defined _ _ (clock (advance w)) _ Hlabel) as [reset Hreset].
  exists reset. split; [exact Hreset|].
  unfold check_rate_limit, bind at 1.
  rewrite strategy_for_run, Hcfg. unfold bind at 1.
  rewrite get_current_window_run, Hlabel. unfold bind at 1.
  rewrite get_current_count_run, redis_advance, Hget. simpl.
  apply Z.leb_le in Hle. rewrite Hle.
  unfold bind at 1. unfold redis_ttl, on_redis. simpl. rewrite Httl.
  unfold bind. rewrite calculate_reset_time_run. simpl. rewrite Hreset.
  unfold ret. now rewrite after_after.
Qed.

Lemma check_rate_limit_allow identifier kind (w : world S) cfg label v r1 n r2 b r3 :
  strategy_of strategies kind = Some cfg ->
  label_at (Config.window cfg) (clock w) = Some label ->
  client_get (_build_redis_key kind identifier label) (redis w) = (v, r1) ->
  count_of v < Config.limit cfg ->
  client_incr (_build_redis_key kind identifier label) r1 = (Some n, r2) ->
  client_expire (_build_redis_key kind identifier label) (Config.window cfg) r2 = (b, r3) ->
  exists reset,
    reset_for (Config.window cfg) (clock (advance w)) = Some reset /\
    check_rate_limit strategies identifier kind w =
    (Py.Returned
       {| allowed := true; limit := Config.limit cfg;
          remaining := Z.max 0 (Config.limit cfg - n);
          reset_at := reset; current_count := n; window := label;
          retry_after := 0 |},
     advance (after (advance w) (if n =? 1 then r3 else r2)
                (Get (_build_redis_key kind identifier label)
                 :: Incr (_build_redis_key kind identifier label)
                 :: if n =? 1
                    then [Expire (_build_redis_key kind identifier label)
                            (Config.window cfg)]
                    else []))).
Proof.
  intros Hcfg Hlabel Hget Hlt Hincr Hexp.
  destruct (reset_for_defined _ _ (clock (advance w)) _ Hlabel) as [reset Hreset].
  exists reset. split; [exact Hreset|].
  unfold check_rate_limit, bind at 1.
  rewrite strategy_for_run, Hcfg. unfold bind at 1.
  rewrite get_current_window_run, Hlabel. unfold bind at 1.
  rewrite get_current_count_run, redis_advance, Hget. simpl.
  apply Z.leb_gt in Hlt. rewrite Hlt.
  unfold bind at 1. unfold redis_incr, on_redis. simpl. rewrite Hincr.
  simpl. destruct (n =? 1).
  - unfold bind at 1. unfold redis_expire, on_redis. simpl. rewrite Hexp.
    unfold bind. rewrite calculate_reset_time_run. simpl. rewrite Hreset.
    unfold ret. now rewrite !after_after.
  - unfold bind at 1. unfold ret at 1.
    unfold bind. rewrite calculate_reset_time_run. simpl. rewrite Hreset.
    unfold ret. now rewrite !after_after.
Qed.

Lemma check_rate_limit_raise identifier kind (w : world S) cfg label v r1 r2 :
  strategy_of strategies kind = Some cfg ->
  label_at (Config.window cfg) (clock w) = Some label ->
  client_get (_build_redis_key kind identifier label) (redis w) = (v, r1) ->
  count_of v < Config.limit cfg ->
  client_incr (_build_redis_key kind identifier label) r1 = (None, r2) ->
  check_rate_limit strategies identifier kind w =
  (Py.Raised Py.TypeError,
   after (advance w) r2
     [Get (_build_redis_key kind identifier label);
      Incr (_build_redis_key kind identifier label)]).
Proof.
  intros Hcfg Hlabel Hget Hlt Hincr.
  unfold check_rate_limit, bind at 1.
  rewrite strategy_for_run, Hcfg. unfold bind at 1.
  rewrite get_current_window_run, Hlabel. unfold bind at 1.
  rewrite get_current_count_run, redis_advance, Hget. simpl.
  apply Z.leb_gt in Hlt. rewrite Hlt.
  unfold bind at 1. unfold redis_incr, on_redis. simpl. rewrite Hincr.
  simpl. unfold bind, ret, raise. now rewrite !after_after.
Qed.

Lemma get_rate_limit_status_run identifier kind (w : world S) cfg label v r1 :
  strategy_of strategies kind = Some cfg ->
  label_at (Config.window cfg) (clock w) = Some label ->
  client_get (_build_redis_key kind identifier label) (redis w) = (v, r1) ->
  exists reset,
    reset_for (Config.window cfg) (clock (advance w)) = Some reset /\
    get_rate_limit_status strategies identifier kind w =
    (Py.Returned
       {| allowed := count_of v <? Config.limit cfg; limit := Config.limit cfg;
          remaining := Z.max 0 (Config.limit cfg - count_of v);
          reset_at := reset; current_count := count_of v; window := label;
          retry_after := 0 |},
     advance (after (advance w) r1 [Get (_build_redis_key kind identifier label)])).
Proof.
  intros Hcfg Hlabel Hget.
  destruct (reset_for_defined _ _ (clock (advance w)) _ Hlabel) as [reset Hreset].
  exists reset. split; [exact Hreset|].
  unfold get_rate_limit_status, bind at 1.
  rewrite strategy_for_run, Hcfg. unfold bind at 1.
  rewrite get_current_window_run, Hlabel. unfold bind at 1.
  rewrite get_current_count_run, redis_advance, Hget. simpl.
  unfold bind. rewrite calculate_reset_time_run. simpl. rewrite Hreset.
  reflexivity.
Qed.

Lemma reset_rate_limit_run identifier kind (w : world S) cfg label :
  strategy_of strategies kind = Some cfg ->
  label_at (Config.window cfg) (clock w) = Some label ->
  reset_rate_limit strategies identifier kind w =
  (Py.Returned (client_delete (_build_redis_key kind identifier label) (redis w)).1,
   after (advance w)
     (client_delete (_build_redis_key kind identifier label) (redis w)).2
     [Delete (_build_redis_key kind identifier label)]).
Proof.
  intros Hcfg Hlabel.
  unfold reset_rate_limit, bind at 1.
  rewrite strategy_for_run, Hcfg. unfold bind.
  rewrite get_current_window_run, Hlabel.
  unfold redis_delete, on_redis. rewrite redis_advance.
  now destruct (client_delete _ (redis w)).
Qed.

End LimiterFacts.

(* ===================================================================== *)
(** ** The store under the wrapper's reads *)
(* ===================================================================== *)

Section StoreFacts.

Lemma cells_attempt (c : Redis.conn) :
  Redis.cells (Redis.attempt c).2 = Redis.cells c.
Proof. unfold Redis.attempt. now destruct (Redis.outage c). Qed.

Lemma attempt_reachable (c : Redis.conn) :
  Redis.outage c = [] -> Redis.attempt c = (true, c).
Proof. unfold Redis.attempt. now intros ->. Qed.

(** [get] never changes a record. *)
Lemma cells_get (key : string) (c : Redis.conn) :
  Redis.cells (RedisClient.get key c).2 = Redis.cells c.
Proof.
  unfold RedisClient.get, Redis.GET.
  pose proof (cells_attempt c) as Hc.
  destruct (Redis.attempt c) as [[] c']; simpl in *; congruence.
Qed.

(** [ttl] never changes a record. *)
Lemma cells_ttl (key : string) (c : Redis.conn) :
  Redis.cells (RedisClient.ttl key c).2 = Redis.cells c.
Proof.
  unfold RedisClient.ttl, Redis.TTL.
  pose proof (cells_attempt c) as Hc.
  destruct (Redis.attempt c) as [[] c']; simpl in *; [|congruence].
  destruct (Redis.cells c' !! key); simpl; congruence.
Qed.

(** On a reachable store [get] returns the stored text. *)
Lemma get_reachable (key : string) (c : Redis.conn) :
  Redis.outage c = [] ->
  RedisClient.get key c = (Redis.value <$> Redis.cells c !! key, c).
Proof.
  intros Hup. unfold RedisClient.get, Redis.GET.
  now rewrite (attempt_reachable c Hup).
Qed.

(** On the store, the increment of text that [int()] rejects is an error
    reply: the wrapper returns [None]. *)
Lemma incr_needs_integer (key : string) (c : Redis.conn) (r : Redis.cell) :
  Redis.cells c !! key = Some r ->
  Py.int (Redis.value r) = None ->
  (RedisClient.incr key c).1 = None.
Proof.
  intros Hr Hint. unfold RedisClient.incr, Redis.INCR.
  pose proof (cells_attempt c) as Hc.
  destruct (Redis.attempt c) as [[] c']; simpl in *; [|reflexivity].
  rewrite Hc, Hr. unfold Redis.as_integer. now rewrite Hint.
Qed.

End StoreFacts.

(* ===================================================================== *)
(** ** Properties of the admission-control engine *)
(* ===================================================================== *)

Section Decisions.

Import RateLimiter.

Context {S : Type} {client : RedisClientSpec S}.
Variable strategies : gmap string Config.Strategy.

(** Before a strategy and a label exist no call reaches the client. *)
Lemma check_rate_limit_early identifier kind (w : world S) :
  strategy_of strategies kind = None
  \/ (exists cfg, strategy_of strategies kind = Some cfg
                  /\ label_at (Config.window cfg) (clock w) = None) ->
  exists e w', check_rate_limit strategies identifier kind w = (Py.Raised e, w')
               /\ new_calls w w' = [].
Proof.
  unfold check_rate_limit.
  intros [Hnone | (cfg & Hcfg & Hlabel)]; unfold bind at 1;
    rewrite strategy_for_run.
  - rewrite Hnone. eexists _, _. split; [reflexivity|].
    unfold new_calls. apply drop_all.
  - rewrite Hcfg. unfold bind at 1. rewrite get_current_window_run, Hlabel.
    eexists _, _. split; [reflexivity|].
    unfold new_calls. rewrite calls_advance. apply drop_all.
Qed.

(** [check_rate_limit] raises only through the subtraction on a failed
    increment, once a strategy and a label exist. *)
Lemma check_rate_limit_raises_only_on_failed_incr identifier kind (w : world S) cfg label e :
  strategy_of strategies kind = Some cfg ->
  label_at (Config.window cfg) (clock w) = Some label ->
  (check_rate_limit strategies identifier kind w).1 = Py.Raised e ->
  e = Py.TypeError
  /\ count_of (client_get (_build_redis_key kind identifier label) (redis w)).1
     < Config.limit cfg
  /\ (client_incr (_build_redis_key kind identifier label)
        (client_get (_build_redis_key kind identifier label) (redis w)).2).1 = None.
Proof.
  intros Hcfg Hlabel.
  set (key := _build_redis_key kind identifier label).
  destruct (client_get key (redis w)) as [v r1] eqn:Hget. simpl.
  destruct (Z_le_gt_dec (Config.limit cfg) (count_of v)) as [Hle | Hgt].
  - destruct (client_ttl key r1) as [t r2] eqn:Httl.
    destruct (check_rate_limit_deny strategies identifier kind w cfg label
                v r1 t r2 Hcfg Hlabel Hget Hle Httl) as (reset & _ & ->).
    discriminate.
  - destruct (client_incr key r1) as [[n|] r2] eqn:Hincr.
    + destruct (client_expire key (Config.window cfg) r2) as [b r3] eqn:Hexp.
      destruct (check_rate_limit_allow strategies identifier kind w cfg label
                  v r1 n r2 b r3 Hcfg Hlabel Hget ltac:(lia) Hincr Hexp)
        as (reset & _ & ->).
      discriminate.
    + rewrite (check_rate_limit_raise strategies identifier kind w cfg label
                 v r1 r2 Hcfg Hlabel Hget ltac:(lia) Hincr).
      simpl. intros [= <-]. split; [reflexivity | split; [lia | reflexivity]].
Qed.

(** C10. Every decision [check_rate_limit] returns with [allowed = True]
    and every decision [get_rate_limit_status] returns carries
    [retry_after = 0]; a decision with a strictly positive [retry_after]
    is a denial, and it was returned by [check_rate_limit]. *)
Theorem retry_after_only_on_denial identifier kind (w : world S) d :
  (check_rate_limit strategies identifier kind w).1 = Py.Returned d
  \/ (get_rate_limit_status strategies identifier kind w).1 = Py.Returned d ->
  (allowed d = true -> retry_after d = 0)
  /\ ((get_rate_limit_status strategies identifier kind w).1 = Py.Returned d ->
      retry_after d = 0)
  /\ (0 < retry_after d ->
      allowed d = false
      /\ (check_rate_limit strategies identifier kind w).1 = Py.Returned d).
Proof.
  assert (Hstatus :
    (get_rate_limit_status strategies identifier kind w).1 = Py.Returned d ->
    retry_after d = 0).
  { unfold get_rate_limit_status, _get_current_count, _get_current_window,
      _calculate_reset_time, window_start_of, strategy_for, datetime_now,
      redis_get, on_redis, bind, ret, raise.
    intros Hrun. repeat (case_match; simplify_eq/=; try done). }
  assert (Hcheck :
    (check_rate_limit strategies identifier kind w).1 = Py.Returned d ->
    allowed d = true -> retry_after d = 0).
  { unfold check_rate_limit, _get_current_count, _get_current_window,
      _calculate_reset_time, window_start_of, strategy_for, datetime_now,
      redis_get, redis_incr, redis_expire, redis_ttl, on_redis, bind, ret, raise.
    intros Hrun Hd. repeat (case_match; simplify_eq/=; try done). }
  intros Hd. split; [|split].
  - intros Ha. destruct Hd as [Hd | Hd]; auto.
  - exact Hstatus.
  - intros Hpos. destruct Hd as [Hd | Hd].
    + split; [|exact Hd]. destruct (allowed d) eqn:Ha; [|reflexivity].
      specialize (Hcheck Hd eq_refl). lia.
    + specialize (Hstatus Hd). lia.
Qed.

(** C2, as amended. The key is exactly
    ["rate:{kind}:{identifier}:{window_label}"], and every call that
    [check_rate_limit], [get_rate_limit_status] and [reset_rate_limit]
    make on the client, reads ([get], [ttl]) and writes ([incr], [expire],
    [delete]) alike, addresses that one string. *)
Theorem redis_key_format identifier kind (w : world S) cfg label :
  strategy_of strategies kind = Some cfg ->
  label_at (Config.window cfg) (clock w) = Some label ->
  let key := "rate:" +:+ kind +:+ ":" +:+ identifier +:+ ":" +:+ label in
  _build_redis_key kind identifier label = key
  /\ (exists rest,
        new_calls w (check_rate_limit strategies identifier kind w).2
        = Get key :: rest
        /\ Forall (fun c => key_of c = key) rest)
  /\ new_calls w (get_rate_limit_status strategies identifier kind w).2 = [Get key]
  /\ new_calls w (reset_rate_limit strategies identifier kind w).2 = [Delete key].
Proof.
  intros Hcfg Hlabel key.
  change ("rate:" +:+ kind +:+ ":" +:+ identifier +:+ ":" +:+ label)
    with (_build_redis_key kind identifier label) in key.
  split; [reflexivity|]. split; [|split].
  - destruct (client_get key (redis w)) as [v r1] eqn:Hget.
    destruct (Z_le_gt_dec (Config.limit cfg) (count_of v)) as [Hle | Hgt].
    + destruct (client_ttl key r1) as [t r2] eqn:Httl.
      destruct (check_rate_limit_deny strategies identifier kind w cfg label
                  v r1 t r2 Hcfg Hlabel Hget Hle Httl) as (reset & _ & ->).
      simpl. rewrite new_calls_advance_after.
      eexists. split; [reflexivity|]. repeat constructor.
    + destruct (client_incr key r1) as [[n|] r2] eqn:Hincr.
      * destruct (client_expire key (Config.window cfg) r2) as [b r3] eqn:Hexp.
        destruct (check_rate_limit_allow strategies identifier kind w cfg label
                    v r1 n r2 b r3 Hcfg Hlabel Hget ltac:(lia) Hincr Hexp)
          as (reset & _ & ->).
        simpl. rewrite new_calls_advance_after.
        eexists. split; [reflexivity|].
        destruct (n =? 1); repeat constructor.
      * rewrite (check_rate_limit_raise strategies identifier kind w cfg label
                   v r1 r2 Hcfg Hlabel Hget ltac:(lia) Hincr).
        simpl. unfold new_calls, after. simpl. rewrite calls_advance.
        rewrite drop_app_length.
        eexists. split; [reflexivity|]. repeat constructor.
  - destruct (client_get key (redis w)) as [v r1] eqn:Hget.
    destruct (get_rate_limit_status_run strategies identifier kind w cfg label
                v r1 Hcfg Hlabel Hget) as (reset & _ & ->).
    simpl. apply new_calls_advance_after.
  - rewrite (reset_rate_limit_run strategies identifier kind w cfg label
               Hcfg Hlabel).
    simpl. unfold new_calls, after. simpl. rewrite calls_advance.
    apply drop_app_length.
Qed.


End Decisions.

(* ===================================================================== *)
(** ** The engine on the store of the repository *)
(* ===================================================================== *)

Section OnRedis.

Import RateLimiter Scenario.

Variable strategies : gmap string Config.Strategy.

(** C5. When the count read is at or above the limit, [check_rate_limit]
    denies: the decision has [allowed = False], [remaining = 0],
    [current_count] equal to the count read and [retry_after] equal to what
    [ttl] returned when that is positive and to the window size otherwise;
    the only calls made are [get] and [ttl] (no [incr], no [expire]) and
    every record of the store is as it was. *)
Theorem denial_does_not_touch_counter identifier kind (w : world Redis.conn) cfg label :
  strategy_of strategies kind = Some cfg ->
  label_at (Config.window cfg) (clock w) = Some label ->
  let key := _build_redis_key kind identifier label in
  let count := count_of (RedisClient.get key (redis w)).1 in
  let t := (RedisClient.ttl key (RedisClient.get key (redis w)).2).1 in
  Config.limit cfg <= count ->
  exists d w',
    check_rate_limit strategies identifier kind w = (Py.Returned d, w')
    /\ allowed d = false
    /\ remaining d = 0
    /\ current_count d = count
    /\ retry_after d = (if 0 <? t then t else Config.window cfg)
    /\ new_calls w w' = [Get key; Ttl key]
    /\ Redis.cells (redis w') = Redis.cells (redis w).
Proof.
  intros Hcfg Hlabel key count t Hle.
  destruct (RedisClient.get key (redis w)) as [v r1] eqn:Hget.
  destruct (RedisClient.ttl key r1) as [t' r2] eqn:Httl.
  destruct (check_rate_limit_deny (client := redis_client) strategies identifier
              kind w cfg label v r1 t' r2 Hcfg Hlabel Hget Hle Httl)
    as (reset & _ & Hrun).
  eexists _, _. split; [exact Hrun|].
  subst count t. simpl. rewrite Httl. simpl.
  repeat (split; [reflexivity|]). split.
  - apply new_calls_advance_after.
  - rewrite redis_advance. simpl.
    pose proof (cells_ttl key r1) as H2. rewrite Httl in H2. simpl in H2.
    pose proof (cells_get key (redis w)) as H1. rewrite Hget in H1. simpl in H1.
    congruence.
Qed.

End OnRedis.

(* ===================================================================== *)
(** ** Worked runs *)
(* ===================================================================== *)

Section Runs.

Import RateLimiter Scenario.

(** [str] and [int] on sample values. *)
Example str_examples :
  Py.str 0 = "0" /\ Py.str 21 = "21" /\ Py.str (-5) = "-5".
Proof. repeat split. Qed.

Example int_examples :
  Py.int "100" = Some 100 /\ Py.int " 7 " = Some 7 /\ Py.int "-5" = Some (-5)
  /\ Py.int "+5" = Some 5 /\ Py.int "1_000" = Some 1000 /\ Py.int "007" = Some 7
  /\ Py.int "" = None /\ Py.int "abc" = None /\ Py.int "1__0" = None
  /\ Py.int "_1" = None /\ Py.int "1_" = None /\ Py.int "+-5" = None
  /\ Py.int "1.5" = None /\ Py.int "-" = None /\ Py.int "- 5" = None.
Proof. repeat split. Qed.

(** [int()] does not skip the four separators that [strip()] removes;
    both take NEL and the no-break space for white space. *)
Example white_space_examples :
  Py.int (String (ascii_of_nat 28) "25") = None
  /\ Py.int ("25" +:+ String (ascii_of_nat 31) "") = None
  /\ Py.strip (String (ascii_of_nat 28) "25") = "25"
  /\ Py.int (String (ascii_of_nat 133) "25") = Some 25
  /\ Py.int (String (ascii_of_nat 160) "25 ") = Some 25
  /\ Py.strip (String (ascii_of_nat 160) "a") = "a".
Proof. repeat split. Qed.

(** The limit on the digits of a literal counts leading zeros. *)
Example digit_limit_examples :
  Py.int (Cases.zeros 4299 +:+ "7") = Some 7
  /\ Py.int (Cases.zeros 4300 +:+ "7") = None
  /\ Py.int ("-" +:+ Cases.zeros 4299 +:+ "7") = Some (-7).
Proof. repeat split; vm_compute; reflexivity. Qed.

(** [int(t.timestamp())] at [now0], far from the epoch and before it. *)
Example int_timestamp_examples :
  Datetime.int_timestamp now0 = 1761316215
  /\ Datetime.int_timestamp Cases.far_future = 19880899213
  /\ Datetime.int_timestamp (Datetime.exact_until - 1) = 2 ^ 34 - 1
  /\ Datetime.int_timestamp (Datetime.exact_until + 999999) = 2 ^ 34 + 1
  /\ Datetime.int_timestamp Cases.before_epoch = 0
  /\ Datetime.int_timestamp (-1500000) = -1
  /\ Datetime.int_timestamp 253402300799999999 = 253402300800.
Proof. repeat split; vm_compute; reflexivity. Qed.

(** The store counts only canonical integers of 64 bits. *)
Example as_integer_examples :
  Redis.as_integer "19" = Some 19 /\ Redis.as_integer " 19" = None
  /\ Redis.as_integer "019" = None /\ Redis.as_integer "+19" = None
  /\ Redis.as_integer "-0" = None /\ Redis.as_integer "abc" = None
  /\ Redis.as_integer "9223372036854775807" = Some Redis.INT64_MAX
  /\ Redis.as_integer "9223372036854775808" = None.
Proof. repeat split. Qed.

(** The labels of [now0]. *)
Example strftime_examples :
  Datetime.strftime_minute now0 = "2025-10-24-14:30"
  /\ Datetime.strftime_hour now0 = "2025-10-24-14"
  /\ String.length (Datetime.strftime_minute now0) = 16%nat.
Proof. repeat split; vm_compute; reflexivity. Qed.

(** [test_build_redis_key] *)
Example build_redis_key_test :
  _build_redis_key "user" "testuser" "2025-10-24-14:30"
  = "rate:user:testuser:2025-10-24-14:30".
Proof. reflexivity. Qed.

(** [test_rate_limit_first_request] *)
Example first_request_test :
  check_rate_limit Config.RATE_LIMIT_STRATEGIES "testuser" "user"
    (world_of first_request_mock)
  = (Py.Returned (admission 20 1),
     after (world_of first_request_mock) first_request_mock
       [Get "rate:user:testuser:2025-10-24-14:30";
        Incr "rate:user:testuser:2025-10-24-14:30";
        Expire "rate:user:testuser:2025-10-24-14:30" 60]).
Proof. vm_compute. reflexivity. Qed.


(** C2, the claim as stated fails. The key of kind ["user"], identifier
    ["testuser"] and label ["2025-10-24-14:30"] is not
    ["user:testuser:2025-10-24-14:30"]: it carries the prefix ["rate:"],
    and that is the key [check_rate_limit] reads. *)
Lemma redis_key_has_rate_prefix :
  _build_redis_key "user" "testuser" "2025-10-24-14:30"
  <> "user" +:+ ":" +:+ "testuser" +:+ ":" +:+ "2025-10-24-14:30"
  /\ new_calls (world_of (store ∅))
       (check_rate_limit Config.RATE_LIMIT_STRATEGIES "testuser" "user"
          (world_of (store ∅))).2
     = [Get "rate:user:testuser:2025-10-24-14:30";
        Incr "rate:user:testuser:2025-10-24-14:30";
        Expire "rate:user:testuser:2025-10-24-14:30" 60].
Proof. split; [discriminate | vm_compute; reflexivity]. Qed.

Lemma redis_key_format_witness :
  strategy_of Config.RATE_LIMIT_STRATEGIES "user" = Some free_minute
  /\ label_at (Config.window free_minute) (clock fresh) = Some label0
  /\ _build_redis_key "user" "u1" label0 = "rate:user:u1:2025-10-24-14:30"
  /\ new_calls fresh
       (get_rate_limit_status Config.RATE_LIMIT_STRATEGIES "u1" "user" fresh).2
     = [Get "rate:user:u1:2025-10-24-14:30"]
  /\ new_calls fresh
       (reset_rate_limit Config.RATE_LIMIT_STRATEGIES "u1" "user" fresh).2
     = [Delete "rate:user:u1:2025-10-24-14:30"].
Proof.
  assert (H1 : strategy_of Config.RATE_LIMIT_STRATEGIES "user" = Some free_minute)
    by (vm_compute; reflexivity).
  assert (H2 : label_at (Config.window free_minute) (clock fresh) = Some label0)
    by (vm_compute; reflexivity).
  destruct (redis_key_format Config.RATE_LIMIT_STRATEGIES "u1" "user" fresh
              free_minute label0 H1 H2) as (Hk & _ & Hs & Hr).
  split; [exact H1|]. split; [exact H2|]. split; [exact Hk|].
  split; [exact Hs | exact Hr].
Defined.

(** C3. The wrapper turns the failure of INCR into [None], and
    [check_rate_limit] then raises [TypeError] from [limit - new_count]:
    with a store that answers the GET and is unreachable for the INCR the
    call does not return a decision. *)
Theorem failed_increment_raises :
  RedisClient.incr key0 {| Redis.cells := ∅; Redis.outage := [true] |}
  = (None, store ∅)
  /\ check_rate_limit Config.RATE_LIMIT_STRATEGIES "u1" "user" failing_incr
     = (Py.Raised Py.TypeError,
        after failing_incr (store ∅) [Get key0; Incr key0]).
Proof. split; vm_compute; reflexivity. Qed.



Lemma retry_after_only_on_denial_witness :
  (check_rate_limit Config.RATE_LIMIT_STRATEGIES "testuser" "user"
     (world_of at_limit_mock)).1 = Py.Returned (denial 20 100 30)
  /\ allowed (denial 20 100 30) = false
  /\ (allowed (admission 20 1) = true -> retry_after (admission 20 1) = 0).
Proof.
  assert (H1 : (check_rate_limit Config.RATE_LIMIT_STRATEGIES "testuser" "user"
                  (world_of at_limit_mock)).1 = Py.Returned (denial 20 100 30))
    by (vm_compute; reflexivity).
  assert (H2 : (check_rate_limit Config.RATE_LIMIT_STRATEGIES "testuser" "user"
                  (world_of first_request_mock)).1 = Py.Returned (admission 20 1))
    by (vm_compute; reflexivity).
  split; [exact H1|]. split.
  - apply (retry_after_only_on_denial Config.RATE_LIMIT_STRATEGIES "testuser"
             "user" (world_of at_limit_mock) (denial 20 100 30) (or_introl H1)).
    simpl. lia.
  - apply (retry_after_only_on_denial Config.RATE_LIMIT_STRATEGIES "testuser"
             "user" (world_of first_request_mock) (admission 20 1) (or_introl H2)).
Defined.

Lemma denial_does_not_touch_counter_witness :
  exists d w',
    check_rate_limit Config.RATE_LIMIT_STRATEGIES "u1" "user"
      (counting "20" (Some 45)) = (Py.Returned d, w')
    /\ allowed d = false /\ remaining d = 0 /\ current_count d = 20
    /\ retry_after d = 45
    /\ new_calls (counting "20" (Some 45)) w' = [Get key0; Ttl key0]
    /\ Redis.cells (redis w') = Redis.cells (redis (counting "20" (Some 45))).
Proof.
  assert (H1 : strategy_of Config.RATE_LIMIT_STRATEGIES "user" = Some free_minute)
    by (vm_compute; reflexivity).
  assert (H2 : label_at (Config.window free_minute)
                 (clock (counting "20" (Some 45))) = Some label0)
    by (vm_compute; reflexivity).
  apply (denial_does_not_touch_counter Config.RATE_LIMIT_STRATEGIES "u1" "user"
           (counting "20" (Some 45)) free_minute label0 H1 H2).
  vm_compute. discriminate.
Defined.

End Runs.

(* ===================================================================== *)
(** ** The window clock *)
(* ===================================================================== *)

Section ClockFacts.

Import Datetime RateLimiter.

#[local] Ltac unfold_units :=
  unfold us_per_day, us_per_hour, us_per_minute, us_per_second in *.

#[local] Ltac div_lia :=
  unfold_units; Z.div_mod_to_equations; lia.

Lemma replace_second_microsecond_floor (t : datetime) :
  replace_second_microsecond t = us_per_minute * (t / us_per_minute).
Proof.
  unfold replace_second_microsecond, second, microsecond. div_lia.
Qed.

Lemma replace_minute_second_microsecond_floor (t : datetime) :
  replace_minute_second_microsecond t = us_per_hour * (t / us_per_hour).
Proof.
  unfold replace_minute_second_microsecond, minute, second, microsecond. div_lia.
Qed.

Lemma same_minute_same_hour (t t' : datetime) :
  t / us_per_minute = t' / us_per_minute -> t / us_per_hour = t' / us_per_hour.
Proof. div_lia. Qed.

Lemma same_hour_same_day (t t' : datetime) :
  t / us_per_hour = t' / us_per_hour -> t / us_per_day = t' / us_per_day.
Proof. div_lia. Qed.

(** The hour label is a function of the hour the instant falls in. *)
Lemma strftime_hour_same (t t' : datetime) :
  t / us_per_hour = t' / us_per_hour -> strftime_hour t = strftime_hour t'.
Proof.
  intros Hh. pose proof (same_hour_same_day t t' Hh) as Hd.
  unfold strftime_hour, year, month, day, hour, days. now rewrite Hh, Hd.
Qed.

(** The minute label is a function of the minute the instant falls in. *)
Lemma strftime_minute_same (t t' : datetime) :
  t / us_per_minute = t' / us_per_minute ->
  strftime_minute t = strftime_minute t'.
Proof.
  intros Hm. pose proof (same_minute_same_hour t t' Hm) as Hh.
  unfold strftime_minute, minute.
  now rewrite (strftime_hour_same t t' Hh), Hm.
Qed.

Lemma append_nil (b : string) : "" +:+ b = b.
Proof. reflexivity. Qed.

Lemma append_cons (c : ascii) (a b : string) :
  String c a +:+ b = String c (a +:+ b).
Proof. reflexivity. Qed.

Lemma length_append (a b : string) :
  String.length (a +:+ b) = (String.length a + String.length b)%nat.
Proof.
  induction a as [|c a IH]; [reflexivity|].
  rewrite append_cons. simpl. now rewrite IH.
Qed.

Lemma append_assoc (a b c : string) : (a +:+ b) +:+ c = a +:+ (b +:+ c).
Proof.
  induction a as [|x a IH]; [reflexivity|].
  rewrite !append_cons. now rewrite IH.
Qed.

(** Two texts that agree have the same ending of a given length. *)
Lemma append_inj_suffix (a b x y : string) :
  String.length x = String.length y -> a +:+ x = b +:+ y -> x = y.
Proof.
  revert b. induction a as [|c a IH]; intros [|c' b] Hlen Heq;
    rewrite ?append_cons, ?append_nil in Heq.
  - exact Heq.
  - apply (f_equal String.length) in Heq. simpl in Heq.
    rewrite length_append in Heq. lia.
  - apply (f_equal String.length) in Heq. simpl in Heq.
    rewrite length_append in Heq. lia.
  - injection Heq as _ Heq. exact (IH b Hlen Heq).
Qed.

Lemma pad2_table : forallb Datetime.pad2_ok (seq 0 60) = true.
Proof. vm_compute. reflexivity. Qed.

Lemma pad2_spec (n : Z) :
  0 <= n < 60 -> Py.int (pad2 n) = Some n /\ String.length (pad2 n) = 2%nat.
Proof.
  intros Hn. pose proof pad2_table as Ht.
  rewrite forallb_forall in Ht.
  specialize (Ht (Z.to_nat n)).
  assert (Hin : In (Z.to_nat n) (seq 0 60)) by (apply in_seq; lia).
  specialize (Ht Hin). unfold Datetime.pad2_ok in Ht.
  rewrite Z2Nat.id in Ht by lia.
  destruct (Py.int (pad2 n)) as [m|]; [|discriminate].
  apply andb_true_iff in Ht as [Hm Hl].
  apply Z.eqb_eq in Hm. apply Nat.eqb_eq in Hl. now subst.
Qed.

Lemma pad2_inj (a b : Z) :
  0 <= a < 60 -> 0 <= b < 60 -> pad2 a = pad2 b -> a = b.
Proof.
  intros Ha Hb Heq.
  destruct (pad2_spec a Ha) as [Hia _]. destruct (pad2_spec b Hb) as [Hib _].
  rewrite Heq in Hia. congruence.
Qed.

Lemma str_inj (a b : Z) : Py.str a = Py.str b -> a = b.
Proof.
  assert (Hread : forall n, NilZero.int_of_string (Py.str n) = Some (Z.to_int n)).
  { intros n. apply NilZero.isi; destruct n as [|p|p]; simpl;
      try discriminate; intros [= Hp]; exact (to_uint_nonnil p Hp). }
  intros Heq. apply DecimalZ.to_int_inj.
  pose proof (Hread a) as Ha. rewrite Heq, Hread in Ha. congruence.
Qed.

(** Labels of different minutes of one hour cycle differ. *)
Lemma strftime_minute_differs (t t' : datetime) :
  minute t <> minute t' -> strftime_minute t <> strftime_minute t'.
Proof.
  intros Hne Heq. apply Hne.
  assert (Hr : forall u, 0 <= minute u < 60)
    by (intros u; unfold minute; apply Z.mod_pos_bound; lia).
  unfold strftime_minute in Heq.
  apply append_inj_suffix in Heq.
  - rewrite !append_cons, !append_nil in Heq. injection Heq as Heq.
    now apply pad2_inj.
  - rewrite !length_append.
    now rewrite (proj2 (pad2_spec _ (Hr t))), (proj2 (pad2_spec _ (Hr t'))).
Qed.

(** Labels of different hours of one day cycle differ. *)
Lemma strftime_hour_differs (t t' : datetime) :
  hour t <> hour t' -> strftime_hour t <> strftime_hour t'.
Proof.
  intros Hne Heq. apply Hne.
  assert (Hr : forall u, 0 <= hour u < 60)
    by (intros u; unfold hour;
        pose proof (Z.mod_pos_bound (u / us_per_hour) 24); lia).
  unfold strftime_hour in Heq.
  rewrite <- !append_assoc in Heq.
  apply append_inj_suffix in Heq.
  - now apply pad2_inj.
  - now rewrite (proj2 (pad2_spec _ (Hr t))), (proj2 (pad2_spec _ (Hr t'))).
Qed.

(** Rounding to the nearest moves to the next integer at most, and only
    from the upper half. *)
Lemma div_half_even_bounds (x y : Z) :
  0 < y ->
  x / y <= div_half_even x y <= x / y + 1
  /\ (div_half_even x y = x / y + 1 -> y <= 2 * (x mod y)).
Proof.
  intros Hy. unfold div_half_even.
  destruct (2 * (x mod y) <? y) eqn:E1; [lia|].
  apply Z.ltb_ge in E1.
  destruct (y <? 2 * (x mod y)); [lia|].
  destruct (Z.even (x / y)); lia.
Qed.

(** Below [2**34] seconds the float of the quotient still tells the
    microseconds apart from the next second: [int()] of it is the floor. *)
Lemma int_of_true_div_floor (a : Z) :
  0 <= a < exact_until ->
  int_of_true_div a us_per_second = a / us_per_second.
Proof.
  unfold exact_until, int_of_true_div, us_per_second. intros Ha.
  set (b := 1000000) in *. set (n := a / b).
  assert (Hb : 0 < b) by (subst b; lia).
  assert (Hn : 0 <= n < 2 ^ 34).
  { subst n. split; [apply Z.div_pos; lia|].
    apply Z.div_lt_upper_bound; lia. }
  destruct (n =? 0) eqn:E0; [apply Z.eqb_eq in E0; lia|].
  apply Z.eqb_neq in E0.
  assert (He : 0 <= Z.log2 n < 34).
  { split; [apply Z.log2_nonneg|]. apply Z.log2_lt_pow2; lia. }
  assert (E : (Z.log2 n <? 52) = true) by (apply Z.ltb_lt; lia).
  rewrite E. set (P := 2 ^ (52 - Z.log2 n)).
  assert (HP : 524288 <= P).
  { subst P. change 524288 with (2 ^ 19). apply Z.pow_le_mono_r; lia. }
  destruct (div_half_even_bounds (a * P) b Hb) as [[Hlo Hhi] Hup].
  pose proof (Z.div_mod (a * P) b ltac:(lia)) as Hdm.
  pose proof (Z.mod_pos_bound (a * P) b Hb) as Hr.
  pose proof (Z.div_mod a b ltac:(lia)) as Hdn.
  pose proof (Z.mod_pos_bound a b Hb) as Hrn.
  fold n in Hdn.
  set (f := a * P / b) in *. set (rho := (a * P) mod b) in *.
  set (r := a mod b) in *. set (m := div_half_even (a * P) b) in *.
  assert (Hf1 : n * P <= f).
  { subst f. apply Z.div_le_lower_bound; [exact Hb|]. nia. }
  assert (Hf2 : f <= (n + 1) * P - 1).
  { assert (b * f < b * ((n + 1) * P)) by nia. nia. }
  assert (Hm : n * P <= m < (n + 1) * P).
  { split; [lia|].
    destruct (Z.eq_dec m (f + 1)) as [Hm1|Hm1]; [|lia].
    specialize (Hup Hm1).
    destruct (Z.eq_dec f ((n + 1) * P - 1)) as [Hf|Hf]; [|lia].
    exfalso. assert (rho <= b - P) by nia. subst b. lia. }
  symmetry. apply (Z.div_unique m P n (m - n * P)); lia.
Qed.

Lemma int_timestamp_floor (t : datetime) :
  0 <= t < exact_until -> int_timestamp t = t / us_per_second.
Proof.
  intros Ht. unfold int_timestamp.
  destruct (Z.eq_dec t 0) as [->|Hne]; [reflexivity|].
  rewrite Z.sgn_pos, Z.abs_eq, Z.mul_1_l by lia.
  now apply int_of_true_div_floor.
Qed.

(** A number between a multiple of [d] and the next one has that
    multiple as its bucket. *)
Lemma bucket_unique (d q e : Z) :
  0 < d -> q * d <= e < q * d + d -> (e / d) * d = q * d.
Proof.
  intros Hd He. f_equal. symmetry.
  apply (Z.div_unique e d q (e - q * d)); lia.
Qed.

Lemma bucket_bounds (d e : Z) :
  0 < d -> (e / d) * d <= e < (e / d) * d + d.
Proof.
  intros Hd. pose proof (Z.div_mod e d ltac:(lia)) as Hdm.
  pose proof (Z.mod_pos_bound e d Hd). lia.
Qed.

(** *** The calendar of the labels *)

Lemma year_of_era (doe : Z) :
  0 <= doe < 146097 ->
  let yoe := (doe - doe / 1460 + doe / 36524 - doe / 146096) / 365 in
  let doy := doe - (365 * yoe + yoe / 4 - yoe / 100) in
  0 <= yoe <= 399 /\ 0 <= doy <= 365
  /\ (doy = 365 -> (yoe + 1) mod 4 = 0 /\ ((yoe + 1) mod 100 <> 0 \/ yoe = 399)).
Proof.
  intros Hdoe yoe doy. subst yoe doy.
  Z.div_mod_to_equations; lia.
Qed.

Lemma is_leap_cases (y : Z) :
  (is_leap y = true /\ y mod 4 = 0 /\ (y mod 100 <> 0 \/ y mod 400 = 0))
  \/ (is_leap y = false /\ ~ (y mod 4 = 0 /\ (y mod 100 <> 0 \/ y mod 400 = 0))).
Proof.
  assert (H : is_leap y = true
              <-> (y mod 4 = 0 /\ (y mod 100 <> 0 \/ y mod 400 = 0))).
  { unfold is_leap.
    rewrite andb_true_iff, orb_true_iff, negb_true_iff, !Z.eqb_eq, Z.eqb_neq.
    tauto. }
  destruct (is_leap y).
  - left. split; [reflexivity | now apply H].
  - right. split; [reflexivity|]. intros Hy. apply H in Hy. discriminate.
Qed.

Lemma days_before_month_table (y : Z) :
  let l := if is_leap y then 1 else 0 in
  days_before_month y 1 = 0 /\ days_before_month y 2 = 31
  /\ days_before_month y 3 = 59 + l /\ days_before_month y 4 = 90 + l
  /\ days_before_month y 5 = 120 + l /\ days_before_month y 6 = 151 + l
  /\ days_before_month y 7 = 181 + l /\ days_before_month y 8 = 212 + l
  /\ days_before_month y 9 = 243 + l /\ days_before_month y 10 = 273 + l
  /\ days_before_month y 11 = 304 + l /\ days_before_month y 12 = 334 + l.
Proof.
  unfold days_before_month, days_in_month. simpl.
  destruct (is_leap y); simpl; repeat split; reflexivity.
Qed.

#[local] Ltac closed_tests :=
  repeat match goal with
         | |- context [if ?b then _ else _] =>
             let v := eval vm_compute in b in
             match v with
             | true => change b with true
             | false => change b with false
             end; cbv iota
         end.

(** The date the labels are printed from is the date of the calendar
    with that day number. *)
Lemma civil_from_days_spec (z : Z) :
  let '(y, m, d) := civil_from_days z in
  valid_date y m d /\ days_from_civil y m d = z.
Proof.
  unfold civil_from_days.
  set (era := (z + 719468) / 146097).
  set (doe := z + 719468 - era * 146097).
  assert (Hdoe : 0 <= doe < 146097).
  { subst doe era. Z.div_mod_to_equations. lia. }
  pose proof (year_of_era doe Hdoe) as Hy. cbv zeta in Hy.
  set (yoe := (doe - doe / 1460 + doe / 36524 - doe / 146096) / 365) in *.
  set (doy := doe - (365 * yoe + yoe / 4 - yoe / 100)) in *.
  destruct Hy as (Hyoe & Hdoy & Hleap).
  set (mp := (5 * doy + 2) / 153).
  assert (Hmp : 0 <= mp <= 11) by (subst mp; Z.div_mod_to_equations; lia).
  assert (Hz : z = era * 146097 + 365 * yoe + yoe / 4 - yoe / 100 + doy - 719468)
    by (subst doy doe; lia).
  assert (Hmpd : 153 * mp <= 5 * doy + 2 < 153 * mp + 153)
    by (subst mp; Z.div_mod_to_equations; lia).
  clearbody mp doy yoe era. clear doe Hdoe.
  unfold valid_date, days_from_civil, days_before_year. cbv zeta.
  pose proof (days_before_month_table (yoe + era * 400)) as T0.
  pose proof (days_before_month_table (yoe + era * 400 + 1)) as T1.
  cbv zeta in T0, T1.
  destruct T0 as (? & ? & ? & ? & ? & ? & ? & ? & ? & ? & ? & ?).
  destruct T1 as (? & ? & ? & ? & ? & ? & ? & ? & ? & ? & ? & ?).
  destruct (is_leap_cases (yoe + era * 400)) as [[E0 L0] | [E0 L0]];
    destruct (is_leap_cases (yoe + era * 400 + 1)) as [[E1 L1] | [E1 L1]];
    rewrite ?E0, ?E1 in *.
  all: assert (Hcase : mp = 0 \/ mp = 1 \/ mp = 2 \/ mp = 3 \/ mp = 4 \/ mp = 5
                       \/ mp = 6 \/ mp = 7 \/ mp = 8 \/ mp = 9 \/ mp = 10 \/ mp = 11)
         by lia;
       repeat destruct Hcase as [-> | Hcase]; try subst mp;
       closed_tests; unfold days_in_month; rewrite ?E0, ?E1; closed_tests;
       match goal with
       | |- context [days_before_month ?y ?m] =>
           let m' := eval vm_compute in m in
           change m with m';
           match goal with H : days_before_month y m' = _ |- _ => rewrite H end
       end.
  all: clear -Hyoe Hdoy Hleap Hz Hmpd L0 L1.
  all: Z.div_mod_to_equations; lia.
Qed.

(** From the epoch on the year has four digits at least. *)
Lemma civil_year_lower (z : Z) : 0 <= z -> 1000 <= (civil_from_days z).1.1.
Proof.
  intros Hz. unfold civil_from_days.
  set (era := (z + 719468) / 146097).
  set (doe := z + 719468 - era * 146097).
  assert (Hera : 4 <= era) by (subst era; Z.div_mod_to_equations; lia).
  assert (Hdoe : 0 <= doe < 146097).
  { subst doe era. Z.div_mod_to_equations. lia. }
  pose proof (year_of_era doe Hdoe) as Hy. cbv zeta in Hy.
  destruct Hy as (Hyoe & _). cbv zeta. simpl.
  destruct (_ <=? 2); lia.
Qed.

Lemma pad4_four_digits (y : Z) : 1000 <= y -> pad4 y = Py.str y.
Proof.
  intros Hy. unfold pad4.
  destruct (Z.ltb_spec y 10); [lia|]. destruct (Z.ltb_spec y 100); [lia|].
  destruct (Z.ltb_spec y 1000); [lia | reflexivity].
Qed.

(** The hour label, field by field. *)
Lemma strftime_hour_fields (t : datetime) :
  0 <= t ->
  exists y m d,
    valid_date y m d /\ days_from_civil y m d = t / us_per_day
    /\ strftime_hour t
       = Py.str y +:+ "-" +:+ pad2 m +:+ "-" +:+ pad2 d
           +:+ "-" +:+ pad2 ((t / us_per_hour) mod 24).
Proof.
  intros Ht.
  assert (Hd : 0 <= t / us_per_day) by (apply Z.div_pos; unfold_units; lia).
  pose proof (civil_from_days_spec (t / us_per_day)) as Hspec.
  pose proof (civil_year_lower (t / us_per_day) Hd) as Hyear.
  unfold strftime_hour, year, month, day, hour, days.
  destruct (civil_from_days (t / us_per_day)) as [[y m] d].
  simpl in Hyear |- *. destruct Hspec as [Hvalid Hday].
  exists y, m, d. split; [exact Hvalid|]. split; [exact Hday|].
  now rewrite (pad4_four_digits y Hyear).
Qed.

Context {S : Type} {client : RedisClientSpec S}.

(** C8, as amended. For a reading of the clock from the epoch on whose
    window ends before [exact_until]: for a window of 60 seconds the label
    is the reading truncated to the minute, [YYYY-MM-DD-HH:MM] with the
    date of the calendar for the day of the reading; for 3600 seconds it
    is truncated to the hour, [YYYY-MM-DD-HH]; for any other size it is
    the decimal text of
    [bucket = floor(epoch(now) / window_seconds) * window_seconds]; the
    reset instant is that boundary plus the window size.  The reading lies
    in [[boundary, reset)], every instant of that interval has the same
    label and the reset instant itself has another: [reset_at] is the
    exclusive end of the window.  Neither method calls the client. *)
Theorem window_label_and_reset (w : world S) (window_seconds : Z) (window : string) :
  0 < window_seconds ->
  0 <= clock w ->
  clock w + window_seconds * us_per_second < exact_until ->
  let now := clock w in
  let bucket := (now / us_per_second / window_seconds) * window_seconds in
  let boundary :=
    if window_seconds =? 60 then us_per_minute * (now / us_per_minute)
    else if window_seconds =? 3600 then us_per_hour * (now / us_per_hour)
    else bucket * us_per_second in
  let reset := boundary + window_seconds * us_per_second in
  exists (y m d : Z) (label : string),
    valid_date y m d
    /\ days_from_civil y m d = now / us_per_day
    /\ label
       = (let hour_label :=
            Py.str y +:+ "-" +:+ pad2 m +:+ "-" +:+ pad2 d
              +:+ "-" +:+ pad2 ((now / us_per_hour) mod 24) in
          if window_seconds =? 60
          then hour_label +:+ ":" +:+ pad2 ((now / us_per_minute) mod 60)
          else if window_seconds =? 3600 then hour_label
          else Py.str bucket)
    /\ _get_current_window window_seconds w = (Py.Returned label, advance w)
    /\ _calculate_reset_time window window_seconds w = (Py.Returned reset, advance w)
    /\ redis (advance w) = redis w
    /\ calls (advance w) = calls w
    /\ boundary <= now < reset
    /\ (forall t, boundary <= t < reset -> label_at window_seconds t = Some label)
    /\ label_at window_seconds reset <> Some label.
Proof.
  intros Hpos Hnow Hend now bucket boundary reset.
  destruct (strftime_hour_fields now Hnow) as (y & m & d & Hvalid & Hday & Hhour).
  exists y, m, d.
  rewrite get_current_window_run, calculate_reset_time_run.
  fold now. unfold label_at, reset_for.
  subst boundary reset. cbv zeta. rewrite <- Hhour.
  destruct (window_seconds =? 60) eqn:E60;
    [apply Z.eqb_eq in E60; subst window_seconds
    |destruct (window_seconds =? 3600) eqn:E3600;
      [apply Z.eqb_eq in E3600; subst window_seconds|]].
  - (* one minute *)
    assert (Hq : us_per_minute * (now / us_per_minute) / us_per_minute
                 = now / us_per_minute) by div_lia.
    eexists. split; [exact Hvalid|]. split; [exact Hday|].
    split; [reflexivity|].
    change (strftime_hour now +:+ ":" +:+ pad2 ((now / us_per_minute) mod 60))
      with (strftime_minute now).
    split; [|split; [|split; [|split; [|split; [|split]]]]].
    + reflexivity.
    + rewrite replace_second_microsecond_floor. reflexivity.
    + apply redis_advance.
    + apply calls_advance.
    + div_lia.
    + intros t Ht. f_equal. apply strftime_minute_same.
      clear Hq. div_lia.
    + intros [= Heq]. revert Heq. apply strftime_minute_differs.
      unfold minute. clear Hq. div_lia.
  - (* one hour *)
    assert (Hq : us_per_hour * (now / us_per_hour) / us_per_hour
                 = now / us_per_hour) by div_lia.
    eexists. split; [exact Hvalid|]. split; [exact Hday|].
    split; [reflexivity|].
    split; [|split; [|split; [|split; [|split; [|split]]]]].
    + reflexivity.
    + rewrite replace_minute_second_microsecond_floor. reflexivity.
    + apply redis_advance.
    + apply calls_advance.
    + div_lia.
    + intros t Ht. f_equal. apply strftime_hour_same.
      clear Hq. div_lia.
    + intros [= Heq]. revert Heq. apply strftime_hour_differs.
      unfold hour. clear Hq. div_lia.
  - (* the bucket of the epoch *)
    assert (E0 : (window_seconds =? 0) = false) by (apply Z.eqb_neq; lia).
    rewrite E0.
    assert (Hexact : 0 <= now < exact_until) by (unfold us_per_second in *; lia).
    rewrite (int_timestamp_floor now Hexact).
    pose proof (bucket_bounds window_seconds (now / us_per_second) Hpos) as Hb.
    fold bucket in Hb |- *.
    assert (Hbucket0 : 0 <= bucket).
    { subst bucket. apply Z.mul_nonneg_nonneg; [|lia].
      apply Z.div_pos; [|lia]. apply Z.div_pos; [lia|]. unfold us_per_second. lia. }
    assert (Hreset : bucket * us_per_second + window_seconds * us_per_second
                     < exact_until).
    { clearbody bucket. clear Hexact. revert Hend. unfold exact_until. div_lia. }
    assert (Hin : forall t, bucket * us_per_second <= t
                            < bucket * us_per_second + window_seconds * us_per_second ->
                  (int_timestamp t / window_seconds) * window_seconds = bucket).
    { intros t Ht.
      assert (Ht0 : 0 <= t < exact_until) by (unfold us_per_second in *; lia).
      rewrite (int_timestamp_floor t Ht0).
      unfold bucket.
      apply bucket_unique; [exact Hpos|]. fold bucket.
      clearbody bucket. clear Hb Hreset Hexact Ht0. div_lia. }
    eexists. split; [exact Hvalid|]. split; [exact Hday|].
    split; [reflexivity|].
    split; [|split; [|split; [|split; [|split; [|split]]]]].
    + reflexivity.
    + unfold fromtimestamp, timedelta_seconds. reflexivity.
    + apply redis_advance.
    + apply calls_advance.
    + clearbody bucket. clear Hreset Hexact. div_lia.
    + intros t Ht. now rewrite (Hin t Ht).
    + intros [= Heq]. apply str_inj in Heq.
      assert (Hr : int_timestamp (bucket * us_per_second
                                  + window_seconds * us_per_second)
                   = bucket + window_seconds).
      { rewrite int_timestamp_floor by (unfold us_per_second in *; lia).
        clearbody bucket. clear Hb Hin Heq Hreset Hexact. div_lia. }
      rewrite Hr in Heq.
      assert (Hnext : (bucket + window_seconds) / window_seconds * window_seconds
                      = (now / us_per_second / window_seconds + 1) * window_seconds).
      { apply bucket_unique; [exact Hpos|]. subst bucket. lia. }
      rewrite Hnext in Heq. subst bucket. lia.
Qed.

End ClockFacts.

Lemma window_label_and_reset_witness :
  (exists y m d,
     Datetime.valid_date y m d
     /\ Datetime.days_from_civil y m d = Scenario.now0 / Datetime.us_per_day
     /\ "2025-10-24-14:30"
        = (Py.str y +:+ "-" +:+ Datetime.pad2 m +:+ "-" +:+ Datetime.pad2 d
             +:+ "-" +:+ Datetime.pad2 14) +:+ ":" +:+ Datetime.pad2 30)
  /\ RateLimiter._get_current_window 60 Scenario.fresh
     = (Py.Returned "2025-10-24-14:30", RateLimiter.advance Scenario.fresh)
  /\ RateLimiter._calculate_reset_time "2025-10-24-14:30" 60 Scenario.fresh
     = (Py.Returned Scenario.reset0, RateLimiter.advance Scenario.fresh)
  /\ RateLimiter.label_at 60 Scenario.reset0 <> Some "2025-10-24-14:30"
  /\ (exists y m d,
        Datetime.valid_date y m d
        /\ Datetime.days_from_civil y m d = Scenario.now0 / Datetime.us_per_day
        /\ "2025-10-24-14"
           = Py.str y +:+ "-" +:+ Datetime.pad2 m +:+ "-" +:+ Datetime.pad2 d
               +:+ "-" +:+ Datetime.pad2 14)
  /\ RateLimiter._get_current_window 3600 Scenario.fresh
     = (Py.Returned "2025-10-24-14", RateLimiter.advance Scenario.fresh)
  /\ RateLimiter._calculate_reset_time "2025-10-24-14" 3600 Scenario.fresh
     = (Py.Returned 1761318000000000, RateLimiter.advance Scenario.fresh)
  /\ RateLimiter._get_current_window 7 Scenario.fresh
     = (Py.Returned "1761316214", RateLimiter.advance Scenario.fresh)
  /\ RateLimiter._calculate_reset_time "1761316214" 7 Scenario.fresh
     = (Py.Returned 1761316221000000, RateLimiter.advance Scenario.fresh)
  /\ RateLimiter.label_at 7 1761316221000000 <> Some "1761316214"
  /\ Datetime.valid_date 2025 10 24
  /\ Datetime.days_from_civil 2025 10 24 = Scenario.now0 / Datetime.us_per_day.
Proof.
  destruct (window_label_and_reset Scenario.fresh 60 "2025-10-24-14:30"
              ltac:(lia) ltac:(vm_compute; discriminate)
              ltac:(vm_compute; reflexivity))
    as (y & m & d & label & Hv & Hday & Hlabel & Hget & Hreset & _ & _ & _ & _ & Hnext).
  destruct (window_label_and_reset Scenario.fresh 3600 "2025-10-24-14"
              ltac:(lia) ltac:(vm_compute; discriminate)
              ltac:(vm_compute; reflexivity))
    as (y' & m' & d' & label' & Hv' & Hday' & Hlabel' & Hget' & Hreset' & _).
  destruct (window_label_and_reset Scenario.fresh 7 "1761316214"
              ltac:(lia) ltac:(vm_compute; discriminate)
              ltac:(vm_compute; reflexivity))
    as (y7 & m7 & d7 & label7 & _ & _ & Hlabel7 & Hget7 & Hreset7 & _ & _ & _ & _ & Hnext7).
  assert (Hrun : RateLimiter._get_current_window 60 Scenario.fresh
                 = (Py.Returned "2025-10-24-14:30", RateLimiter.advance Scenario.fresh))
    by (vm_compute; reflexivity).
  assert (Hrun' : RateLimiter._get_current_window 3600 Scenario.fresh
                  = (Py.Returned "2025-10-24-14", RateLimiter.advance Scenario.fresh))
    by (vm_compute; reflexivity).
  assert (El : label = "2025-10-24-14:30") by congruence.
  assert (El' : label' = "2025-10-24-14") by congruence.
  assert (El7 : label7 = "1761316214") by (rewrite Hlabel7; vm_compute; reflexivity).
  rewrite El in Hlabel, Hget, Hnext. rewrite El' in Hlabel', Hget'.
  rewrite El7 in Hget7, Hnext7.
  split; [exists y, m, d; split; [exact Hv|]; split; [exact Hday | exact Hlabel]|].
  split; [exact Hget|]. split; [exact Hreset|]. split; [exact Hnext|].
  split; [exists y', m', d'; split; [exact Hv'|]; split; [exact Hday' | exact Hlabel']|].
  split; [exact Hget'|]. split; [exact Hreset'|].
  split; [exact Hget7|]. split; [exact Hreset7|]. split; [exact Hnext7|].
  split; [vm_compute; repeat split; discriminate | vm_compute; reflexivity].
Defined.

(** C8, the claim as stated fails.  Far from the epoch the float of
    [timestamp()] cannot hold the microseconds: at
    2600-01-01T00:00:12.999999Z it is rounded up to the next second, the
    label for a window of 7 seconds is ["19880899213"] and not the text of
    [floor(epoch(now) / 7) * 7], and the window it names begins after the
    reading.  Before the epoch [int()] truncates towards zero where the
    claim takes the floor: half a second before it the label is ["0"]
    and not ["-7"].  A window of 0 seconds has no label, and for a window
    of -7 seconds the reset instant lies before the reading. *)
Lemma window_label_rounds_far_from_epoch :
  (RateLimiter._get_current_window 7 (Cases.world_at Cases.far_future)).1
  = Py.Returned "19880899213"
  /\ Py.str (Cases.far_future / Datetime.us_per_second / 7 * 7) = "19880899206"
  /\ Cases.far_future < 19880899213 * Datetime.us_per_second
  /\ (RateLimiter._get_current_window 7 (Cases.world_at Cases.before_epoch)).1
     = Py.Returned "0"
  /\ Py.str (Cases.before_epoch / Datetime.us_per_second / 7 * 7) = "-7"
  /\ (RateLimiter._get_current_window 0 Scenario.fresh).1
     = Py.Raised Py.ZeroDivisionError
  /\ (RateLimiter._calculate_reset_time "" (-7) Scenario.fresh).1
     = Py.Returned 1761316214000000
  /\ 1761316214000000 < RateLimiter.clock Scenario.fresh.
Proof. repeat split; vm_compute; reflexivity. Qed.

(* ===================================================================== *)
(** ** Counting on a reachable store *)
(* ===================================================================== *)

Section Counting.

Import RateLimiter.

Variable strategies : gmap string Config.Strategy.

Lemma ttl_reachable (key : string) (c : Redis.conn) :
  Redis.outage c = [] -> (RedisClient.ttl key c).2 = c.
Proof.
  intros Hup. unfold RedisClient.ttl, Redis.TTL.
  rewrite (attempt_reachable c Hup). now destruct (Redis.cells c !! key).
Qed.

(** The count the limiter reads from a record that holds [n]. *)
Lemma count_of_holds (m : gmap string Redis.cell) (key : string) (n : Z) :
  holds_count m key n -> count_of (Redis.value <$> m !! key) = n.
Proof.
  unfold holds_count. destruct (m !! key) as [r|]; simpl; [|congruence].
  intros Hr. apply as_integer_inv in Hr as (_ & -> & _). reflexivity.
Qed.

Lemma holds_count_range (m : gmap string Redis.cell) (key : string) (n : Z) :
  holds_count m key n -> Redis.INT64_MIN <= n <= Redis.INT64_MAX.
Proof.
  unfold holds_count. destruct (m !! key) as [r|].
  - intros Hr. now apply as_integer_inv in Hr as (_ & _ & ?).
  - intros ->. unfold Redis.INT64_MIN, Redis.INT64_MAX. lia.
Qed.

(** INCR on a record that holds [n], below the top of the range. *)
Lemma incr_reachable (key : string) (c : Redis.conn) (n : Z) :
  Redis.outage c = [] ->
  holds_count (Redis.cells c) key n ->
  n < Redis.INT64_MAX ->
  RedisClient.incr key c =
  (Some (n + 1),
   {| Redis.cells :=
        <[key := {| Redis.value := Py.str (n + 1);
                    Redis.lifetime := Redis.cells c !! key ≫= Redis.lifetime |}]>
          (Redis.cells c);
      Redis.outage := [] |}).
Proof.
  intros Hup Hn Hmax. unfold RedisClient.incr, Redis.INCR.
  rewrite (attempt_reachable c Hup). unfold holds_count in Hn.
  unfold Redis.with_cells. rewrite Hup.
  destruct (Redis.cells c !! key) as [r|]; simpl.
  - rewrite Hn. apply Z.ltb_lt in Hmax. now rewrite Hmax.
  - now subst n.
Qed.

(** INCR at the top of the range is an error reply: the wrapper returns
    [None] and the store is as before. *)
Lemma incr_overflow (key : string) (c : Redis.conn) :
  Redis.outage c = [] ->
  holds_count (Redis.cells c) key Redis.INT64_MAX ->
  RedisClient.incr key c = (None, c).
Proof.
  intros Hup Hn. unfold RedisClient.incr, Redis.INCR.
  rewrite (attempt_reachable c Hup). unfold holds_count in Hn.
  destruct (Redis.cells c !! key) as [r|]; simpl.
  - rewrite Hn. now rewrite Z.ltb_irrefl.
  - discriminate Hn.
Qed.

(** EXPIRE with a positive lifetime on an existing record. *)
Lemma expire_reachable (key : string) (seconds : Z) (m : gmap string Redis.cell)
    (r : Redis.cell) :
  0 < seconds ->
  m !! key = Some r ->
  RedisClient.expire key seconds {| Redis.cells := m; Redis.outage := [] |} =
  (true,
   {| Redis.cells := <[key := {| Redis.value := Redis.value r;
                                 Redis.lifetime := Some seconds |}]> m;
      Redis.outage := [] |}).
Proof.
  intros Hs Hr. unfold RedisClient.expire, Redis.EXPIRE. simpl. rewrite Hr.
  apply Z.ltb_lt in Hs. now rewrite Hs.
Qed.

Lemma in_window_advance {S} ws label (w : world S) :
  in_window ws label w -> in_window ws label (advance w).
Proof.
  unfold in_window, advance. destruct w as [r0 c0 [|t ts] cs]; simpl.
  - exact id.
  - intros Hw. now inversion Hw.
Qed.

Lemma in_window_after {S} ws label (w : world S) r new :
  in_window ws label w -> in_window ws label (after w r new).
Proof. exact id. Qed.

Lemma in_window_now {S} ws label (w : world S) :
  in_window ws label w -> label_at ws (clock w) = Some label.
Proof. unfold in_window. intros Hw. now inversion Hw. Qed.

(** A denial on a reachable store, whatever text the record holds:
    nothing moves but the clock and the record of calls. *)
Lemma check_deny_on_redis identifier kind (w : world Redis.conn) cfg label :
  strategy_of strategies kind = Some cfg ->
  label_at (Config.window cfg) (clock w) = Some label ->
  Redis.outage (redis w) = [] ->
  let key := _build_redis_key kind identifier label in
  let count := count_of (Redis.value <$> Redis.cells (redis w) !! key) in
  Config.limit cfg <= count ->
  exists d,
    check_rate_limit strategies identifier kind w =
    (Py.Returned d, advance (after (advance w) (redis w) [Get key; Ttl key]))
    /\ allowed d = false /\ current_count d = count.
Proof.
  intros Hcfg Hlabel Hup key count Hle.
  pose proof (get_reachable key (redis w) Hup) as Hget.
  destruct (RedisClient.ttl key (redis w)) as [t r2] eqn:Httl.
  pose proof (ttl_reachable key (redis w) Hup) as Hr2.
  rewrite Httl in Hr2. simpl in Hr2. subst r2.
  destruct (check_rate_limit_deny (client := redis_client) strategies identifier
              kind w cfg label _ _ t (redis w) Hcfg Hlabel Hget Hle Httl)
    as (reset & _ & Hrun).
  eexists. split; [exact Hrun|]. split; reflexivity.
Qed.

(** An allowed call on a reachable store: the record moves to the next
    count, and the expiry is armed when that count is 1. *)
Lemma check_allow_on_redis identifier kind (w : world Redis.conn) cfg label c :
  strategy_of strategies kind = Some cfg ->
  label_at (Config.window cfg) (clock w) = Some label ->
  Redis.outage (redis w) = [] ->
  0 < Config.window cfg ->
  holds_count (Redis.cells (redis w)) (_build_redis_key kind identifier label) c ->
  c < Config.limit cfg ->
  c < Redis.INT64_MAX ->
  let key := _build_redis_key kind identifier label in
  exists d,
    check_rate_limit strategies identifier kind w =
    (Py.Returned d,
     advance (after (advance w)
                {| Redis.cells :=
                     <[key := counted (Redis.cells (redis w) !! key) c
                                (Config.window cfg)]> (Redis.cells (redis w));
                   Redis.outage := [] |}
                (Get key :: Incr key
                 :: if c + 1 =? 1 then [Expire key (Config.window cfg)] else [])))
    /\ allowed d = true /\ current_count d = c + 1
    /\ remaining d = Z.max 0 (Config.limit cfg - (c + 1)).
Proof.
  intros Hcfg Hlabel Hup Hws Hc Hlt Hmax key.
  pose proof (get_reachable key (redis w) Hup) as Hget.
  pose proof (count_of_holds _ _ _ Hc) as Hcount.
  pose proof (incr_reachable key (redis w) c Hup Hc Hmax) as Hincr.
  set (m1 := <[key := {| Redis.value := Py.str (c + 1);
                         Redis.lifetime := Redis.cells (redis w) !! key
                                           ≫= Redis.lifetime |}]>
               (Redis.cells (redis w))) in *.
  assert (Hexp : RedisClient.expire key (Config.window cfg)
                   {| Redis.cells := m1; Redis.outage := [] |}
                 = (true,
                    {| Redis.cells :=
                         <[key := {| Redis.value := Py.str (c + 1);
                                     Redis.lifetime := Some (Config.window cfg) |}]> m1;
                       Redis.outage := [] |})).
  { apply (expire_reachable key (Config.window cfg) m1
             {| Redis.value := Py.str (c + 1);
                Redis.lifetime := Redis.cells (redis w) !! key
                                  ≫= Redis.lifetime |} Hws).
    subst m1. apply lookup_insert_eq. }
  assert (Hlt' : count_of (Redis.value <$> Redis.cells (redis w) !! key)
                 < Config.limit cfg)
    by (unfold key; rewrite Hcount; exact Hlt).
  destruct (check_rate_limit_allow (client := redis_client) strategies identifier
              kind w cfg label _ _ (c + 1) _ true _ Hcfg Hlabel Hget
              Hlt' Hincr Hexp) as (reset & _ & Hrun).
  rewrite Hrun. eexists. split.
  { apply f_equal2; [reflexivity|]. f_equal. f_equal.
    unfold counted. fold key. destruct (c + 1 =? 1).
    - subst m1. now rewrite insert_insert_eq.
    - reflexivity. }
  split; [reflexivity | split; reflexivity].
Qed.

(** A call that reaches INCR at the top of the range raises and leaves
    the store as it was. *)
Lemma check_overflow_on_redis identifier kind (w : world Redis.conn) cfg label :
  strategy_of strategies kind = Some cfg ->
  label_at (Config.window cfg) (clock w) = Some label ->
  Redis.outage (redis w) = [] ->
  holds_count (Redis.cells (redis w)) (_build_redis_key kind identifier label)
    Redis.INT64_MAX ->
  Redis.INT64_MAX < Config.limit cfg ->
  check_rate_limit strategies identifier kind w =
  (Py.Raised Py.TypeError,
   after (advance w) (redis w)
     [Get (_build_redis_key kind identifier label);
      Incr (_build_redis_key kind identifier label)]).
Proof.
  intros Hcfg Hlabel Hup Hc Hlt.
  set (key := _build_redis_key kind identifier label) in *.
  pose proof (get_reachable key (redis w) Hup) as Hget.
  pose proof (count_of_holds _ _ _ Hc) as Hcount.
  pose proof (incr_overflow key (redis w) Hup Hc) as Hincr.
  exact (check_rate_limit_raise (client := redis_client) strategies identifier
           kind w cfg label _ _ _ Hcfg Hlabel Hget
           ltac:(rewrite Hcount; exact Hlt) Hincr).
Qed.

End Counting.

(* ===================================================================== *)
(** ** Sequences of calls within one window *)
(* ===================================================================== *)

Section Sequences.

Import RateLimiter.

Variable strategies : gmap string Config.Strategy.
Variables identifier kind : string.
Variable cfg : Config.Strategy.
Variable label : string.

Hypothesis Hcfg : strategy_of strategies kind = Some cfg.
Hypothesis Hws : 0 < Config.window cfg.

#[local] Abbreviation key := (_build_redis_key kind identifier label).
#[local] Abbreviation ws := (Config.window cfg).
#[local] Abbreviation steady := (RateLimiter.steady (Config.window cfg) label).

Lemma expire_calls_app (l l' : list call) :
  expire_calls (l ++ l') = (expire_calls l ++ expire_calls l')%list.
Proof. unfold expire_calls. apply filter_app. Qed.

(** One call when the record holds [c] and the limit is within the range
    of the store. *)
Lemma check_step (w : world Redis.conn) (c : Z) :
  steady w ->
  Config.limit cfg <= Redis.INT64_MAX ->
  holds_count (Redis.cells (redis w)) key c ->
  exists o w',
    check_rate_limit strategies identifier kind w = (o, w')
    /\ steady w'
    /\ (if c <? Config.limit cfg
        then is_allowed o = true
             /\ holds_count (Redis.cells (redis w')) key (c + 1)
             /\ Redis.value <$> Redis.cells (redis w') !! key = Some (Py.str (c + 1))
        else is_denied o = true
             /\ Redis.cells (redis w') = Redis.cells (redis w)).
Proof.
  intros [Hwin Hup] Hmax Hc.
  pose proof (in_window_now _ _ _ Hwin) as Hlabel.
  destruct (c <? Config.limit cfg) eqn:E.
  - apply Z.ltb_lt in E.
    destruct (check_allow_on_redis strategies identifier kind w cfg label c
                Hcfg Hlabel Hup Hws Hc E ltac:(lia)) as (d & Hrun & Ha & Hn & _).
    eexists _, _. split; [exact Hrun|]. split; [|split; [exact Ha|split]].
    + split; [|now rewrite redis_advance].
      apply in_window_advance. apply in_window_after.
      now apply in_window_advance.
    + rewrite redis_advance. unfold holds_count. simpl.
      rewrite lookup_insert_eq. simpl. apply as_integer_str.
      pose proof (holds_count_range _ _ _ Hc). lia.
    + rewrite redis_advance. simpl. now rewrite lookup_insert_eq.
  - apply Z.ltb_ge in E.
    destruct (check_deny_on_redis strategies identifier kind w cfg label
                Hcfg Hlabel Hup
                ltac:(rewrite (count_of_holds _ _ _ Hc); exact E))
      as (d & Hrun & Ha & _).
    eexists _, _. split; [exact Hrun|]. split; [|split].
    + split; [|now rewrite redis_advance].
      apply in_window_advance. apply in_window_after.
      now apply in_window_advance.
    + simpl. now rewrite Ha.
    + now rewrite redis_advance.
Qed.

(** [n] calls when the record holds [c]: call number [i] (from 0) is
    allowed when [c + i] is below the limit and denied otherwise. *)
Lemma checks_admit (n : nat) : forall (w : world Redis.conn) (c : Z),
  steady w ->
  Config.limit cfg <= Redis.INT64_MAX ->
  holds_count (Redis.cells (redis w)) key c ->
  length (checks strategies n identifier kind w).1 = n
  /\ forall (i : nat) o,
       (checks strategies n identifier kind w).1 !! i = Some o ->
       if c + Z.of_nat i <? Config.limit cfg
       then is_allowed o = true else is_denied o = true.
Proof.
  induction n as [|n IH]; intros w c Hw Hmax Hc.
  - split; [reflexivity|]. intros i o Hi. discriminate Hi.
  - simpl.
    destruct (check_step w c Hw Hmax Hc) as (o1 & w1 & Hrun & Hw1 & Hstep).
    rewrite Hrun.
    destruct (checks strategies n identifier kind w1) as [os w2] eqn:Hrest.
    simpl.
    assert (Hnext : exists c', holds_count (Redis.cells (redis w1)) key c'
                               /\ (c' = c + 1 /\ c < Config.limit cfg
                                   \/ c' = c /\ Config.limit cfg <= c)).
    { destruct (c <? Config.limit cfg) eqn:E.
      - exists (c + 1). apply Z.ltb_lt in E. split; [apply Hstep | lia].
      - exists c. apply Z.ltb_ge in E. destruct Hstep as [_ Hsame].
        rewrite Hsame. split; [exact Hc | lia]. }
    destruct Hnext as (c' & Hc' & Hrel).
    destruct (IH w1 c' Hw1 Hmax Hc') as [Hlen Hall].
    rewrite Hrest in Hlen, Hall. simpl in Hlen, Hall.
    split; [now rewrite Hlen|].
    intros [|i] o Hi; simpl in Hi.
    + injection Hi as <-. rewrite Z.add_0_r.
      destruct (c <? Config.limit cfg); apply Hstep.
    + specialize (Hall i o Hi).
      destruct Hrel as [[-> Hlt] | [-> Hge]].
      * replace (c + Z.of_nat (Datatypes.S i)) with (c + 1 + Z.of_nat i) by lia.
        exact Hall.
      * assert (E1 : (c + Z.of_nat i <? Config.limit cfg) = false)
          by (apply Z.ltb_ge; lia).
        assert (E2 : (c + Z.of_nat (Datatypes.S i) <? Config.limit cfg) = false)
          by (apply Z.ltb_ge; lia).
        rewrite E1 in Hall. now rewrite E2.
Qed.

(** One call while the counter lives: no [expire], and the counter lives
    on with the lifetime it had. *)
Lemma check_step_living (w : world Redis.conn) (l : option Z) :
  steady w ->
  living (Redis.cells (redis w)) key l ->
  exists o w' new,
    check_rate_limit strategies identifier kind w = (o, w')
    /\ steady w'
    /\ living (Redis.cells (redis w')) key l
    /\ calls w' = (calls w ++ new)%list
    /\ expire_calls new = [].
Proof.
  intros [Hwin Hup] (r & c & Hr & Hint & Hc1 & Hl).
  pose proof (in_window_now _ _ _ Hwin) as Hlabel.
  assert (Hc : holds_count (Redis.cells (redis w)) key c)
    by (unfold holds_count; now rewrite Hr).
  pose proof (holds_count_range _ _ _ Hc) as Hrange.
  assert (Hsteady : forall r' new,
            steady (advance (after (advance w) r' new))
            <-> Redis.outage r' = []).
  { intros r' new. unfold RateLimiter.steady. rewrite redis_advance. simpl.
    split; [now intros [_ ?]|]. intros Ho. split; [|exact Ho].
    apply in_window_advance. apply in_window_after.
    now apply in_window_advance. }
  destruct (Z_le_gt_dec (Config.limit cfg) c) as [Hle | Hgt].
  - destruct (check_deny_on_redis strategies identifier kind w cfg label
                Hcfg Hlabel Hup
                ltac:(rewrite (count_of_holds _ _ _ Hc); exact Hle))
      as (d & Hrun & _).
    eexists _, _, _. split; [exact Hrun|]. split; [now apply Hsteady|].
    split; [|split].
    + rewrite redis_advance. simpl. now exists r, c.
    + rewrite calls_advance. simpl. now rewrite calls_advance.
    + reflexivity.
  - destruct (Z_lt_le_dec c Redis.INT64_MAX) as [Hlt | Htop].
    + destruct (check_allow_on_redis strategies identifier kind w cfg label c
                  Hcfg Hlabel Hup Hws Hc ltac:(lia) Hlt) as (d & Hrun & _).
      assert (E : (c + 1 =? 1) = false) by (apply Z.eqb_neq; lia).
      rewrite E in Hrun.
      eexists _, _, _. split; [exact Hrun|]. split; [now apply Hsteady|].
      split; [|split].
      * rewrite redis_advance. simpl.
        eexists _, (c + 1). rewrite lookup_insert_eq.
        split; [reflexivity|]. unfold counted. simpl. rewrite E, Hr. simpl.
        split; [apply as_integer_str; lia|]. split; [lia | exact Hl].
      * rewrite calls_advance. simpl. now rewrite calls_advance.
      * reflexivity.
    + assert (c = Redis.INT64_MAX) by lia. subst c.
      rewrite (check_overflow_on_redis strategies identifier kind w cfg label
                 Hcfg Hlabel Hup Hc ltac:(lia)).
      eexists _, _, _. split; [reflexivity|]. split; [|split; [|split]].
      * split; [|exact Hup]. apply in_window_after. now apply in_window_advance.
      * simpl. now exists r, Redis.INT64_MAX.
      * simpl. now rewrite calls_advance.
      * reflexivity.
Qed.

(** Any number of calls while the counter lives. *)
Lemma checks_living (n : nat) : forall (w : world Redis.conn) (l : option Z),
  steady w ->
  living (Redis.cells (redis w)) key l ->
  exists new,
    calls (checks strategies n identifier kind w).2 = (calls w ++ new)%list
    /\ expire_calls new = []
    /\ living (Redis.cells (redis (checks strategies n identifier kind w).2)) key l.
Proof.
  induction n as [|n IH]; intros w l Hw Hlive.
  - exists []. simpl. rewrite app_nil_r. auto.
  - simpl.
    destruct (check_step_living w l Hw Hlive)
      as (o1 & w1 & new1 & Hrun & Hw1 & Hlive1 & Hcalls1 & Hexp1).
    rewrite Hrun.
    destruct (IH w1 l Hw1 Hlive1) as (new2 & Hcalls2 & Hexp2 & Hlive2).
    destruct (checks strategies n identifier kind w1) as [os w2].
    simpl in *. exists (new1 ++ new2)%list. split; [|split].
    + now rewrite Hcalls2, Hcalls1, app_assoc.
    + now rewrite expire_calls_app, Hexp1, Hexp2.
    + exact Hlive2.
Qed.

End Sequences.

(* ===================================================================== *)
(** ** The cap, the read-only status and the expiry *)
(* ===================================================================== *)
(** ** A limit of -1 *)
(* ===================================================================== *)

Section NoBypass.

Import RateLimiter.

Variable strategies : gmap string Config.Strategy.




End NoBypass.

(* ===================================================================== *)

Section Expiry.

Import RateLimiter.

Context {S : Type} {client : RedisClientSpec S}.
Variable strategies : gmap string Config.Strategy.

(** One call, any client: [expire] is called exactly when [incr] was
    called and returned 1, on the counter key and with the window size. *)
Lemma expire_iff_first_increment identifier kind (w : world S) cfg label :
  strategy_of strategies kind = Some cfg ->
  label_at (Config.window cfg) (clock w) = Some label ->
  let key := _build_redis_key kind identifier label in
  let got := client_get key (redis w) in
  expire_calls (new_calls w (check_rate_limit strategies identifier kind w).2)
  = if (count_of got.1 <? Config.limit cfg)
       && Py.eq_int (client_incr key got.2).1 1
    then [Expire key (Config.window cfg)] else [].
Proof.
  intros Hcfg Hlabel key got. subst got.
  destruct (client_get key (redis w)) as [v r1] eqn:Hget. simpl.
  destruct (count_of v <? Config.limit cfg) eqn:E.
  - apply Z.ltb_lt in E.
    destruct (client_incr key r1) as [[n|] r2] eqn:Hincr; simpl.
    + destruct (client_expire key (Config.window cfg) r2) as [b r3] eqn:Hexp.
      destruct (check_rate_limit_allow strategies identifier kind w cfg label
                  v r1 n r2 b r3 Hcfg Hlabel Hget E Hincr Hexp)
        as (reset & _ & ->).
      simpl. rewrite new_calls_advance_after.
      now destruct (n =? 1).
    + rewrite (check_rate_limit_raise strategies identifier kind w cfg label
                 v r1 r2 Hcfg Hlabel Hget E Hincr).
      simpl. unfold new_calls, after. simpl. rewrite calls_advance.
      now rewrite drop_app_length.
  - apply Z.ltb_ge in E.
    destruct (client_ttl key r1) as [t r2] eqn:Httl.
    destruct (check_rate_limit_deny strategies identifier kind w cfg label
                v r1 t r2 Hcfg Hlabel Hget E Httl) as (reset & _ & ->).
    simpl. now rewrite new_calls_advance_after.
Qed.

(** Before a strategy and a label exist [get_rate_limit_status] makes no
    call on the client. *)
Lemma get_rate_limit_status_early identifier kind (w : world S) :
  strategy_of strategies kind = None
  \/ (exists cfg, strategy_of strategies kind = Some cfg
                  /\ label_at (Config.window cfg) (clock w) = None) ->
  new_calls w (get_rate_limit_status strategies identifier kind w).2 = []
  /\ redis (get_rate_limit_status strategies identifier kind w).2 = redis w.
Proof.
  intros [Hnone | (cfg & Hcfg & Hlabel)].
  - assert (Hrun : get_rate_limit_status strategies identifier kind w
                   = (Py.Raised Py.KeyError, w)).
    { unfold get_rate_limit_status, bind at 1.
      now rewrite strategy_for_run, Hnone. }
    rewrite Hrun. simpl. split; [|reflexivity]. unfold new_calls. apply drop_all.
  - assert (Hrun : get_rate_limit_status strategies identifier kind w
                   = (Py.Raised Py.ZeroDivisionError, advance w)).
    { unfold get_rate_limit_status, bind at 1.
      rewrite strategy_for_run, Hcfg. unfold bind at 1.
      now rewrite get_current_window_run, Hlabel. }
    rewrite Hrun. simpl. split; [|apply redis_advance].
    unfold new_calls. rewrite calls_advance. apply drop_all.
Qed.

End Expiry.

Section Claims.

Import RateLimiter.

Variable strategies : gmap string Config.Strategy.

(** C4. On a reachable store, with a limit between 0 and the top of the
    store's counter range and a positive window: a call made when the
    record holds [limit - 1] is allowed and leaves the record at exactly
    [limit]; a call made when the count read from the record is [limit]
    or more is denied and changes no record; and of any number of
    consecutive calls in a
    fresh window the first [limit] are allowed and every later one is
    denied. *)
Theorem limit_is_inclusive_cap identifier kind (w : world Redis.conn) cfg label :
  strategy_of strategies kind = Some cfg ->
  steady (Config.window cfg) label w ->
  0 < Config.window cfg ->
  0 <= Config.limit cfg <= Redis.INT64_MAX ->
  let key := _build_redis_key kind identifier label in
  let records := Redis.cells (redis w) in
  (holds_count records key (Config.limit cfg - 1) ->
   exists d w',
     check_rate_limit strategies identifier kind w = (Py.Returned d, w')
     /\ allowed d = true
     /\ current_count d = Config.limit cfg
     /\ holds_count (Redis.cells (redis w')) key (Config.limit cfg)
     /\ Redis.value <$> Redis.cells (redis w') !! key
        = Some (Py.str (Config.limit cfg)))
  /\ (Config.limit cfg <= count_of (Redis.value <$> records !! key) ->
      exists d w',
        check_rate_limit strategies identifier kind w = (Py.Returned d, w')
        /\ allowed d = false
        /\ Redis.cells (redis w') = records)
  /\ (records !! key = None ->
      forall n : nat,
        length (checks strategies n identifier kind w).1 = n
        /\ forall (i : nat) o,
             (checks strategies n identifier kind w).1 !! i = Some o ->
             if Z.of_nat i <? Config.limit cfg
             then is_allowed o = true else is_denied o = true).
Proof.
  intros Hcfg Hsteady Hws [Hlim0 Hmax] key records.
  pose proof Hsteady as [Hwin Hup].
  pose proof (in_window_now _ _ _ Hwin) as Hlabel.
  split; [|split].
  - intros Hc.
    destruct (check_allow_on_redis strategies identifier kind w cfg label
                (Config.limit cfg - 1) Hcfg Hlabel Hup Hws Hc ltac:(lia) ltac:(lia))
      as (d & Hrun & Ha & Hn & _).
    replace (Config.limit cfg - 1 + 1) with (Config.limit cfg) in * by lia.
    eexists _, _. split; [exact Hrun|]. split; [exact Ha|]. split; [exact Hn|].
    rewrite redis_advance. simpl. unfold holds_count. fold key.
    rewrite lookup_insert_eq. unfold counted. simpl.
    replace (Config.limit cfg - 1 + 1) with (Config.limit cfg) by lia.
    split; [|reflexivity]. apply as_integer_str.
    unfold Redis.INT64_MIN. lia.
  - intros Hle.
    destruct (check_deny_on_redis strategies identifier kind w cfg label
                Hcfg Hlabel Hup Hle) as (d & Hrun & Ha & _).
    eexists _, _. split; [exact Hrun|]. split; [exact Ha|].
    now rewrite redis_advance.
  - intros Habsent n.
    assert (Hc : holds_count records key 0)
      by (unfold holds_count; now rewrite Habsent).
    exact (checks_admit strategies identifier kind cfg label Hcfg Hws n w 0
             Hsteady Hmax Hc).
Qed.

(** C6. [get_rate_limit_status] calls nothing but reads on the client
    (never [incr], [expire] or [delete]) and leaves every record of the
    store as it was, so the count read before equals the count read
    after; on a reachable store, two consecutive calls in one window
    report the same [current_count]. *)
Theorem status_is_read_only identifier kind (w : world Redis.conn) :
  let first := get_rate_limit_status strategies identifier kind w in
  let second := get_rate_limit_status strategies identifier kind first.2 in
  Forall (fun c => is_write c = false) (new_calls w first.2)
  /\ Redis.cells (redis first.2) = Redis.cells (redis w)
  /\ (forall cfg label,
        strategy_of strategies kind = Some cfg ->
        steady (Config.window cfg) label w ->
        exists d1 d2,
          first.1 = Py.Returned d1 /\ second.1 = Py.Returned d2
          /\ current_count d1 = current_count d2
          /\ Redis.cells (redis second.2) = Redis.cells (redis w)).
Proof.
  intros first second.
  assert (Hfirst : forall cfg label,
            strategy_of strategies kind = Some cfg ->
            label_at (Config.window cfg) (clock w) = Some label ->
            exists reset,
              first =
              (Py.Returned
                 {| allowed := count_of (RedisClient.get
                                 (_build_redis_key kind identifier label) (redis w)).1
                               <? Config.limit cfg;
                    limit := Config.limit cfg;
                    remaining := Z.max 0 (Config.limit cfg - count_of (RedisClient.get
                                   (_build_redis_key kind identifier label) (redis w)).1);
                    reset_at := reset;
                    current_count := count_of (RedisClient.get
                                       (_build_redis_key kind identifier label) (redis w)).1;
                    window := label; retry_after := 0 |},
               advance (after (advance w)
                          (RedisClient.get (_build_redis_key kind identifier label)
                             (redis w)).2
                          [Get (_build_redis_key kind identifier label)]))).
  { intros cfg label Hcfg Hlabel.
    destruct (RedisClient.get (_build_redis_key kind identifier label) (redis w))
      as [v r1] eqn:Hget.
    destruct (get_rate_limit_status_run (client := redis_client) strategies
                identifier kind w cfg label v r1 Hcfg Hlabel Hget)
      as (reset & _ & Hrun).
    exists reset. exact Hrun. }
  split; [|split].
  - destruct (strategy_of strategies kind) as [cfg|] eqn:Hcfg.
    + destruct (label_at (Config.window cfg) (clock w)) as [label|] eqn:Hlabel.
      * destruct (Hfirst cfg label eq_refl Hlabel) as (reset & ->).
        simpl. rewrite new_calls_advance_after. repeat constructor.
      * subst first.
        rewrite (proj1 (get_rate_limit_status_early (client := redis_client)
                          strategies identifier kind w
                          (or_intror (ex_intro _ cfg (conj Hcfg Hlabel))))).
        constructor.
    + subst first.
      rewrite (proj1 (get_rate_limit_status_early (client := redis_client)
                        strategies identifier kind w (or_introl Hcfg))).
      constructor.
  - destruct (strategy_of strategies kind) as [cfg|] eqn:Hcfg.
    + destruct (label_at (Config.window cfg) (clock w)) as [label|] eqn:Hlabel.
      * destruct (Hfirst cfg label eq_refl Hlabel) as (reset & ->).
        simpl. rewrite redis_advance. simpl. apply cells_get.
      * subst first.
        now rewrite (proj2 (get_rate_limit_status_early (client := redis_client)
                          strategies identifier kind w
                          (or_intror (ex_intro _ cfg (conj Hcfg Hlabel))))).
    + subst first.
      now rewrite (proj2 (get_rate_limit_status_early (client := redis_client)
                        strategies identifier kind w (or_introl Hcfg))).
  - intros cfg label Hcfg [Hwin Hup].
    pose proof (in_window_now _ _ _ Hwin) as Hlabel.
    set (key := _build_redis_key kind identifier label).
    pose proof (get_reachable key (redis w) Hup) as Hget.
    destruct (get_rate_limit_status_run (client := redis_client) strategies
                identifier kind w cfg label _ _ Hcfg Hlabel Hget)
      as (reset1 & _ & Hrun1).
    set (w1 := advance (after (advance w) (redis w) [Get key])) in *.
    assert (Hwin1 : in_window (Config.window cfg) label w1).
    { apply in_window_advance. apply in_window_after.
      now apply in_window_advance. }
    assert (Hredis1 : redis w1 = redis w) by (unfold w1; now rewrite redis_advance).
    pose proof (in_window_now _ _ _ Hwin1) as Hlabel1.
    assert (Hget1 : client_get key (redis w1)
                    = (Redis.value <$> Redis.cells (redis w) !! key, redis w))
      by (rewrite Hredis1; exact Hget).
    destruct (get_rate_limit_status_run (client := redis_client) strategies
                identifier kind w1 cfg label _ _ Hcfg Hlabel1 Hget1)
      as (reset2 & _ & Hrun2).
    fold key in Hrun1.
    assert (Hw1 : first.2 = w1) by (subst first; now rewrite Hrun1).
    subst second. rewrite Hw1, Hrun2. subst first. rewrite Hrun1.
    eexists _, _. split; [reflexivity|]. split; [reflexivity|].
    split; [reflexivity|]. simpl. now rewrite redis_advance.
Qed.

(** C7. On a reachable store, with a positive window: a call invokes
    [expire] exactly when it called [incr] and [incr] returned 1, on the
    counter key and with a lifetime of [window_seconds]; while the counter
    lives (its record holds a count of at least 1) no call in the window
    invokes [expire] and the lifetime stays as it is; so along any
    sequence of calls in a fresh window [expire] is invoked exactly once
    and the counter keeps the lifetime [window_seconds]. *)
Theorem expiry_armed_once identifier kind (w : world Redis.conn) cfg label :
  strategy_of strategies kind = Some cfg ->
  steady (Config.window cfg) label w ->
  0 < Config.window cfg ->
  let key := _build_redis_key kind identifier label in
  let records := Redis.cells (redis w) in
  expire_calls (new_calls w (check_rate_limit strategies identifier kind w).2)
  = (if (count_of (Redis.value <$> records !! key) <? Config.limit cfg)
        && Py.eq_int (RedisClient.incr key (redis w)).1 1
     then [Expire key (Config.window cfg)] else [])
  /\ (forall l, living records key l ->
      forall n : nat,
        expire_calls (new_calls w (checks strategies n identifier kind w).2) = []
        /\ living (Redis.cells (redis (checks strategies n identifier kind w).2))
             key l)
  /\ (records !! key = None -> 0 < Config.limit cfg ->
      forall n : nat,
        expire_calls
          (new_calls w (checks strategies (Datatypes.S n) identifier kind w).2)
        = [Expire key (Config.window cfg)]
        /\ living
             (Redis.cells
                (redis (checks strategies (Datatypes.S n) identifier kind w).2))
             key (Some (Config.window cfg))).
Proof.
  intros Hcfg Hsteady Hws key records.
  pose proof Hsteady as [Hwin Hup].
  pose proof (in_window_now _ _ _ Hwin) as Hlabel.
  split; [|split].
  - pose proof (expire_iff_first_increment (client := redis_client) strategies
                  identifier kind w cfg label Hcfg Hlabel) as Hone.
    simpl in Hone. fold key in Hone.
    change (client_get key (redis w)) with (RedisClient.get key (redis w)) in Hone.
    rewrite (get_reachable key (redis w) Hup) in Hone. exact Hone.
  - intros l Hlive n.
    destruct (checks_living strategies identifier kind cfg label Hcfg Hws n w l
                Hsteady Hlive) as (new & Hcalls & Hexp & Hlive').
    split; [|exact Hlive'].
    unfold new_calls. rewrite Hcalls, drop_app_length. exact Hexp.
  - intros Habsent Hlim n.
    assert (Hc : holds_count records key 0)
      by (unfold holds_count; now rewrite Habsent).
    destruct (check_allow_on_redis strategies identifier kind w cfg label 0
                Hcfg Hlabel Hup Hws Hc Hlim ltac:(unfold Redis.INT64_MAX; lia))
      as (d & Hrun & _).
    simpl. rewrite Hrun. fold key in Hrun |- *. fold records.
    set (w1 := advance (after (advance w) _ _)).
    assert (Hsteady1 : steady (Config.window cfg) label w1).
    { split; [|unfold w1; now rewrite redis_advance].
      apply in_window_advance. apply in_window_after.
      now apply in_window_advance. }
    assert (Hlive1 : living (Redis.cells (redis w1)) key (Some (Config.window cfg))).
    { unfold w1. rewrite redis_advance. simpl.
      eexists _, 1. rewrite lookup_insert_eq. split; [reflexivity|].
      unfold counted. simpl. split; [reflexivity|]. split; [lia | reflexivity]. }
    destruct (checks_living strategies identifier kind cfg label Hcfg Hws n w1 _
                Hsteady1 Hlive1) as (new & Hcalls & Hexp & Hlive').
    destruct (checks strategies n identifier kind w1) as [os w2].
    simpl in *. split; [|exact Hlive'].
    unfold new_calls. rewrite Hcalls. unfold w1. rewrite calls_advance. simpl.
    rewrite calls_advance, <- app_assoc, drop_app_length.
    rewrite expire_calls_app, Hexp. reflexivity.
Qed.

End Claims.

(* ===================================================================== *)
(** ** Worked sequences *)
(* ===================================================================== *)

Section SequenceRuns.

Import RateLimiter Scenario.

Lemma fresh_is_steady : steady (Config.window small) label7 fresh.
Proof. split; [|reflexivity]. repeat constructor. Qed.

Lemma limit_is_inclusive_cap_witness :
  strategy_of small_strategies "user" = Some small
  /\ steady (Config.window small) label7 fresh
  /\ 0 < Config.window small
  /\ 0 <= Config.limit small <= Redis.INT64_MAX
  /\ Redis.cells (redis fresh) !! key7 = None
  /\ length (checks small_strategies 3 "u1" "user" fresh).1 = 3%nat
  /\ (exists o, (checks small_strategies 3 "u1" "user" fresh).1 !! 1%nat = Some o
                /\ is_allowed o = true)
  /\ (exists o, (checks small_strategies 3 "u1" "user" fresh).1 !! 2%nat = Some o
                /\ is_denied o = true).
Proof.
  assert (H1 : strategy_of small_strategies "user" = Some small)
    by (vm_compute; reflexivity).
  assert (H2 : 0 < Config.window small) by (simpl; lia).
  assert (H3 : 0 <= Config.limit small <= Redis.INT64_MAX)
    by (unfold Redis.INT64_MAX; simpl; lia).
  assert (H4 : Redis.cells (redis fresh) !! key7 = None) by reflexivity.
  destruct (limit_is_inclusive_cap small_strategies "u1" "user" fresh small
              label7 H1 fresh_is_steady H2 H3) as (_ & _ & Hseq).
  destruct (Hseq H4 3%nat) as [Hlen Hall].
  repeat (split; [assumption || exact fresh_is_steady|]).
  split.
  - destruct ((checks small_strategies 3 "u1" "user" fresh).1 !! 1%nat)
      as [o|] eqn:E; [|vm_compute in E; discriminate E].
    exists o. split; [reflexivity|]. exact (Hall 1%nat o E).
  - destruct ((checks small_strategies 3 "u1" "user" fresh).1 !! 2%nat)
      as [o|] eqn:E; [|vm_compute in E; discriminate E].
    exists o. split; [reflexivity|]. exact (Hall 2%nat o E).
Defined.

Lemma status_is_read_only_witness :
  strategy_of Config.RATE_LIMIT_STRATEGIES "user" = Some free_minute
  /\ steady (Config.window free_minute) label0 (counting "5" (Some 30))
  /\ exists d1 d2,
       (get_rate_limit_status Config.RATE_LIMIT_STRATEGIES "u1" "user"
          (counting "5" (Some 30))).1 = Py.Returned d1
       /\ (get_rate_limit_status Config.RATE_LIMIT_STRATEGIES "u1" "user"
             (get_rate_limit_status Config.RATE_LIMIT_STRATEGIES "u1" "user"
                (counting "5" (Some 30))).2).1 = Py.Returned d2
       /\ current_count d1 = current_count d2
       /\ Redis.cells
            (redis
               (get_rate_limit_status Config.RATE_LIMIT_STRATEGIES "u1" "user"
                  (get_rate_limit_status Config.RATE_LIMIT_STRATEGIES "u1" "user"
                     (counting "5" (Some 30))).2).2)
          = Redis.cells (redis (counting "5" (Some 30))).
Proof.
  assert (H1 : strategy_of Config.RATE_LIMIT_STRATEGIES "user" = Some free_minute)
    by (vm_compute; reflexivity).
  assert (H2 : steady (Config.window free_minute) label0 (counting "5" (Some 30))).
  { split; [|reflexivity]. constructor; [vm_compute; reflexivity | constructor]. }
  split; [exact H1|]. split; [exact H2|].
  destruct (status_is_read_only Config.RATE_LIMIT_STRATEGIES "u1" "user"
              (counting "5" (Some 30))) as (_ & _ & Hsame).
  exact (Hsame free_minute label0 H1 H2).
Defined.

Lemma expiry_armed_once_witness :
  strategy_of small_strategies "user" = Some small
  /\ steady (Config.window small) label7 fresh
  /\ 0 < Config.window small
  /\ Redis.cells (redis fresh) !! key7 = None
  /\ expire_calls (new_calls fresh (checks small_strategies 3 "u1" "user" fresh).2)
     = [Expire key7 7]
  /\ living (Redis.cells (redis (checks small_strategies 3 "u1" "user" fresh).2))
       key7 (Some 7).
Proof.
  assert (H1 : strategy_of small_strategies "user" = Some small)
    by (vm_compute; reflexivity).
  assert (H2 : 0 < Config.window small) by (simpl; lia).
  assert (H4 : Redis.cells (redis fresh) !! key7 = None) by reflexivity.
  destruct (expiry_armed_once small_strategies "u1" "user" fresh small
              label7 H1 fresh_is_steady H2) as (_ & _ & Hseq).
  split; [exact H1|]. split; [exact fresh_is_steady|]. split; [exact H2|].
  split; [exact H4|].
  exact (Hseq H4 ltac:(simpl; lia) 2%nat).
Defined.


End SequenceRuns.

(* ===================================================================== *)
(** ** Further properties of the rate limiter *)
(* ===================================================================== *)

Section Quota.

Import RateLimiter.

Context {S : Type} {client : RedisClientSpec S}.
Variable strategies : gmap string Config.Strategy.

(** X1. In every decision of [check_rate_limit] and of
    [get_rate_limit_status], [limit] is the limit of the strategy,
    [remaining] is [max(0, limit - current_count)], hence never negative,
    and a decision that is not allowed has [current_count] at or above
    [limit]. *)
Theorem remaining_is_clamped identifier kind (w : world S) d :
  (check_rate_limit strategies identifier kind w).1 = Py.Returned d
  \/ (get_rate_limit_status strategies identifier kind w).1 = Py.Returned d ->
  (exists cfg, strategy_of strategies kind = Some cfg /\ limit d = Config.limit cfg)
  /\ remaining d = Z.max 0 (limit d - current_count d)
  /\ 0 <= remaining d
  /\ (allowed d = false -> limit d <= current_count d).
Proof.
  intros Hd.
  destruct (strategy_of strategies kind) as [cfg|] eqn:Hcfg.
  2:{ exfalso. destruct Hd as [Hd | Hd]; revert Hd;
        [unfold check_rate_limit | unfold get_rate_limit_status];
        unfold bind at 1; rewrite strategy_for_run, Hcfg; discriminate. }
  destruct (label_at (Config.window cfg) (clock w)) as [label|] eqn:Hlabel.
  2:{ exfalso. destruct Hd as [Hd | Hd]; revert Hd;
        [unfold check_rate_limit | unfold get_rate_limit_status];
        unfold bind at 1; rewrite strategy_for_run, Hcfg; unfold bind at 1;
        rewrite get_current_window_run, Hlabel; discriminate. }
  set (key := _build_redis_key kind identifier label).
  destruct (client_get key (redis w)) as [v r1] eqn:Hget.
  assert (Hgoal : limit d = Config.limit cfg
                  /\ remaining d = Z.max 0 (limit d - current_count d)
                  /\ (allowed d = false -> limit d <= current_count d)).
  { destruct Hd as [Hd | Hd].
    - destruct (Z_le_gt_dec (Config.limit cfg) (count_of v)) as [Hle | Hgt].
      + destruct (client_ttl key r1) as [t r2] eqn:Httl.
        destruct (check_rate_limit_deny strategies identifier kind w cfg label
                    v r1 t r2 Hcfg Hlabel Hget Hle Httl) as (reset & _ & Hrun).
        rewrite Hrun in Hd. injection Hd as <-. simpl. lia.
      + destruct (client_incr key r1) as [[n|] r2] eqn:Hincr.
        * destruct (client_expire key (Config.window cfg) r2) as [b r3] eqn:Hexp.
          destruct (check_rate_limit_allow strategies identifier kind w cfg label
                      v r1 n r2 b r3 Hcfg Hlabel Hget ltac:(lia) Hincr Hexp)
            as (reset & _ & Hrun).
          rewrite Hrun in Hd. injection Hd as <-. simpl.
          split; [reflexivity|]. split; [reflexivity | discriminate].
        * rewrite (check_rate_limit_raise strategies identifier kind w cfg label
                     v r1 r2 Hcfg Hlabel Hget ltac:(lia) Hincr) in Hd.
          discriminate Hd.
    - destruct (get_rate_limit_status_run strategies identifier kind w cfg label
                  v r1 Hcfg Hlabel Hget) as (reset & _ & Hrun).
      rewrite Hrun in Hd. injection Hd as <-. simpl.
      split; [reflexivity|]. split; [reflexivity|].
      intros Hlt. apply Z.ltb_ge in Hlt. exact Hlt. }
  destruct Hgoal as (Hl & Hr & Ha).
  split; [exists cfg; auto|]. split; [exact Hr|]. split; [lia | exact Ha].
Qed.

(** X2. The default of the strategy lookup is evaluated first: when the
    table has no ["ip"] entry, [check_rate_limit],
    [get_rate_limit_status] and [reset_rate_limit] raise [KeyError] for
    every kind, listed or not, before the clock is read or the client is
    called. *)
Theorem missing_ip_strategy_raises identifier kind (w : world S) :
  strategies !! "ip" = None ->
  check_rate_limit strategies identifier kind w = (Py.Raised Py.KeyError, w)
  /\ get_rate_limit_status strategies identifier kind w = (Py.Raised Py.KeyError, w)
  /\ reset_rate_limit strategies identifier kind w = (Py.Raised Py.KeyError, w).
Proof.
  intros Hip.
  unfold check_rate_limit, get_rate_limit_status, reset_rate_limit, bind,
    strategy_for, raise.
  now rewrite Hip.
Qed.

End Quota.

(* ===================================================================== *)
(** ** One counter per key *)
(* ===================================================================== *)

Section Frame.

Import RateLimiter.

Variable strategies : gmap string Config.Strategy.

Lemma lookup_attempt (c : Redis.conn) (k : string) :
  Redis.cells (Redis.attempt c).2 !! k = Redis.cells c !! k.
Proof. now rewrite cells_attempt. Qed.

Lemma lookup_incr_other (key k : string) (c : Redis.conn) :
  k <> key -> Redis.cells (RedisClient.incr key c).2 !! k = Redis.cells c !! k.
Proof.
  intros Hne. unfold RedisClient.incr, Redis.INCR.
  pose proof (cells_attempt c) as Hc.
  destruct (Redis.attempt c) as [[] c']; simpl in *; [|congruence].
  rewrite <- Hc.
  destruct (Redis.cells c' !! key) as [r|]; simpl.
  - destruct (Redis.as_integer (Redis.value r)) as [n|]; simpl; [|reflexivity].
    destruct (n <? Redis.INT64_MAX); simpl; [|reflexivity].
    now rewrite lookup_insert_ne.
  - now rewrite lookup_insert_ne.
Qed.

Lemma lookup_expire_other (key k : string) (s : Z) (c : Redis.conn) :
  k <> key -> Redis.cells (RedisClient.expire key s c).2 !! k = Redis.cells c !! k.
Proof.
  intros Hne. unfold RedisClient.expire, Redis.EXPIRE.
  pose proof (cells_attempt c) as Hc.
  destruct (Redis.attempt c) as [[] c']; simpl in *; [|congruence].
  rewrite <- Hc.
  destruct (Redis.cells c' !! key) as [r|]; simpl; [|reflexivity].
  destruct (0 <? s); simpl.
  - now rewrite lookup_insert_ne.
  - now rewrite lookup_delete_ne.
Qed.

Lemma lookup_delete_other (key k : string) (c : Redis.conn) :
  k <> key -> Redis.cells (RedisClient.delete key c).2 !! k = Redis.cells c !! k.
Proof.
  intros Hne. unfold RedisClient.delete, Redis.DEL.
  pose proof (cells_attempt c) as Hc.
  destruct (Redis.attempt c) as [[] c']; simpl in *; [|congruence].
  rewrite <- Hc.
  destruct (Redis.cells c' !! key) as [r|]; simpl; [|reflexivity].
  now rewrite lookup_delete_ne.
Qed.

(** The store a call of [check_rate_limit] leaves behind, whatever its
    outcome. *)
Lemma check_rate_limit_store identifier kind (w : world Redis.conn) cfg label :
  strategy_of strategies kind = Some cfg ->
  label_at (Config.window cfg) (clock w) = Some label ->
  let key := _build_redis_key kind identifier label in
  let r1 := (RedisClient.get key (redis w)).2 in
  let r2 := (RedisClient.incr key r1).2 in
  redis (check_rate_limit strategies identifier kind w).2
  = if Config.limit cfg <=? count_of (RedisClient.get key (redis w)).1
    then (RedisClient.ttl key r1).2
    else if Py.eq_int (RedisClient.incr key r1).1 1
         then (RedisClient.expire key (Config.window cfg) r2).2
         else r2.
Proof.
  intros Hcfg Hlabel key r1 r2. subst r1 r2.
  destruct (RedisClient.get key (redis w)) as [v r1] eqn:Hget. simpl.
  destruct (Config.limit cfg <=? count_of v) eqn:E.
  - apply Z.leb_le in E.
    destruct (RedisClient.ttl key r1) as [t r2] eqn:Httl.
    destruct (check_rate_limit_deny (client := redis_client) strategies identifier
                kind w cfg label v r1 t r2 Hcfg Hlabel Hget E Httl)
      as (reset & _ & ->).
    simpl. now rewrite redis_advance.
  - apply Z.leb_gt in E.
    destruct (RedisClient.incr key r1) as [[n|] r2] eqn:Hincr; simpl.
    + destruct (RedisClient.expire key (Config.window cfg) r2) as [b r3] eqn:Hexp.
      destruct (check_rate_limit_allow (client := redis_client) strategies
                  identifier kind w cfg label v r1 n r2 b r3 Hcfg Hlabel Hget E
                  Hincr Hexp) as (reset & _ & ->).
      simpl. rewrite redis_advance. simpl. now destruct (n =? 1).
    + now rewrite (check_rate_limit_raise (client := redis_client) strategies
                     identifier kind w cfg label v r1 r2 Hcfg Hlabel Hget E Hincr).
Qed.

(** Without a strategy or a label the methods leave the client alone. *)
Lemma check_rate_limit_no_label identifier kind (w : world Redis.conn) :
  (forall cfg, strategy_of strategies kind = Some cfg ->
               label_at (Config.window cfg) (clock w) = None) ->
  redis (check_rate_limit strategies identifier kind w).2 = redis w
  /\ redis (reset_rate_limit strategies identifier kind w).2 = redis w.
Proof.
  intros Hnone.
  split; [unfold check_rate_limit | unfold reset_rate_limit];
    unfold bind at 1; rewrite strategy_for_run;
    (destruct (strategy_of strategies kind) as [cfg|]; [|reflexivity]);
    unfold bind at 1; rewrite get_current_window_run, (Hnone cfg eq_refl);
    apply redis_advance.
Qed.

(** X3. A call of [check_rate_limit] or [reset_rate_limit] for one
    identifier changes no record but the one under its own key, whatever
    the store holds and whether or not it can be reached. *)
Theorem other_counters_untouched identifier kind (w : world Redis.conn) (k : string) :
  (forall cfg label,
     strategy_of strategies kind = Some cfg ->
     label_at (Config.window cfg) (clock w) = Some label ->
     k <> _build_redis_key kind identifier label) ->
  Redis.cells (redis (check_rate_limit strategies identifier kind w).2) !! k
  = Redis.cells (redis w) !! k
  /\ Redis.cells (redis (reset_rate_limit strategies identifier kind w).2) !! k
     = Redis.cells (redis w) !! k.
Proof.
  intros Hk.
  destruct (strategy_of strategies kind) as [cfg|] eqn:Hcfg.
  2:{ destruct (check_rate_limit_no_label identifier kind w) as [-> ->];
        [intros cfg; rewrite Hcfg; discriminate | split; reflexivity]. }
  destruct (label_at (Config.window cfg) (clock w)) as [label|] eqn:Hlabel.
  2:{ destruct (check_rate_limit_no_label identifier kind w) as [-> ->];
        [intros cfg'; rewrite Hcfg; now intros [= <-] | split; reflexivity]. }
  specialize (Hk cfg label eq_refl Hlabel).
  set (key := _build_redis_key kind identifier label) in *.
  split.
  - rewrite (check_rate_limit_store identifier kind w cfg label Hcfg Hlabel).
    fold key.
    destruct (Config.limit cfg <=? _).
    + now rewrite cells_ttl, cells_get.
    + destruct (Py.eq_int _ 1).
      * now rewrite lookup_expire_other, lookup_incr_other, cells_get.
      * now rewrite lookup_incr_other, cells_get.
  - rewrite (reset_rate_limit_run (client := redis_client) strategies identifier
               kind w cfg label Hcfg Hlabel).
    simpl. fold key. now apply lookup_delete_other.
Qed.

(** X4. [reset_rate_limit] makes one [delete] call on the current
    window's key.  On a reachable store it returns whether a record was
    there and removes it; when the store cannot be reached it returns
    [False] and every record stays. *)
Theorem reset_deletes_current_counter identifier kind (w : world Redis.conn) cfg label :
  strategy_of strategies kind = Some cfg ->
  label_at (Config.window cfg) (clock w) = Some label ->
  let key := _build_redis_key kind identifier label in
  let after_reset := reset_rate_limit strategies identifier kind w in
  new_calls w after_reset.2 = [Delete key]
  /\ (Redis.outage (redis w) = [] ->
      after_reset.1 = Py.Returned (bool_decide (is_Some (Redis.cells (redis w) !! key)))
      /\ Redis.cells (redis after_reset.2) = base.delete key (Redis.cells (redis w))
      /\ Redis.outage (redis after_reset.2) = [])
  /\ (forall rest, Redis.outage (redis w) = true :: rest ->
      after_reset.1 = Py.Returned false
      /\ Redis.cells (redis after_reset.2) = Redis.cells (redis w)).
Proof.
  intros Hcfg Hlabel key after_reset. subst after_reset.
  rewrite (reset_rate_limit_run (client := redis_client) strategies identifier
             kind w cfg label Hcfg Hlabel).
  fold key. simpl. split; [|split].
  - unfold new_calls, after. simpl. rewrite calls_advance. apply drop_app_length.
  - intros Hup. unfold RedisClient.delete, Redis.DEL.
    rewrite (attempt_reachable _ Hup).
    destruct (Redis.cells (redis w) !! key) as [r|] eqn:Hr; simpl.
    + split; [reflexivity | split; [reflexivity | exact Hup]].
    + split; [reflexivity|]. split; [|exact Hup].
      symmetry. now apply delete_id.
  - intros rest Hdown. unfold RedisClient.delete, Redis.DEL, Redis.attempt.
    rewrite Hdown. simpl. split; reflexivity.
Qed.

(** The world a reset on a reachable store leaves behind. *)
Lemma reset_deletes_current_counter_aux identifier kind (w : world Redis.conn) cfg label :
  strategy_of strategies kind = Some cfg ->
  label_at (Config.window cfg) (clock w) = Some label ->
  Redis.outage (redis w) = [] ->
  let key := _build_redis_key kind identifier label in
  let w1 := (reset_rate_limit strategies identifier kind w).2 in
  w1 = after (advance w) (RedisClient.delete key (redis w)).2 [Delete key]
  /\ Redis.cells (redis w1) = base.delete key (Redis.cells (redis w))
  /\ Redis.outage (redis w1) = [].
Proof.
  intros Hcfg Hlabel Hup key w1. subst w1.
  rewrite (reset_rate_limit_run (client := redis_client) strategies identifier
             kind w cfg label Hcfg Hlabel).
  fold key. simpl. split; [reflexivity|].
  unfold RedisClient.delete, Redis.DEL. rewrite (attempt_reachable _ Hup).
  destruct (Redis.cells (redis w) !! key) as [r|] eqn:Hr; simpl.
  - now rewrite Hup.
  - split; [|exact Hup]. symmetry. now apply delete_id.
Qed.

(** X5. After a reset on a reachable store the next call in the window
    is a first call, whatever the record held before: it is allowed with
    [current_count = 1], it calls [get], [incr] and [expire], and the
    record is ["1"] with a lifetime of [window_seconds]. *)
Theorem check_after_reset_is_first_call identifier kind (w : world Redis.conn) cfg label :
  strategy_of strategies kind = Some cfg ->
  steady (Config.window cfg) label w ->
  0 < Config.window cfg ->
  0 < Config.limit cfg ->
  let key := _build_redis_key kind identifier label in
  let w1 := (reset_rate_limit strategies identifier kind w).2 in
  let next := check_rate_limit strategies identifier kind w1 in
  exists d,
    next.1 = Py.Returned d
    /\ allowed d = true
    /\ current_count d = 1
    /\ remaining d = Config.limit cfg - 1
    /\ new_calls w1 next.2 = [Get key; Incr key; Expire key (Config.window cfg)]
    /\ Redis.cells (redis next.2) !! key
       = Some {| Redis.value := "1"; Redis.lifetime := Some (Config.window cfg) |}.
Proof.
  intros Hcfg [Hwin Hup] Hws Hlim key w1 next.
  pose proof (in_window_now _ _ _ Hwin) as Hlabel.
  destruct (reset_deletes_current_counter_aux identifier kind w cfg label Hcfg
              Hlabel Hup) as (Hw1 & Hcells1 & Hup1).
  fold key w1 in Hw1, Hcells1, Hup1.
  assert (Hwin1 : in_window (Config.window cfg) label w1).
  { rewrite Hw1. apply in_window_after. now apply in_window_advance. }
  pose proof (in_window_now _ _ _ Hwin1) as Hlabel1.
  assert (Habsent : Redis.cells (redis w1) !! key = None)
    by (rewrite Hcells1; apply lookup_delete_eq).
  assert (Hc : holds_count (Redis.cells (redis w1)) key 0)
    by (unfold holds_count; now rewrite Habsent).
  destruct (check_allow_on_redis strategies identifier kind w1 cfg label 0
              Hcfg Hlabel1 Hup1 Hws Hc Hlim ltac:(unfold Redis.INT64_MAX; lia))
    as (d & Hrun & Ha & Hn & Hrem).
  fold key in Hrun. subst next. rewrite Hrun. simpl.
  exists d. split; [reflexivity|]. split; [exact Ha|]. split; [exact Hn|].
  split; [rewrite Hrem; lia|]. split.
  - apply new_calls_advance_after.
  - rewrite redis_advance. simpl. rewrite lookup_insert_eq.
    unfold counted. now rewrite Habsent.
Qed.

End Frame.

Section Separation.

Import RateLimiter.

Variable strategies : gmap string Config.Strategy.

(** Texts that agree and end in parts of equal length agree part by
    part. *)
Lemma append_inj_both (a b x y : string) :
  String.length x = String.length y -> a +:+ x = b +:+ y -> a = b /\ x = y.
Proof.
  intros Hlen Heq. pose proof (append_inj_suffix a b x y Hlen Heq) as Hxy.
  split; [|exact Hxy]. subst y. clear Hlen.
  revert b Heq. induction a as [|c a IH]; intros [|c' b] Heq;
    rewrite ?append_cons, ?append_nil in Heq.
  - reflexivity.
  - apply (f_equal String.length) in Heq. simpl in Heq.
    rewrite length_append in Heq. lia.
  - apply (f_equal String.length) in Heq. simpl in Heq.
    rewrite length_append in Heq. lia.
  - injection Heq as -> Heq. f_equal. now apply IH.
Qed.

(** X6. For the two kinds the middleware produces, the key determines
    the kind, the identifier and the label, as long as the labels have
    the same length (as the labels of one window size do): two clients
    never share a counter, and a user never shares one with an address. *)
Theorem redis_key_separates_clients (k1 k2 i1 i2 l1 l2 : string) :
  k1 = "user" \/ k1 = "ip" ->
  k2 = "user" \/ k2 = "ip" ->
  String.length l1 = String.length l2 ->
  _build_redis_key k1 i1 l1 = _build_redis_key k2 i2 l2 ->
  k1 = k2 /\ i1 = i2 /\ l1 = l2.
Proof.
  intros Hk1 Hk2 Hlen Heq. unfold _build_redis_key in Heq.
  assert (Hk : k1 = k2).
  { destruct Hk1 as [-> | ->], Hk2 as [-> | ->]; try reflexivity;
      rewrite !append_cons, !append_nil in Heq; discriminate Heq. }
  subst k2. split; [reflexivity|].
  apply (inj (String.app "rate:")) in Heq.
  apply (inj (String.app k1)) in Heq.
  apply (inj (String.app ":")) in Heq.
  destruct (append_inj_both i1 i2 (":" +:+ l1) (":" +:+ l2)) as [Hi Hl].
  - rewrite !length_append. now rewrite Hlen.
  - exact Heq.
  - split; [exact Hi|]. now apply (inj (String.app ":")) in Hl.
Qed.

(** X7. While the store cannot be reached, [get_rate_limit_status]
    reports an untouched quota whatever the store holds:
    [current_count = 0] and [remaining = max(0, limit)]. *)
Theorem status_reads_outage_as_empty identifier kind (w : world Redis.conn)
    cfg label rest :
  strategy_of strategies kind = Some cfg ->
  label_at (Config.window cfg) (clock w) = Some label ->
  Redis.outage (redis w) = true :: rest ->
  exists d,
    (get_rate_limit_status strategies identifier kind w).1 = Py.Returned d
    /\ current_count d = 0
    /\ remaining d = Z.max 0 (Config.limit cfg)
    /\ allowed d = (0 <? Config.limit cfg)
    /\ Redis.cells (redis (get_rate_limit_status strategies identifier kind w).2)
       = Redis.cells (redis w).
Proof.
  intros Hcfg Hlabel Hdown.
  set (key := _build_redis_key kind identifier label).
  assert (Hget : client_get key (redis w)
                 = (None, {| Redis.cells := Redis.cells (redis w);
                             Redis.outage := rest |})).
  { simpl. unfold RedisClient.get, Redis.GET, Redis.attempt. now rewrite Hdown. }
  destruct (get_rate_limit_status_run (client := redis_client) strategies
              identifier kind w cfg label _ _ Hcfg Hlabel Hget)
    as (reset & _ & ->).
  eexists. split; [reflexivity|]. simpl.
  rewrite Z.sub_0_r, redis_advance. repeat split.
Qed.

(** X8. Once the clock has moved to a window with another label, the
    count of the earlier window no longer matters: with only the earlier
    counter in a reachable store, the call is allowed with
    [current_count = 1] and the earlier record stays as it is. *)
Theorem window_rollover_starts_at_one identifier kind (w : world Redis.conn)
    cfg label earlier r :
  strategy_of strategies kind = Some cfg ->
  steady (Config.window cfg) label w ->
  0 < Config.window cfg ->
  0 < Config.limit cfg ->
  earlier <> label ->
  Redis.cells (redis w) = {[ _build_redis_key kind identifier earlier := r ]} ->
  exists d,
    (check_rate_limit strategies identifier kind w).1 = Py.Returned d
    /\ allowed d = true
    /\ current_count d = 1
    /\ Redis.cells (redis (check_rate_limit strategies identifier kind w).2)
         !! _build_redis_key kind identifier earlier = Some r.
Proof.
  intros Hcfg [Hwin Hup] Hws Hlim Hne Hcells.
  pose proof (in_window_now _ _ _ Hwin) as Hlabel.
  assert (Hkeys : _build_redis_key kind identifier earlier
                  <> _build_redis_key kind identifier label).
  { unfold _build_redis_key. intros Heq. apply Hne.
    apply (inj (String.app "rate:")) in Heq.
    apply (inj (String.app kind)) in Heq.
    apply (inj (String.app ":")) in Heq.
    apply (inj (String.app identifier)) in Heq.
    now apply (inj (String.app ":")) in Heq. }
  assert (Habsent : Redis.cells (redis w) !! _build_redis_key kind identifier label
                    = None)
    by (rewrite Hcells; now apply lookup_singleton_ne).
  assert (Hc : holds_count (Redis.cells (redis w))
                 (_build_redis_key kind identifier label) 0)
    by (unfold holds_count; now rewrite Habsent).
  destruct (check_allow_on_redis strategies identifier kind w cfg label 0
              Hcfg Hlabel Hup Hws Hc Hlim ltac:(unfold Redis.INT64_MAX; lia))
    as (d & Hrun & Ha & Hn & _).
  rewrite Hrun. exists d. split; [reflexivity|]. split; [exact Ha|].
  split; [exact Hn|]. simpl. rewrite redis_advance. simpl.
  rewrite lookup_insert_ne by (intros Heq; now apply Hkeys).
  rewrite Hcells. apply lookup_singleton_eq.
Qed.

End Separation.

(* ===================================================================== *)
(** ** Worked runs of the further properties *)
(* ===================================================================== *)

Section MoreRuns.

Import RateLimiter Scenario Cases.

Lemma shipped_user_strategy :
  strategy_of Config.RATE_LIMIT_STRATEGIES "user" = Some free_minute.
Proof. vm_compute. reflexivity. Qed.

Lemma minute_of_now0 (S : Type) (r : S) :
  in_window (Config.window free_minute) label0 (world_of r).
Proof. constructor; [vm_compute; reflexivity | constructor]. Qed.

Lemma remaining_is_clamped_witness :
  (check_rate_limit Config.RATE_LIMIT_STRATEGIES "testuser" "user"
     (world_of at_limit_mock)).1 = Py.Returned (denial 20 100 30)
  /\ remaining (denial 20 100 30) = Z.max 0 (20 - 100)
  /\ 0 <= remaining (denial 20 100 30)
  /\ limit (denial 20 100 30) <= current_count (denial 20 100 30).
Proof.
  assert (H1 : (check_rate_limit Config.RATE_LIMIT_STRATEGIES "testuser" "user"
                  (world_of at_limit_mock)).1 = Py.Returned (denial 20 100 30))
    by (vm_compute; reflexivity).
  destruct (remaining_is_clamped Config.RATE_LIMIT_STRATEGIES "testuser" "user"
              (world_of at_limit_mock) (denial 20 100 30) (or_introl H1))
    as (_ & Hr & H0 & Hd).
  split; [exact H1|]. split; [exact Hr|]. split; [exact H0|].
  exact (Hd eq_refl).
Defined.

Lemma missing_ip_strategy_raises_witness :
  only_user !! "ip" = None
  /\ only_user !! "user" = Some free_minute
  /\ check_rate_limit only_user "u1" "user" fresh = (Py.Raised Py.KeyError, fresh).
Proof.
  assert (H1 : only_user !! "ip" = None) by (vm_compute; reflexivity).
  split; [exact H1|]. split; [vm_compute; reflexivity|].
  exact (proj1 (missing_ip_strategy_raises only_user "u1" "user" fresh H1)).
Defined.

Lemma other_counters_untouched_witness :
  Redis.cells (redis (check_rate_limit Config.RATE_LIMIT_STRATEGIES "u1" "user"
                        two_users).2) !! key_u2
  = Some {| Redis.value := "9"; Redis.lifetime := Some 12 |}
  /\ Redis.cells (redis (check_rate_limit Config.RATE_LIMIT_STRATEGIES "u1" "user"
                           two_users).2) !! key0
     = Some {| Redis.value := "4"; Redis.lifetime := Some 30 |}.
Proof.
  split; [|vm_compute; reflexivity].
  rewrite (proj1 (other_counters_untouched Config.RATE_LIMIT_STRATEGIES "u1" "user"
                    two_users key_u2
                    ltac:(intros cfg label Hc Hl;
                          rewrite shipped_user_strategy in Hc;
                          injection Hc as <-;
                          vm_compute in Hl; injection Hl as <-;
                          discriminate))).
  vm_compute. reflexivity.
Defined.

Lemma reset_deletes_current_counter_witness :
  strategy_of Config.RATE_LIMIT_STRATEGIES "user" = Some free_minute
  /\ label_at (Config.window free_minute) (clock (counting "5" (Some 30)))
     = Some label0
  /\ (reset_rate_limit Config.RATE_LIMIT_STRATEGIES "u1" "user"
        (counting "5" (Some 30))).1 = Py.Returned true
  /\ Redis.cells (redis (reset_rate_limit Config.RATE_LIMIT_STRATEGIES "u1" "user"
                           (counting "5" (Some 30))).2) = ∅.
Proof.
  assert (H2 : label_at (Config.window free_minute)
                 (clock (counting "5" (Some 30))) = Some label0)
    by (vm_compute; reflexivity).
  destruct (reset_deletes_current_counter Config.RATE_LIMIT_STRATEGIES "u1" "user"
              (counting "5" (Some 30)) free_minute label0
              shipped_user_strategy H2) as (_ & Hup & _).
  destruct (Hup eq_refl) as (Hret & Hcells & _).
  split; [exact shipped_user_strategy|]. split; [exact H2|].
  split; [exact Hret|]. rewrite Hcells. vm_compute. reflexivity.
Defined.

Lemma check_after_reset_is_first_call_witness :
  strategy_of Config.RATE_LIMIT_STRATEGIES "user" = Some free_minute
  /\ steady (Config.window free_minute) label0 (counting "20" (Some 45))
  /\ exists d,
       (check_rate_limit Config.RATE_LIMIT_STRATEGIES "u1" "user"
          (reset_rate_limit Config.RATE_LIMIT_STRATEGIES "u1" "user"
             (counting "20" (Some 45))).2).1 = Py.Returned d
       /\ allowed d = true /\ current_count d = 1 /\ remaining d = 20 - 1.
Proof.
  assert (H2 : steady (Config.window free_minute) label0 (counting "20" (Some 45)))
    by (split; [apply minute_of_now0 | reflexivity]).
  split; [exact shipped_user_strategy|]. split; [exact H2|].
  destruct (check_after_reset_is_first_call Config.RATE_LIMIT_STRATEGIES "u1"
              "user" (counting "20" (Some 45)) free_minute label0
              shipped_user_strategy H2 ltac:(simpl; lia) ltac:(simpl; lia))
    as (d & Hrun & Ha & Hn & Hr & _).
  exists d. auto.
Defined.

Lemma redis_key_separates_clients_witness :
  _build_redis_key "user" "u1" label0 = _build_redis_key "user" "u1" label0
  /\ ("user" = "user" /\ "u1" = "u1" /\ label0 = label0).
Proof.
  split; [reflexivity|].
  exact (redis_key_separates_clients "user" "user" "u1" "u1" label0 label0
           (or_introl eq_refl) (or_introl eq_refl) eq_refl eq_refl).
Defined.

Lemma status_reads_outage_as_empty_witness :
  Redis.outage (redis unreachable) = [true]
  /\ exists d,
       (get_rate_limit_status Config.RATE_LIMIT_STRATEGIES "u1" "user"
          unreachable).1 = Py.Returned d
       /\ current_count d = 0 /\ remaining d = Z.max 0 20.
Proof.
  split; [reflexivity|].
  destruct (status_reads_outage_as_empty Config.RATE_LIMIT_STRATEGIES "u1" "user"
              unreachable free_minute label0 [] shipped_user_strategy
              ltac:(vm_compute; reflexivity) eq_refl)
    as (d & Hrun & Hc & Hr & _).
  exists d. auto.
Defined.

Lemma window_rollover_starts_at_one_witness :
  steady (Config.window free_minute) label0 after_rollover
  /\ earlier_label <> label0
  /\ exists d,
       (check_rate_limit Config.RATE_LIMIT_STRATEGIES "u1" "user"
          after_rollover).1 = Py.Returned d
       /\ allowed d = true /\ current_count d = 1
       /\ Redis.cells (redis (check_rate_limit Config.RATE_LIMIT_STRATEGIES "u1"
                                "user" after_rollover).2)
            !! _build_redis_key "user" "u1" earlier_label = Some earlier_cell.
Proof.
  assert (H2 : steady (Config.window free_minute) label0 after_rollover)
    by (split; [apply minute_of_now0 | reflexivity]).
  assert (H3 : earlier_label <> label0) by discriminate.
  split; [exact H2|]. split; [exact H3|].
  exact (window_rollover_starts_at_one Config.RATE_LIMIT_STRATEGIES "u1" "user"
           after_rollover free_minute label0 earlier_label earlier_cell
           shipped_user_strategy H2 ltac:(simpl; lia) ltac:(simpl; lia) H3 eq_refl).
Defined.

End MoreRuns.

(* ===================================================================== *)
(** ** Splitting, stripping and joining text *)
(* ===================================================================== *)

Section TextFacts.

Import Text.

Lemma split_nonempty (sep : ascii) (s : string) : split sep s <> [].
Proof.
  induction s as [|c s IH]; simpl; [discriminate|].
  destruct (Ascii.eqb c sep); [discriminate|].
  now destruct (split sep s).
Qed.

(** Text without the separator is one piece. *)
Lemma split_none (sep : ascii) (s : string) :
  contains sep s = false -> split sep s = [s].
Proof.
  induction s as [|c s IH]; simpl; [reflexivity|].
  intros Hc. apply orb_false_iff in Hc as [Hc Hs].
  now rewrite Hc, (IH Hs).
Qed.

(** The first separator ends the first piece. *)
Lemma split_app (sep : ascii) (a rest : string) :
  contains sep a = false ->
  split sep (a +:+ String sep rest) = a :: split sep rest.
Proof.
  induction a as [|c a IH]; intros Hc.
  - rewrite append_nil. simpl. now rewrite Ascii.eqb_refl.
  - simpl in Hc. apply orb_false_iff in Hc as [Hc Ha].
    rewrite append_cons. simpl. now rewrite Hc, (IH Ha).
Qed.

(** No piece holds the separator. *)
Lemma split_pieces (sep : ascii) (s : string) :
  Forall (fun piece => contains sep piece = false) (split sep s).
Proof.
  induction s as [|c s IH]; simpl; [repeat constructor|].
  destruct (Ascii.eqb c sep) eqn:E; [now constructor|].
  destruct (split sep s) as [|piece pieces]; [repeat constructor; simpl; now rewrite E|].
  inversion IH as [|? ? Hp Hps]; subst.
  constructor; [simpl; now rewrite E, Hp | exact Hps].
Qed.

(** The number of pieces is the number of separators plus one. *)
Lemma length_split (sep : ascii) (s : string) :
  length (split sep s) = Datatypes.S (count sep s).
Proof.
  induction s as [|c s IH]; simpl; [reflexivity|].
  destruct (Ascii.eqb c sep); simpl; [now rewrite IH|].
  pose proof (split_nonempty sep s).
  destruct (split sep s); [congruence | exact IH].
Qed.

(** Joining pieces that hold no separator and splitting again gives the
    pieces back. *)
Lemma split_join (sep : ascii) (pieces : list string) :
  pieces <> [] ->
  Forall (fun piece => contains sep piece = false) pieces ->
  split sep (join sep pieces) = pieces.
Proof.
  induction pieces as [|piece rest IH]; [congruence|].
  intros _ Hall. inversion Hall as [|? ? Hp Hrest]; subst.
  destruct rest as [|next rest].
  - simpl. now apply split_none.
  - change (join sep (piece :: next :: rest))
      with (piece +:+ String sep (join sep (next :: rest))).
    rewrite (split_app sep piece _ Hp). f_equal.
    apply IH; [discriminate | exact Hrest].
Qed.

Lemma contains_append (c : ascii) (a b : string) :
  contains c (a +:+ b) = contains c a || contains c b.
Proof.
  induction a as [|x a IH]; [reflexivity|].
  rewrite append_cons. simpl. now rewrite IH, orb_assoc.
Qed.

(** Stripping only removes characters. *)
Lemma contains_lstrip (c : ascii) (s : string) :
  contains c s = false -> contains c (Py.lstrip s) = false.
Proof.
  induction s as [|x s IH]; simpl; [reflexivity|].
  intros Hc. apply orb_false_iff in Hc as [Hx Hs].
  destruct (Py.is_space x); [now apply IH|].
  simpl. now rewrite Hx, Hs.
Qed.

Lemma contains_rstrip (c : ascii) (s : string) :
  contains c s = false -> contains c (Py.rstrip s) = false.
Proof.
  induction s as [|x s IH]; simpl; [reflexivity|].
  intros Hc. apply orb_false_iff in Hc as [Hx Hs].
  specialize (IH Hs).
  destruct (Py.rstrip s) as [|y r].
  - destruct (Py.is_space x); simpl; [reflexivity | now rewrite Hx].
  - simpl in IH |- *. now rewrite Hx, IH.
Qed.

Lemma contains_strip (c : ascii) (s : string) :
  contains c s = false -> contains c (Py.strip s) = false.
Proof.
  intros Hc. unfold Py.strip. now apply contains_rstrip, contains_lstrip.
Qed.

Lemma lstrip_clean (s : string) : left_clean (Py.lstrip s).
Proof.
  induction s as [|c s IH]; simpl; [exact I|].
  destruct (Py.is_space c) eqn:E; [exact IH | exact E].
Qed.

Lemma lstrip_of_clean (s : string) : left_clean s -> Py.lstrip s = s.
Proof. destruct s as [|c s]; simpl; [reflexivity|]. now intros ->. Qed.

Lemma rstrip_keeps_clean (s : string) : left_clean s -> left_clean (Py.rstrip s).
Proof.
  destruct s as [|c s]; simpl; [exact id|]. intros Hc.
  destruct (Py.rstrip s); [now rewrite Hc | exact Hc].
Qed.

Lemma rstrip_idempotent (s : string) : Py.rstrip (Py.rstrip s) = Py.rstrip s.
Proof.
  induction s as [|c s IH]; simpl; [reflexivity|].
  destruct (Py.rstrip s) as [|y r] eqn:E.
  - destruct (Py.is_space c) eqn:Ec; simpl; [reflexivity | now rewrite Ec].
  - simpl. simpl in IH. now rewrite IH.
Qed.

(** [s.strip()] is stripped. *)
Lemma strip_trimmed (s : string) : trimmed (Py.strip s).
Proof.
  unfold trimmed, Py.strip.
  rewrite (lstrip_of_clean (Py.rstrip (Py.lstrip s)))
    by (apply rstrip_keeps_clean, lstrip_clean).
  apply rstrip_idempotent.
Qed.

End TextFacts.

(* ===================================================================== *)
(** ** The middleware *)
(* ===================================================================== *)

Section IdentifierFacts.

Import RateLimiter Middleware.

(** X9. A non-empty [X-API-Key] header decides alone: the identifier is
    the key and the kind is ["user"], whatever the forwarded chain and the
    peer are.  Without one (absent or empty) the kind is ["ip"], and when
    there is no forwarded chain either, the identifier is the host of the
    peer, or ["unknown"] without a peer. *)
Theorem extract_identifier_prefers_api_key (request : Request) :
  (forall key, header request "X-API-Key" = Some key -> key <> "" ->
     _extract_identifier request = (key, "user"))
  /\ (Text.truthy (header request "X-API-Key") = false ->
      (_extract_identifier request).2 = "ip")
  /\ (Text.truthy (header request "X-API-Key") = false ->
      Text.truthy (header request "X-Forwarded-For") = false ->
      _extract_identifier request
      = (match client request with Some host => host | None => "unknown" end, "ip")).
Proof.
  unfold _extract_identifier.
  change (header request "x-api-key") with (header request "X-API-Key").
  split; [|split].
  - intros key Hkey Hne. rewrite Hkey. unfold Text.or_else.
    destruct key as [|c key]; [congruence|]. reflexivity.
  - intros Hno. unfold Text.or_else. now rewrite Hno, Hno.
  - intros Hno Hff. unfold Text.or_else. now rewrite Hno, Hno, Hff.
Qed.

(** X10. Without an API key, a non-empty [X-Forwarded-For] header gives
    the identifier: the text before its first comma, stripped.  The
    identifier holds no comma and no white space at its ends, and the
    peer address is not looked at. *)
Theorem extract_identifier_first_hop (request : Request) (forwarded : string) :
  Text.truthy (header request "X-API-Key") = false ->
  header request "X-Forwarded-For" = Some forwarded ->
  forwarded <> "" ->
  let id := _extract_identifier request in
  id.2 = "ip"
  /\ Text.contains "," id.1 = false
  /\ Text.trimmed id.1
  /\ (Text.contains "," forwarded = false -> id.1 = Py.strip forwarded)
  /\ (forall first rest,
        forwarded = first +:+ String "," rest ->
        Text.contains "," first = false ->
        id.1 = Py.strip first).
Proof.
  intros Hno Hff Hne id. subst id. unfold _extract_identifier.
  change (header request "x-api-key") with (header request "X-API-Key").
  unfold Text.or_else. rewrite Hno, Hno, Hff.
  assert (Ht : Text.truthy (Some forwarded) = true)
    by (destruct forwarded; [congruence | reflexivity]).
  rewrite Ht. simpl.
  split; [reflexivity|]. split; [|split; [|split]].
  - apply contains_strip.
    pose proof (split_pieces "," forwarded) as Hall.
    destruct (Text.split "," forwarded); [reflexivity|].
    now inversion Hall.
  - apply strip_trimmed.
  - intros Hc. now rewrite (split_none _ _ Hc).
  - intros first rest -> Hc. now rewrite (split_app _ _ _ Hc).
Qed.

End IdentifierFacts.

Section DispatchFacts.

Import RateLimiter Middleware.

Context {S : Type} {client_spec : RedisClientSpec S}.
Variable strategies : gmap string Config.Strategy.
Context {H P : Type}.
Variable call_next :
  Request -> world S -> H -> Py.outcome (Response P) * world S * H.

(** The headers of a decision written into a response, name by name. *)
Lemma set_quota_headers (result : RateLimitResult) (h : gmap string string) :
  set_headers (_build_rate_limit_headers result) h
  = let quota :=
      <["x-ratelimit-reset" := Py.str (Datetime.int_timestamp (reset_at result))]>
      (<["x-ratelimit-remaining" := Py.str (remaining result)]>
       (<["x-ratelimit-limit" := Py.str (limit result)]> h)) in
    if allowed result then quota
    else <["retry-after" := Py.str (retry_after result)]> quota.
Proof.
  unfold _build_rate_limit_headers. now destruct (allowed result).
Qed.

(** The three quota headers as the response holds them. *)
Lemma quota_headers_set (result : RateLimitResult) (h : gmap string string) :
  let h' := set_headers (_build_rate_limit_headers result) h in
  h' !! "x-ratelimit-limit" = Some (Py.str (limit result))
  /\ h' !! "x-ratelimit-remaining" = Some (Py.str (remaining result))
  /\ h' !! "x-ratelimit-reset"
     = Some (Py.str (Datetime.int_timestamp (reset_at result)))
  /\ h' !! "retry-after"
     = (if allowed result then h !! "retry-after"
        else Some (Py.str (retry_after result)))
  /\ (forall name,
        name <> "x-ratelimit-limit" -> name <> "x-ratelimit-remaining" ->
        name <> "x-ratelimit-reset" -> name <> "retry-after" ->
        h' !! name = h !! name).
Proof.
  intros h'. subst h'. rewrite set_quota_headers. cbv zeta.
  destruct (allowed result);
    (split; [|split; [|split; [|split]]]);
    try (repeat (rewrite lookup_insert_ne by discriminate);
         rewrite ?lookup_insert_eq; reflexivity);
    intros name H1 H2 H3 H4; now rewrite !lookup_insert_ne by congruence.
Qed.

(** X11. On a path that is not exempt, a denial is answered without the
    handler: status 429, the body of a rejection with the limit, the
    retry delay and the window label of the decision, the three quota
    headers and [Retry-After]; the application behind the middleware is
    not entered. *)
Theorem dispatch_rejects_without_handler (request : Request) (w w' : world S)
    (h : H) (d : RateLimitResult) :
  path request ∉ BYPASS_PATHS ->
  check_rate_limit strategies (_extract_identifier request).1
    (_extract_identifier request).2 w = (Py.Returned d, w') ->
  allowed d = false ->
  exists response,
    dispatch strategies call_next request w h = (Py.Returned response, w', h)
    /\ status_code response = 429
    /\ content response
       = Rejection "Rate limit exceeded" (limit d) (retry_after d) (window d)
    /\ response_header response "X-RateLimit-Limit" = Some (Py.str (limit d))
    /\ response_header response "X-RateLimit-Remaining"
       = Some (Py.str (remaining d))
    /\ response_header response "X-RateLimit-Reset"
       = Some (Py.str (Datetime.int_timestamp (reset_at d)))
    /\ response_header response "Retry-After" = Some (Py.str (retry_after d)).
Proof.
  intros Hpath Hcheck Hdenied. unfold dispatch.
  rewrite (bool_decide_eq_false_2 _ Hpath).
  destruct (_extract_identifier request) as [identifier kind]. simpl in Hcheck.
  rewrite Hcheck, Hdenied. simpl.
  eexists. split; [reflexivity|]. split; [reflexivity|]. split; [reflexivity|].
  destruct (quota_headers_set d ∅) as (H1 & H2 & H3 & H4 & _).
  rewrite Hdenied in H4. unfold response_header. simpl.
  auto.
Qed.

(** X12. On a path that is not exempt, an allowed request reaches the
    handler after the quota is spent, and the handler's response comes
    back with its status and body and with the three quota headers set;
    every other header, [Retry-After] included, is the handler's. *)
Theorem dispatch_forwards_with_quota_headers (request : Request) (w w1 w2 : world S)
    (h h' : H) (d : RateLimitResult) (inner : Response P) :
  path request ∉ BYPASS_PATHS ->
  check_rate_limit strategies (_extract_identifier request).1
    (_extract_identifier request).2 w = (Py.Returned d, w1) ->
  allowed d = true ->
  call_next request w1 h = (Py.Returned inner, w2, h') ->
  exists response,
    dispatch strategies call_next request w h = (Py.Returned response, w2, h')
    /\ status_code response = status_code inner
    /\ content response = content inner
    /\ response_header response "X-RateLimit-Limit" = Some (Py.str (limit d))
    /\ response_header response "X-RateLimit-Remaining"
       = Some (Py.str (remaining d))
    /\ response_header response "X-RateLimit-Reset"
       = Some (Py.str (Datetime.int_timestamp (reset_at d)))
    /\ response_header response "Retry-After" = response_header inner "Retry-After"
    /\ (forall name,
          name <> "x-ratelimit-limit" -> name <> "x-ratelimit-remaining" ->
          name <> "x-ratelimit-reset" ->
          response_headers response !! name = response_headers inner !! name).
Proof.
  intros Hpath Hcheck Hallowed Hnext. unfold dispatch.
  rewrite (bool_decide_eq_false_2 _ Hpath).
  destruct (_extract_identifier request) as [identifier kind]. simpl in Hcheck.
  rewrite Hcheck, Hallowed. simpl. rewrite Hnext.
  eexists. split; [reflexivity|]. split; [reflexivity|]. split; [reflexivity|].
  destruct (quota_headers_set d (response_headers inner))
    as (H1 & H2 & H3 & H4 & Hrest).
  rewrite Hallowed in H4. unfold response_header. simpl.
  repeat (split; [assumption|]).
  intros name N1 N2 N3.
  destruct (decide (name = "retry-after")) as [-> | N4]; [exact H4|].
  now apply Hrest.
Qed.

(** An exempt path goes straight to the handler: the rate limiter is not
    asked. *)
Lemma dispatch_exempt (request : Request) (w : world S) (h : H) :
  path request ∈ BYPASS_PATHS ->
  dispatch strategies call_next request w h = call_next request w h.
Proof.
  intros Hpath. unfold dispatch. now rewrite (bool_decide_eq_true_2 _ Hpath).
Qed.

End DispatchFacts.

(* ===================================================================== *)
(** ** The status and health endpoints *)
(* ===================================================================== *)

Section EndpointFacts.

Import RateLimiter.

Variable strategies : gmap string Config.Strategy.

(** The identifier of the status endpoint is the one of the middleware. *)
Lemma status_endpoint_identifier (request : Middleware.Request) :
  (if Text.truthy (Middleware.header request "X-API-Key")
   then (default "" (Middleware.header request "X-API-Key"), "user")
   else
     (if Text.truthy (Middleware.header request "X-Forwarded-For")
      then Py.strip (hd "" (Text.split ","
                              (default "" (Middleware.header request "X-Forwarded-For"))))
      else match Middleware.client request with
           | Some host => host
           | None => "unknown"
           end,
      "ip"))
  = Middleware._extract_identifier request.
Proof.
  unfold Middleware._extract_identifier.
  change (Middleware.header request "x-api-key")
    with (Middleware.header request "X-API-Key").
  unfold Text.or_else.
  destruct (Text.truthy (Middleware.header request "X-API-Key")) eqn:E.
  - now rewrite E.
  - now rewrite E.
Qed.

(** The status endpoint is the status of the rate limiter at the
    identifier of the middleware, copied into the response model. *)
Lemma status_endpoint_run {S : Type} {client : RedisClientSpec S}
    (request : Middleware.Request) (w : world S) :
  let id := Middleware._extract_identifier request in
  Main.get_rate_limit_status strategies request w
  = match RateLimiter.get_rate_limit_status strategies id.1 id.2 w with
    | (Py.Returned d, w') =>
        (Py.Returned
           {| Main.identifier := id.1; Main.identifier_type := id.2;
              Main.limit := limit d; Main.remaining := remaining d;
              Main.reset_at := reset_at d; Main.window := window d;
              Main.current_count := current_count d |},
         w')
    | (Py.Raised e, w') => (Py.Raised e, w')
    end.
Proof.
  intros id. subst id. unfold Main.get_rate_limit_status.
  rewrite status_endpoint_identifier.
  destruct (Middleware._extract_identifier request) as [identifier kind]. simpl.
  unfold bind, ret.
  now destruct (get_rate_limit_status strategies identifier kind w) as [[d|e] w'].
Qed.

(** X13. The status endpoint derives the identifier and its kind as the
    middleware does and asks the rate limiter for the status of exactly
    that client: its answer names that client and carries the limit, the
    remaining quota, the count, the label and the reset instant of that
    decision, and it leaves the world as that call leaves it. *)
Theorem status_endpoint_matches_middleware {S : Type} {client : RedisClientSpec S}
    (request : Middleware.Request) (w w' : world S) (model : Main.RateLimitStatus) :
  Main.get_rate_limit_status strategies request w = (Py.Returned model, w') ->
  let id := Middleware._extract_identifier request in
  (Main.identifier model, Main.identifier_type model) = id
  /\ exists d,
       RateLimiter.get_rate_limit_status strategies id.1 id.2 w = (Py.Returned d, w')
       /\ Main.limit model = limit d
       /\ Main.remaining model = remaining d
       /\ Main.current_count model = current_count d
       /\ Main.window model = window d
       /\ Main.reset_at model = reset_at d.
Proof.
  intros Hrun id. subst id. rewrite status_endpoint_run in Hrun.
  destruct (get_rate_limit_status strategies
              (Middleware._extract_identifier request).1
              (Middleware._extract_identifier request).2 w) as [[d|e] w1];
    [|discriminate].
  injection Hrun as <- <-. simpl.
  split; [now destruct (Middleware._extract_identifier request)|].
  exists d. repeat split.
Qed.

(** What [get_rate_limit_status] of the rate limiter does to the store
    and which calls it makes. *)
Lemma status_only_reads identifier kind (w : world Redis.conn) :
  Redis.cells (redis (get_rate_limit_status strategies identifier kind w).2)
  = Redis.cells (redis w)
  /\ Forall (fun c => is_write c = false)
       (new_calls w (get_rate_limit_status strategies identifier kind w).2).
Proof.
  destruct (strategy_of strategies kind) as [cfg|] eqn:Hcfg.
  - destruct (label_at (Config.window cfg) (clock w)) as [label|] eqn:Hlabel.
    + destruct (RedisClient.get (_build_redis_key kind identifier label) (redis w))
        as [v r1] eqn:Hget.
      destruct (get_rate_limit_status_run (client := redis_client) strategies
                  identifier kind w cfg label v r1 Hcfg Hlabel Hget)
        as (reset & _ & ->).
      simpl. rewrite redis_advance, new_calls_advance_after. simpl.
      split; [|repeat constructor].
      pose proof (cells_get (_build_redis_key kind identifier label) (redis w)) as Hc.
      now rewrite Hget in Hc.
    + destruct (get_rate_limit_status_early (client := redis_client) strategies
                  identifier kind w
                  (or_intror (ex_intro _ cfg (conj Hcfg Hlabel)))) as [-> ->].
      split; [reflexivity | constructor].
  - destruct (get_rate_limit_status_early (client := redis_client) strategies
                identifier kind w (or_introl Hcfg)) as [-> ->].
    split; [reflexivity | constructor].
Qed.

(** X14. A request for [/rate-limit/status] passes the middleware
    untouched and spends no quota: the whole handling makes only reads on
    the store and changes no record, and the answer, when there is one,
    is a 200 that names the client the middleware would charge and
    carries none of the headers [_build_rate_limit_headers] can set:
    no [X-RateLimit-Limit], [X-RateLimit-Remaining], [X-RateLimit-Reset]
    or [Retry-After]. *)
Theorem status_request_spends_no_quota {H : Type} (request : Middleware.Request)
    (w : world Redis.conn) (h : H) :
  Middleware.path request = "/rate-limit/status" ->
  let handled :=
    Middleware.dispatch strategies (Main.status_route strategies) request w h in
  Redis.cells (redis handled.1.2) = Redis.cells (redis w)
  /\ Forall (fun c => is_write c = false) (new_calls w handled.1.2)
  /\ handled.2 = h
  /\ forall response, handled.1.1 = Py.Returned response ->
       Middleware.status_code response = 200
       /\ Middleware.response_header response "X-RateLimit-Limit" = None
       /\ Middleware.response_header response "X-RateLimit-Remaining" = None
       /\ Middleware.response_header response "X-RateLimit-Reset" = None
       /\ Middleware.response_header response "Retry-After" = None
       /\ (forall result name value,
             (name, value) ∈ Middleware._build_rate_limit_headers result ->
             Middleware.response_header response name = None)
       /\ exists model,
            Middleware.content response = Middleware.Payload model
            /\ (Main.identifier model, Main.identifier_type model)
               = Middleware._extract_identifier request.
Proof.
  intros Hpath handled. subst handled.
  rewrite dispatch_exempt
    by (rewrite Hpath; unfold Middleware.BYPASS_PATHS; set_solver).
  unfold Main.status_route.
  rewrite (status_endpoint_run request w).
  destruct (status_only_reads (Middleware._extract_identifier request).1
              (Middleware._extract_identifier request).2 w) as [Hcells Hreads].
  destruct (get_rate_limit_status strategies
              (Middleware._extract_identifier request).1
              (Middleware._extract_identifier request).2 w) as [[d|e] w'];
    simpl in *.
  - split; [exact Hcells|]. split; [exact Hreads|]. split; [reflexivity|].
    intros response [= <-]. simpl.
    split; [reflexivity|]. split; [reflexivity|]. split; [reflexivity|].
    split; [reflexivity|]. split; [reflexivity|]. split; [now intros|].
    eexists. split; [reflexivity|]. simpl.
    now destruct (Middleware._extract_identifier request).
  - split; [exact Hcells|]. split; [exact Hreads|]. split; [reflexivity|].
    intros response [=].
Qed.

(** X15. The health endpoint never raises and reports the store as it
    finds it: ["healthy"] and ["connected"] when the PING is answered,
    ["degraded"] and ["disconnected"] when it fails; no record
    changes. *)
Theorem health_check_reports_reachability (__version__ : string)
    (w : world Redis.conn) :
  let answer := (Main.health_check __version__ w).1 in
  ((Redis.attempt (redis w)).1 = true ->
   Main.status answer = "healthy" /\ Main.redis_status answer = "connected")
  /\ ((Redis.attempt (redis w)).1 = false ->
      Main.status answer = "degraded" /\ Main.redis_status answer = "disconnected")
  /\ Main.version answer = __version__
  /\ Main.timestamp answer = clock w
  /\ Redis.cells (redis (Main.health_check __version__ w).2) = Redis.cells (redis w).
Proof.
  intros answer. subst answer.
  unfold Main.health_check, Main.ping, Main.PING.
  pose proof (cells_attempt (redis w)) as Hc.
  destruct (Redis.attempt (redis w)) as [[] c]; simpl in *.
  - split; [now intros _|]. split; [discriminate|].
    split; [reflexivity|]. split; [reflexivity|]. now rewrite redis_advance.
  - split; [discriminate|]. split; [now intros _|].
    split; [reflexivity|]. split; [reflexivity|]. now rewrite redis_advance.
Qed.

End EndpointFacts.


(* ===================================================================== *)
(** ** Requests through the middleware, counted in the store *)
(* ===================================================================== *)

Section Serving.

Import RateLimiter Middleware.

Variable strategies : gmap string Config.Strategy.
Context {H P : Type}.
Variable call_next :
  Request -> world Redis.conn -> H
  -> Py.outcome (Response P) * world Redis.conn * H.
Variable request : Request.
Variable cfg : Config.Strategy.
Variable label : string.

(** The handler keeps away from the store of the rate limiter; it may
    read the clock, any number of times; and what it does to the
    application does not depend on what the rate limiter sees. *)
Hypothesis Hstore : forall w h, redis (call_next request w h).1.2 = redis w.
Hypothesis Hclock : forall w h, exists k : nat,
  clock (call_next request w h).1.2 = clock (Nat.iter k advance w)
  /\ ticks (call_next request w h).1.2 = ticks (Nat.iter k advance w).
Hypothesis Hstate : forall w w' h, (call_next request w h).2 = (call_next request w' h).2.

Hypothesis Hpath : path request ∉ BYPASS_PATHS.
Hypothesis Hcfg : strategy_of strategies (_extract_identifier request).2 = Some cfg.
Hypothesis Hws : 0 < Config.window cfg.
Hypothesis Hmax : Config.limit cfg <= Redis.INT64_MAX.

#[local] Abbreviation key :=
  (_build_redis_key (_extract_identifier request).2 (_extract_identifier request).1
     label).
#[local] Abbreviation steady := (RateLimiter.steady (Config.window cfg) label).

Lemma iter_ext {A : Type} (f g : A -> A) (k : nat) (x : A) :
  (forall y, f y = g y) -> Nat.iter k f x = Nat.iter k g x.
Proof. intros Hfg. induction k as [|k IH]; simpl; [reflexivity|]. now rewrite IH, Hfg. Qed.

Lemma in_window_iter (k : nat) (w : world Redis.conn) :
  in_window (Config.window cfg) label w ->
  in_window (Config.window cfg) label (Nat.iter k advance w).
Proof.
  intros Hw. induction k as [|k IH]; [exact Hw|].
  simpl. now apply in_window_advance.
Qed.

(** One request when the record holds [c]. *)
Lemma dispatch_step (w : world Redis.conn) (h : H) (c : Z) :
  steady w ->
  holds_count (Redis.cells (redis w)) key c ->
  exists o w' c',
    dispatch strategies call_next request w h
    = (o, w', if c <? Config.limit cfg then (call_next request w h).2 else h)
    /\ steady w'
    /\ holds_count (Redis.cells (redis w')) key c'
    /\ c' = (if c <? Config.limit cfg then c + 1 else c)
    /\ ((c <? Config.limit cfg) = false ->
        exists response, o = Py.Returned response /\ status_code response = 429).
Proof.
  intros Hsteady Hc. unfold dispatch.
  rewrite (bool_decide_eq_false_2 _ Hpath).
  destruct (_extract_identifier request) as [identifier kind] eqn:Hid.
  simpl in *.
  destruct (check_step strategies identifier kind cfg label Hcfg Hws w c
              Hsteady Hmax Hc) as (o1 & w1 & Hrun & Hsteady1 & Hstep).
  rewrite Hrun.
  destruct (c <? Config.limit cfg) eqn:E.
  - destruct Hstep as (Hallowed & Hc1 & _).
    destruct o1 as [d|e]; [|discriminate Hallowed]. simpl in Hallowed.
    rewrite Hallowed. simpl.
    pose proof (Hstore w1 h) as Hw. pose proof (Hclock w1 h) as (k & Hck & Htk).
    pose proof (Hstate w1 w h) as Hh.
    destruct (call_next request w1 h) as [[o2 w2] h2]. simpl in Hw, Hck, Htk, Hh.
    assert (Hsteady2 : steady w2).
    { destruct Hsteady1 as [Hin Hup]. split; [|now rewrite Hw].
      unfold in_window. rewrite Hck, Htk. now apply in_window_iter. }
    destruct o2 as [response|e].
    + eexists _, w2, (c + 1). split; [now rewrite Hh|].
      split; [exact Hsteady2|]. split; [now rewrite Hw|]. split; [reflexivity|].
      discriminate.
    + eexists _, w2, (c + 1). split; [now rewrite Hh|].
      split; [exact Hsteady2|]. split; [now rewrite Hw|]. split; [reflexivity|].
      discriminate.
  - destruct Hstep as (Hdenied & Hcells).
    destruct o1 as [d|e]; [|discriminate Hdenied]. simpl in Hdenied.
    rewrite Hdenied.
    eexists _, w1, c. split; [reflexivity|]. split; [exact Hsteady1|].
    split; [now rewrite Hcells|]. split; [reflexivity|].
    intros _. eexists. split; reflexivity.
Qed.

(** [n] requests when the record holds [c]. *)
Lemma serve_from (n : nat) : forall (w : world Redis.conn) (h : H) (c : Z),
  steady w ->
  holds_count (Redis.cells (redis w)) key c ->
  c <= Config.limit cfg ->
  let served := serve strategies call_next n request w h in
  served.2
  = Nat.iter (Nat.min n (Z.to_nat (Config.limit cfg - c)))
      (fun h0 => (call_next request w h0).2) h
  /\ length served.1.1 = n
  /\ forall (i : nat) o, served.1.1 !! i = Some o ->
       (c + Z.of_nat i <? Config.limit cfg) = false ->
       exists response, o = Py.Returned response /\ status_code response = 429.
Proof.
  induction n as [|n IH]; intros w h c Hsteady Hc Hle served; subst served.
  - simpl. split; [reflexivity|]. split; [reflexivity|]. intros i o Hi. discriminate Hi.
  - simpl.
    destruct (dispatch_step w h c Hsteady Hc)
      as (o1 & w1 & c1 & Hrun & Hsteady1 & Hc1 & Hc1eq & Hreject).
    rewrite Hrun.
    assert (Hle1 : c1 <= Config.limit cfg).
    { subst c1. destruct (c <? Config.limit cfg) eqn:E; [|exact Hle].
      apply Z.ltb_lt in E. lia. }
    specialize (IH w1 (if c <? Config.limit cfg
                       then (call_next request w h).2 else h) c1 Hsteady1 Hc1 Hle1).
    destruct (serve strategies call_next n request w1 _) as [[os w2] h2].
    simpl in IH |- *. destruct IH as (Hh & Hlen & Hall).
    split; [|split].
    + rewrite Hh. subst c1.
      destruct (c <? Config.limit cfg) eqn:E.
      * apply Z.ltb_lt in E.
        replace (Z.to_nat (Config.limit cfg - c))
          with (Datatypes.S (Z.to_nat (Config.limit cfg - (c + 1)))) by lia.
        simpl Nat.min. rewrite Nat.iter_succ_r.
        apply iter_ext. intros h0. apply Hstate.
      * apply Z.ltb_ge in E.
        replace (Z.to_nat (Config.limit cfg - c)) with O by lia.
        now rewrite !Nat.min_0_r.
    + now rewrite Hlen.
    + intros [|i] o Hi Hover; simpl in Hi.
      * injection Hi as <-. rewrite Z.add_0_r in Hover. exact (Hreject Hover).
      * apply (Hall i o Hi). subst c1.
        destruct (c <? Config.limit cfg) eqn:E.
        -- rewrite <- Hover. f_equal. lia.
        -- apply Z.ltb_ge. apply Z.ltb_ge in E. lia.
Qed.

(** X16. The same request sent [n] times in a fresh window, through
    the middleware and a reachable store, to a handler that keeps away
    from that store: the handler runs for the first [limit] requests and
    for no other, and every request after them is answered 429.  The
    handler may read the clock and may raise. *)
Theorem serve_runs_handler_limit_times (n : nat) (w : world Redis.conn) (h : H) :
  steady w ->
  Redis.cells (redis w) !! key = None ->
  0 <= Config.limit cfg ->
  let served := serve strategies call_next n request w h in
  served.2
  = Nat.iter (Nat.min n (Z.to_nat (Config.limit cfg)))
      (fun h0 => (call_next request w h0).2) h
  /\ length served.1.1 = n
  /\ forall (i : nat) o, served.1.1 !! i = Some o ->
       Config.limit cfg <= Z.of_nat i ->
       exists response, o = Py.Returned response /\ status_code response = 429.
Proof.
  intros Hsteady Habsent Hlim served. subst served.
  assert (Hc : holds_count (Redis.cells (redis w)) key 0)
    by (unfold holds_count; now rewrite Habsent).
  destruct (serve_from n w h 0 Hsteady Hc Hlim) as (Hh & Hlen & Hall).
  rewrite Z.sub_0_r in Hh. split; [exact Hh|]. split; [exact Hlen|].
  intros i o Hi Hover. apply (Hall i o Hi). apply Z.ltb_ge. lia.
Qed.

End Serving.

(* ===================================================================== *)
(** ** Sentinel hosts, the process-wide client and the load test *)
(* ===================================================================== *)

Section SentinelFacts.

Import Text Sentinel.

(** What [str] prints: digits, after a minus sign for a negative. *)
Lemma str_shape (n : Z) :
  exists ds, Py.all_chars Py.is_digit ds = true /\ ds <> ""
             /\ (Py.str n = ds \/ Py.str n = String "-" ds).
Proof.
  unfold Py.str. destruct n as [|p|p].
  - exists "0". split; [reflexivity|]. split; [discriminate | now left].
  - exists (NilEmpty.string_of_uint (Pos.to_uint p)).
    pose proof (to_uint_nonnil p) as Hp.
    split; [apply digits_printed|]. split; [now destruct (Pos.to_uint p)|].
    left. simpl. now destruct (Pos.to_uint p).
  - exists (NilEmpty.string_of_uint (Pos.to_uint p)).
    pose proof (to_uint_nonnil p) as Hp.
    split; [apply digits_printed|]. split; [now destruct (Pos.to_uint p)|].
    right. simpl. now destruct (Pos.to_uint p).
Qed.

Lemma digits_hold_no (c : ascii) (ds : string) :
  Py.is_digit c = false -> Py.all_chars Py.is_digit ds = true ->
  contains c ds = false.
Proof.
  intros Hc. induction ds as [|d ds IH]; simpl; [reflexivity|].
  intros Hall. apply andb_true_iff in Hall as [Hd Hds].
  rewrite (IH Hds), orb_false_r. apply Ascii.eqb_neq. intros ->. congruence.
Qed.

Lemma str_holds_no (c : ascii) (n : Z) :
  Py.is_digit c = false -> c <> "-"%char -> contains c (Py.str n) = false.
Proof.
  intros Hc Hminus. destruct (str_shape n) as (ds & Hall & _ & [-> | ->]).
  - now apply digits_hold_no.
  - change (contains c (String "-" ds))
      with (Ascii.eqb "-" c || contains c ds).
    rewrite (digits_hold_no c ds Hc Hall), orb_false_r.
    apply Ascii.eqb_neq. congruence.
Qed.

Lemma rstrip_str (n : Z) : Py.rstrip (Py.str n) = Py.str n /\ Py.str n <> "".
Proof.
  destruct (str_shape n) as (ds & Hall & Hne & [-> | ->]).
  - split; [now apply rstrip_digits | exact Hne].
  - split; [|discriminate]. simpl. rewrite (rstrip_digits _ Hall).
    destruct ds; [congruence | reflexivity].
Qed.

(** Nothing is stripped on the right of text whose ending is stripped and
    not empty. *)
Lemma rstrip_append (a t : string) :
  Py.rstrip t = t -> t <> "" -> Py.rstrip (a +:+ t) = a +:+ t.
Proof.
  intros Ht Hne. induction a as [|c a IH]; [exact Ht|].
  rewrite append_cons. simpl. rewrite IH.
  destruct (a +:+ t) eqn:E; [|reflexivity].
  destruct a; [rewrite append_nil in E; congruence | discriminate E].
Qed.

Lemma trimmed_left_clean (s : string) : trimmed s -> left_clean s.
Proof.
  unfold trimmed, Py.strip. intros <-.
  apply rstrip_keeps_clean, lstrip_clean.
Qed.

(** A host written with its port is read back. *)
Lemma parse_show_host (h : string * Z) :
  plain_host h.1 -> printable_port h.2 -> parse_host (show_host h) = Some h.
Proof.
  destruct h as [host n]. intros (_ & Hcolon & Htrim) Hport. simpl in *.
  unfold parse_host, show_host. simpl fst. simpl snd.
  change (":" +:+ Py.str n) with (String ":" (Py.str n)).
  destruct (rstrip_str n) as [Hr Hne].
  assert (Hstrip : Py.strip (host +:+ String ":" (Py.str n))
                   = host +:+ String ":" (Py.str n)).
  { unfold Py.strip. rewrite lstrip_of_clean.
    - apply rstrip_append; [|discriminate].
      simpl. rewrite Hr. destruct (Py.str n); [congruence | reflexivity].
    - pose proof (trimmed_left_clean host Htrim) as Hl.
      destruct host; [reflexivity | exact Hl]. }
  assert (Hc : contains ":" (String ":" (Py.str n)) = true) by reflexivity.
  rewrite Hstrip, contains_append, Hc, orb_true_r.
  rewrite (split_app ":" host _ Hcolon).
  rewrite (split_none ":" (Py.str n)) by (apply str_holds_no; [reflexivity | discriminate]).
  now rewrite (int_str n Hport).
Qed.

Lemma show_host_no_comma (h : string * Z) :
  plain_host h.1 -> contains "," (show_host h) = false.
Proof.
  destruct h as [host n]. intros (Hcomma & _ & _). simpl in *.
  unfold show_host. simpl fst. simpl snd.
  rewrite !contains_append, Hcomma. simpl.
  apply str_holds_no; [reflexivity | discriminate].
Qed.

(** X17. A list of sentinels written the way the setting expects it,
    [host:port] entries joined by commas, is read back as it was: the
    same hosts and ports in the same order, for host names without comma,
    colon or outer white space and for every port [int()] accepts the
    digits of (4300 at most). *)
Theorem sentinel_hosts_round_trip (hosts : list (string * Z)) :
  hosts <> [] ->
  Forall (fun h => plain_host h.1 /\ printable_port h.2) hosts ->
  _parse_sentinel_hosts (join "," (map show_host hosts)) = Some hosts.
Proof.
  intros Hne Hall. unfold _parse_sentinel_hosts.
  rewrite split_join.
  - clear Hne. induction Hall as [|h hosts [Hh Hp] Hall IH]; [reflexivity|].
    simpl. rewrite (parse_show_host h Hh Hp). simpl. now rewrite IH.
  - now destruct hosts.
  - apply Forall_map. eapply Forall_impl; [exact Hall|].
    intros h [Hh _]. now apply show_host_no_comma.
Qed.

Lemma count_absent (c : ascii) (s : string) :
  contains c s = false -> count c s = O.
Proof.
  induction s as [|x s IH]; simpl; [reflexivity|].
  intros Hc. apply orb_false_iff in Hc as [-> Hs]. now rewrite (IH Hs).
Qed.

(** Splitting brings no character in. *)
Lemma split_keeps_out (c sep : ascii) (s : string) :
  contains c s = false ->
  Forall (fun piece => contains c piece = false) (split sep s).
Proof.
  induction s as [|x s IH]; simpl; [repeat constructor|].
  intros Hc. apply orb_false_iff in Hc as [Hx Hs]. specialize (IH Hs).
  destruct (Ascii.eqb x sep); [now constructor|].
  destruct (split sep s) as [|piece pieces];
    [repeat constructor; simpl; now rewrite Hx|].
  inversion IH as [|? ? Hp Hps]; subst.
  constructor; [simpl; now rewrite Hx, Hp | exact Hps].
Qed.

(** An entry with two colons or more cannot be unpacked into a host and
    a port. *)
Lemma parse_host_colons (entry : string) :
  (2 <= count ":" (Py.strip entry))%nat -> parse_host entry = None.
Proof.
  intros Hcount. unfold parse_host.
  pose proof (length_split ":" (Py.strip entry)) as Hlen.
  destruct (contains ":" (Py.strip entry)) eqn:Hc.
  - destruct (split ":" (Py.strip entry)) as [|a [|b [|c rest]]]; simpl in Hlen;
      try reflexivity; lia.
  - rewrite (count_absent _ _ Hc) in Hcount. lia.
Qed.

(** The name of a host that was read holds no separator. *)
Lemma parse_host_name (entry : string) (h : string * Z) :
  contains "," entry = false -> parse_host entry = Some h ->
  contains ":" h.1 = false /\ contains "," h.1 = false.
Proof.
  intros Hcomma. unfold parse_host.
  pose proof (contains_strip "," entry Hcomma) as Hcs.
  destruct (contains ":" (Py.strip entry)) eqn:Hc.
  - pose proof (split_pieces ":" (Py.strip entry)) as Hp.
    pose proof (split_keeps_out "," ":" (Py.strip entry) Hcs) as Hk.
    destruct (split ":" (Py.strip entry)) as [|a [|b [|c rest]]]; try discriminate.
    destruct (Py.int b); [|discriminate]. intros [= <-]. simpl.
    inversion Hp; inversion Hk; subst. auto.
  - intros [= <-]. simpl. auto.
Qed.

(** X18. The setting gives one sentinel for each of its entries, never
    fewer, and the names read hold neither comma nor colon; a single
    entry with two colons or more, an IPv6 address for one, makes the
    whole parse raise [ValueError], whatever the other entries are. *)
Theorem sentinel_hosts_one_per_entry (redis_sentinel_hosts : string) :
  (forall hosts,
     _parse_sentinel_hosts redis_sentinel_hosts = Some hosts ->
     length hosts = Datatypes.S (count "," redis_sentinel_hosts)
     /\ Forall (fun h => contains ":" h.1 = false /\ contains "," h.1 = false)
          hosts)
  /\ (forall entry,
        entry ∈ split "," redis_sentinel_hosts ->
        (2 <= count ":" (Py.strip entry))%nat ->
        _parse_sentinel_hosts redis_sentinel_hosts = None).
Proof.
  unfold _parse_sentinel_hosts. split.
  - intros hosts Hparse. split.
    + rewrite <- (length_mapM _ _ _ Hparse). apply length_split.
    + apply mapM_Some_1 in Hparse.
      pose proof (split_pieces "," redis_sentinel_hosts) as Hp.
      induction Hparse as [|entry h entries hosts Hh _ IH]; [constructor|].
      inversion Hp as [|? ? He Hes]; subst.
      constructor; [exact (parse_host_name entry h He Hh) | exact (IH Hes)].
  - intros entry Hin Hcount. apply mapM_None_2, Exists_exists.
    exists entry. split; [exact Hin | now apply parse_host_colons].
Qed.

End SentinelFacts.

Section SingletonFacts.

Import Singleton.

(** With a client in place nothing is created and nothing is sent. *)
Lemma get_redis_client_again (g : globals) (instance : nat) :
  _redis_client g = Some instance -> get_redis_client g = (inr instance, g).
Proof. intros Hg. unfold get_redis_client. now rewrite Hg. Qed.

(** The first call: one client is created and one PING is sent, and the
    client stays in place whether the PING is answered or not. *)
Lemma get_redis_client_first (g : globals) :
  _redis_client g = None ->
  let first := get_redis_client g in
  _redis_client first.2 = Some (created g)
  /\ server first.2 = (Redis.attempt (server g)).2
  /\ first.1 = (if (Redis.attempt (server g)).1 then inr (created g)
                else inl Redis.ConnectionError).
Proof.
  intros Hg first. subst first.
  unfold get_redis_client, connect, Main.PING. rewrite Hg.
  now destruct (Redis.attempt (server g)) as [[] c].
Qed.

(** X19. The process-wide client is created by the first call and by no
    later one: whatever the first call did, the next returns the client
    of the first without a PING and without raising.  That holds after a
    first call that raised as well: when the store does not answer the
    PING of [connect], the error reaches the first caller only, and the
    next caller gets the client that never connected. *)
Theorem client_is_created_once (g : globals) :
  let first := get_redis_client g in
  let second := get_redis_client first.2 in
  (exists instance,
     _redis_client first.2 = Some instance
     /\ second = (inr instance, first.2))
  /\ (_redis_client g = None ->
      (Redis.attempt (server g)).1 = false ->
      first.1 = inl Redis.ConnectionError
      /\ second.1 = inr (created g)
      /\ server second.2 = (Redis.attempt (server g)).2).
Proof.
  intros first second. subst first second.
  destruct (_redis_client g) as [instance|] eqn:Hg.
  - rewrite (get_redis_client_again g instance Hg). simpl.
    split; [|discriminate].
    exists instance. split; [exact Hg | exact (get_redis_client_again g instance Hg)].
  - destruct (get_redis_client_first g Hg) as (Hset & Hserver & Hout).
    rewrite (get_redis_client_again _ _ Hset). simpl.
    split; [now exists (created g)|].
    intros _ Hdown. rewrite Hdown in Hout. auto.
Qed.

End SingletonFacts.

Section LoadTestFacts.

Import LoadTest.

Context {latency : Type}.

#[local] Abbreviation with_status code results :=
  (Z.of_nat (length (filter (fun x : Z * latency => x.1 = code) results))).

(** The counters after more results, from any counters. *)
Lemma add_results_from (results : list (Z * latency)) :
  forall r : LoadTestResult latency,
  let r' := foldl (fun r x => add_result latency r x.1 x.2) r results in
  total_requests _ r' = total_requests _ r + Z.of_nat (length results)
  /\ latencies _ r' = (latencies _ r ++ map snd results)%list
  /\ successful_requests _ r' = successful_requests _ r + with_status 200 results
  /\ rate_limited_requests _ r' = rate_limited_requests _ r + with_status 429 results
  /\ failed_requests _ r'
     = failed_requests _ r
       + Z.of_nat (length (filter (fun x => x.1 <> 200 /\ x.1 <> 429) results)).
Proof.
  induction results as [|[code l] results IH]; intros r r'; subst r'.
  - simpl. rewrite app_nil_r. repeat split; lia.
  - simpl foldl. specialize (IH (add_result latency r code l)).
    cbv zeta in IH. destruct IH as (Ht & Hl & Hs & Hr & Hf).
    rewrite Ht, Hl, Hs, Hr, Hf. clear Ht Hl Hs Hr Hf.
    unfold add_result.
    destruct (code =? 200) eqn:E200; [|destruct (code =? 429) eqn:E429];
      simpl total_requests; simpl latencies; simpl successful_requests;
      simpl rate_limited_requests; simpl failed_requests;
      rewrite ?Z.eqb_eq, ?Z.eqb_neq in *.
    + subst code.
      rewrite (filter_cons_True (fun x : Z * latency => x.1 = 200)) by reflexivity.
      rewrite (filter_cons_False (fun x : Z * latency => x.1 = 429)) by (simpl; lia).
      rewrite (filter_cons_False (fun x : Z * latency => x.1 <> 200 /\ x.1 <> 429))
        by (simpl; lia).
      rewrite <- app_assoc. simpl length. repeat split; lia.
    + subst code.
      rewrite (filter_cons_False (fun x : Z * latency => x.1 = 200)) by (simpl; lia).
      rewrite (filter_cons_True (fun x : Z * latency => x.1 = 429)) by reflexivity.
      rewrite (filter_cons_False (fun x : Z * latency => x.1 <> 200 /\ x.1 <> 429))
        by (simpl; lia).
      rewrite <- app_assoc. simpl length. repeat split; lia.
    + rewrite (filter_cons_False (fun x : Z * latency => x.1 = 200)) by (simpl; lia).
      rewrite (filter_cons_False (fun x : Z * latency => x.1 = 429)) by (simpl; lia).
      rewrite (filter_cons_True (fun x : Z * latency => x.1 <> 200 /\ x.1 <> 429))
        by (simpl; lia).
      rewrite <- app_assoc. simpl length. repeat split; lia.
Qed.

(** X20. After a load test the counters account for every request once:
    the total is the number of results, with one latency for each in the
    order of arrival; the successes are the results with status 200, the
    rate-limited ones those with 429 and the failures all the others
    (status 0 of a request that raised among them), so the three counters
    add up to the total. *)
Theorem counters_partition_the_requests (results : list (Z * latency)) :
  let r := add_results latency results in
  total_requests _ r = Z.of_nat (length results)
  /\ latencies _ r = map snd results
  /\ successful_requests _ r = with_status 200 results
  /\ rate_limited_requests _ r = with_status 429 results
  /\ failed_requests _ r
     = Z.of_nat (length (filter (fun x => x.1 <> 200 /\ x.1 <> 429) results))
  /\ total_requests _ r
     = successful_requests _ r + rate_limited_requests _ r + failed_requests _ r.
Proof.
  intros r. subst r. unfold add_results.
  destruct (add_results_from results (init latency)) as (Ht & Hl & Hs & Hr & Hf).
  simpl in Ht, Hl, Hs, Hr, Hf.
  split; [exact Ht|]. split; [exact Hl|]. split; [exact Hs|].
  split; [exact Hr|]. split; [exact Hf|].
  rewrite Ht, Hs, Hr, Hf. clear.
  induction results as [|[code l] results IH]; [reflexivity|].
  destruct (decide (code = 200)) as [E200|E200];
    [|destruct (decide (code = 429)) as [E429|E429]].
  - rewrite (filter_cons_True (fun x : Z * latency => x.1 = 200)) by exact E200.
    rewrite (filter_cons_False (fun x : Z * latency => x.1 = 429)) by (simpl; lia).
    rewrite (filter_cons_False (fun x : Z * latency => x.1 <> 200 /\ x.1 <> 429))
      by (simpl; lia).
    simpl length. lia.
  - rewrite (filter_cons_False (fun x : Z * latency => x.1 = 200)) by exact E200.
    rewrite (filter_cons_True (fun x : Z * latency => x.1 = 429)) by exact E429.
    rewrite (filter_cons_False (fun x : Z * latency => x.1 <> 200 /\ x.1 <> 429))
      by (simpl; lia).
    simpl length. lia.
  - rewrite (filter_cons_False (fun x : Z * latency => x.1 = 200)) by exact E200.
    rewrite (filter_cons_False (fun x : Z * latency => x.1 = 429)) by exact E429.
    rewrite (filter_cons_True (fun x : Z * latency => x.1 <> 200 /\ x.1 <> 429))
      by (simpl; lia).
    simpl length. lia.
Qed.

End LoadTestFacts.

(* ===================================================================== *)
(** ** The two readings of the clock behind one decision *)
(* ===================================================================== *)

Section TwoReadings.

Import Datetime RateLimiter.

Context {S : Type} {client : RedisClientSpec S}.
Variable strategies : gmap string Config.Strategy.

(** The reset instant is the first point after the reading on the grid
    of the windows. *)
Lemma reset_for_grid (window_seconds : Z) (t : datetime) :
  0 < window_seconds -> 0 <= t < exact_until ->
  reset_for window_seconds t
  = Some ((t / (window_seconds * us_per_second) + 1)
          * (window_seconds * us_per_second)).
Proof.
  intros Hws Ht. unfold reset_for.
  destruct (window_seconds =? 60) eqn:E60;
    [apply Z.eqb_eq in E60; subst window_seconds
    |destruct (window_seconds =? 3600) eqn:E3600;
      [apply Z.eqb_eq in E3600; subst window_seconds|]].
  - rewrite replace_second_microsecond_floor.
    unfold timedelta_minutes, us_per_minute. f_equal. lia.
  - rewrite replace_minute_second_microsecond_floor.
    unfold timedelta_hours, us_per_hour, us_per_minute. f_equal.
    replace (60 * (60 * us_per_second)) with (3600 * us_per_second) by lia. lia.
  - assert (E0 : (window_seconds =? 0) = false) by (apply Z.eqb_neq; lia).
    rewrite E0, (int_timestamp_floor t Ht).
    unfold fromtimestamp, timedelta_seconds. f_equal.
    rewrite Z.div_div by (unfold us_per_second; lia).
    rewrite (Z.mul_comm us_per_second window_seconds). lia.
Qed.

(** What a decision carries of the two readings. *)
Lemma decision_window_and_reset identifier kind (w : world S) d cfg :
  strategy_of strategies kind = Some cfg ->
  (check_rate_limit strategies identifier kind w).1 = Py.Returned d
  \/ (get_rate_limit_status strategies identifier kind w).1 = Py.Returned d ->
  label_at (Config.window cfg) (clock w) = Some (window d)
  /\ reset_for (Config.window cfg) (clock (advance w)) = Some (reset_at d).
Proof.
  intros Hcfg Hd.
  destruct (label_at (Config.window cfg) (clock w)) as [label|] eqn:Hlabel.
  2:{ exfalso. destruct Hd as [Hd | Hd]; revert Hd;
        [unfold check_rate_limit | unfold get_rate_limit_status];
        unfold bind at 1; rewrite strategy_for_run, Hcfg; unfold bind at 1;
        rewrite get_current_window_run, Hlabel; discriminate. }
  set (key := _build_redis_key kind identifier label).
  destruct (client_get key (redis w)) as [v r1] eqn:Hget.
  destruct Hd as [Hd | Hd].
  - destruct (Z_le_gt_dec (Config.limit cfg) (count_of v)) as [Hle | Hgt].
    + destruct (client_ttl key r1) as [t r2] eqn:Httl.
      destruct (check_rate_limit_deny strategies identifier kind w cfg label
                  v r1 t r2 Hcfg Hlabel Hget Hle Httl) as (reset & Hreset & Hrun).
      rewrite Hrun in Hd. injection Hd as <-. simpl. now rewrite Hreset.
    + destruct (client_incr key r1) as [[n|] r2] eqn:Hincr.
      * destruct (client_expire key (Config.window cfg) r2) as [b r3] eqn:Hexp.
        destruct (check_rate_limit_allow strategies identifier kind w cfg label
                    v r1 n r2 b r3 Hcfg Hlabel Hget ltac:(lia) Hincr Hexp)
          as (reset & Hreset & Hrun).
        rewrite Hrun in Hd. injection Hd as <-. simpl. now rewrite Hreset.
      * rewrite (check_rate_limit_raise strategies identifier kind w cfg label
                   v r1 r2 Hcfg Hlabel Hget ltac:(lia) Hincr) in Hd.
        discriminate Hd.
  - destruct (get_rate_limit_status_run strategies identifier kind w cfg label
                v r1 Hcfg Hlabel Hget) as (reset & Hreset & Hrun).
    rewrite Hrun in Hd. injection Hd as <-. simpl. now rewrite Hreset.
Qed.

(** X21. A decision is made from two readings of the clock: the window
    label, and with it the counter, come from the first, [reset_at] from
    the second.  For readings from the epoch to [exact_until], where
    [timestamp()] is exact, [reset_at] lies after the second reading, one
    window away at most.  When both readings fall in one window it is the end of
    that window; when the window ends between them, it is later than that
    end by a whole window or more, so the decision names the window that
    is over with the reset instant of another. *)
Theorem reset_at_follows_second_reading identifier kind (w : world S) d cfg
    (t1 : datetime) (rest : list datetime) :
  strategy_of strategies kind = Some cfg ->
  0 < Config.window cfg ->
  ticks w = t1 :: rest ->
  0 <= clock w <= t1 ->
  t1 < exact_until ->
  (check_rate_limit strategies identifier kind w).1 = Py.Returned d
  \/ (get_rate_limit_status strategies identifier kind w).1 = Py.Returned d ->
  label_at (Config.window cfg) (clock w) = Some (window d)
  /\ reset_for (Config.window cfg) t1 = Some (reset_at d)
  /\ t1 < reset_at d <= t1 + Config.window cfg * us_per_second
  /\ exists window_end,
       reset_for (Config.window cfg) (clock w) = Some window_end
       /\ (t1 < window_end -> reset_at d = window_end)
       /\ (window_end <= t1 ->
           window_end + Config.window cfg * us_per_second <= reset_at d).
Proof.
  intros Hcfg Hws Hticks [Hnow Hle] Hexact Hd.
  destruct (decision_window_and_reset identifier kind w d cfg Hcfg Hd)
    as [Hlabel Hreset].
  assert (Hclock : clock (advance w) = t1) by (unfold advance; now rewrite Hticks).
  rewrite Hclock in Hreset.
  split; [exact Hlabel|]. split; [exact Hreset|].
  rewrite (reset_for_grid _ t1 Hws ltac:(lia)) in Hreset.
  injection Hreset as <-.
  rewrite (reset_for_grid _ (clock w) Hws ltac:(lia)).
  set (g := Config.window cfg * us_per_second).
  assert (Hg : 0 < g) by (subst g; unfold us_per_second; lia).
  pose proof (bucket_bounds g t1 Hg) as Hb1.
  pose proof (bucket_bounds g (clock w) Hg) as Hb0.
  split; [lia|].
  eexists. split; [reflexivity|]. split.
  - intros Hin.
    assert (Hq : (t1 / g) * g = (clock w / g) * g)
      by (apply bucket_unique; [exact Hg | lia]).
    lia.
  - intros Hover.
    assert (Hq : clock w / g + 1 <= t1 / g)
      by (apply Z.div_le_lower_bound; [exact Hg | lia]).
    nia.
Qed.

End TwoReadings.

(* ===================================================================== *)
(** ** The middleware, the endpoints and the settings on concrete inputs *)
(* ===================================================================== *)

Section ServiceRuns.

Import RateLimiter Scenario Cases Middleware.

Lemma resource_path_is_limited : path keyed_request ∉ BYPASS_PATHS.
Proof. apply (bool_decide_unpack _). vm_compute. exact I. Qed.

Lemma extract_identifier_prefers_api_key_witness :
  _extract_identifier keyed_request = ("u1", "user")
  /\ _extract_identifier bare_request = ("unknown", "ip").
Proof.
  destruct (extract_identifier_prefers_api_key keyed_request) as (Hkey & _ & _).
  destruct (extract_identifier_prefers_api_key bare_request) as (_ & _ & Hpeer).
  split.
  - apply (Hkey "u1"); [reflexivity | discriminate].
  - apply Hpeer; reflexivity.
Defined.

Lemma extract_identifier_first_hop_witness :
  Text.truthy (header proxied_request "X-API-Key") = false
  /\ header proxied_request "X-Forwarded-For" = Some forwarded_chain
  /\ _extract_identifier proxied_request = ("203.0.113.7", "ip")
  /\ Text.contains "," (_extract_identifier proxied_request).1 = false
  /\ Text.trimmed (_extract_identifier proxied_request).1.
Proof.
  assert (H1 : Text.truthy (header proxied_request "X-API-Key") = false)
    by reflexivity.
  assert (H2 : header proxied_request "X-Forwarded-For" = Some forwarded_chain)
    by reflexivity.
  destruct (extract_identifier_first_hop proxied_request forwarded_chain H1 H2
              ltac:(discriminate)) as (_ & Hcomma & Htrim & _ & Hfirst).
  split; [exact H1|]. split; [exact H2|]. split; [reflexivity|].
  split; [exact Hcomma | exact Htrim].
Defined.

Lemma dispatch_rejects_without_handler_witness :
  (path keyed_request ∉ BYPASS_PATHS)
  /\ exists response,
       dispatch Config.RATE_LIMIT_STRATEGIES counting_handler keyed_request
         (counting "20" (Some 45)) O
       = (Py.Returned response,
          (check_rate_limit Config.RATE_LIMIT_STRATEGIES "u1" "user"
             (counting "20" (Some 45))).2, O)
       /\ status_code response = 429
       /\ content response = Rejection "Rate limit exceeded" 20 45 label0
       /\ response_header response "X-RateLimit-Remaining" = Some "0"
       /\ response_header response "Retry-After" = Some "45".
Proof.
  split; [exact resource_path_is_limited|].
  assert (Hrun : check_rate_limit Config.RATE_LIMIT_STRATEGIES "u1" "user"
                   (counting "20" (Some 45))
                 = (Py.Returned (denial 20 20 45),
                    (check_rate_limit Config.RATE_LIMIT_STRATEGIES "u1" "user"
                       (counting "20" (Some 45))).2))
    by (vm_compute; reflexivity).
  destruct (dispatch_rejects_without_handler Config.RATE_LIMIT_STRATEGIES
              counting_handler keyed_request (counting "20" (Some 45)) _ O
              (denial 20 20 45) resource_path_is_limited Hrun eq_refl)
    as (response & Hd & Hs & Hc & _ & Hrem & _ & Hretry).
  exists response. split; [exact Hd|]. split; [exact Hs|]. split; [exact Hc|].
  split; [exact Hrem | exact Hretry].
Defined.

Lemma dispatch_forwards_with_quota_headers_witness :
  exists response,
    (dispatch Config.RATE_LIMIT_STRATEGIES counting_handler keyed_request
       (counting "3" (Some 30)) O).1.1 = Py.Returned response
    /\ (dispatch Config.RATE_LIMIT_STRATEGIES counting_handler keyed_request
          (counting "3" (Some 30)) O).2 = 1%nat
    /\ status_code response = 200
    /\ response_header response "X-RateLimit-Limit" = Some "20"
    /\ response_header response "X-RateLimit-Remaining" = Some "16"
    /\ response_header response "Retry-After" = None
    /\ response_header response "Content-Type" = Some "application/json".
Proof.
  assert (Hrun : check_rate_limit Config.RATE_LIMIT_STRATEGIES "u1" "user"
                   (counting "3" (Some 30))
                 = (Py.Returned (admission 20 4),
                    (check_rate_limit Config.RATE_LIMIT_STRATEGIES "u1" "user"
                       (counting "3" (Some 30))).2))
    by (vm_compute; reflexivity).
  destruct (dispatch_forwards_with_quota_headers Config.RATE_LIMIT_STRATEGIES
              counting_handler keyed_request (counting "3" (Some 30)) _ _
              O _ (admission 20 4) _ resource_path_is_limited Hrun eq_refl eq_refl)
    as (response & Hd & Hs & _ & Hlimit & Hrem & _ & Hretry & Hrest).
  exists response. rewrite Hd.
  split; [reflexivity|]. split; [reflexivity|]. split; [exact Hs|].
  split; [exact Hlimit|]. split; [exact Hrem|]. split; [exact Hretry|].
  unfold response_header. rewrite Hrest by discriminate. reflexivity.
Defined.

Lemma status_endpoint_matches_middleware_witness :
  (Main.get_rate_limit_status Config.RATE_LIMIT_STRATEGIES status_request
     (counting "3" (Some 30))).1 = Py.Returned status_at_3
  /\ _extract_identifier status_request = ("u1", "user")
  /\ exists d,
       (get_rate_limit_status Config.RATE_LIMIT_STRATEGIES "u1" "user"
          (counting "3" (Some 30))).1 = Py.Returned d
       /\ remaining d = 17 /\ current_count d = 3.
Proof.
  assert (Hrun : Main.get_rate_limit_status Config.RATE_LIMIT_STRATEGIES
                   status_request (counting "3" (Some 30))
                 = (Py.Returned status_at_3,
                    (Main.get_rate_limit_status Config.RATE_LIMIT_STRATEGIES
                       status_request (counting "3" (Some 30))).2))
    by (vm_compute; reflexivity).
  destruct (status_endpoint_matches_middleware Config.RATE_LIMIT_STRATEGIES
              status_request (counting "3" (Some 30)) _ status_at_3 Hrun)
    as (Hid & d & Hd & _ & Hrem & Hcount & _).
  split; [now rewrite Hrun|]. split; [reflexivity|].
  exists d. split; [exact (f_equal fst Hd)|].
  split; [now rewrite <- Hrem | now rewrite <- Hcount].
Defined.

Lemma status_request_spends_no_quota_witness :
  path status_request = "/rate-limit/status"
  /\ Redis.cells (redis (dispatch Config.RATE_LIMIT_STRATEGIES
                           (Main.status_route (H := nat) Config.RATE_LIMIT_STRATEGIES)
                           status_request (counting "20" (Some 45)) O).1.2)
     = Redis.cells (redis (counting "20" (Some 45)))
  /\ (dispatch Config.RATE_LIMIT_STRATEGIES
        (Main.status_route (H := nat) Config.RATE_LIMIT_STRATEGIES)
        status_request (counting "20" (Some 45)) O).2 = O.
Proof.
  destruct (status_request_spends_no_quota Config.RATE_LIMIT_STRATEGIES
              (H := nat) status_request (counting "20" (Some 45)) O eq_refl)
    as (Hcells & _ & Hstate & _).
  split; [reflexivity|]. split; [exact Hcells | exact Hstate].
Defined.

Lemma health_check_reports_reachability_witness :
  Main.status (Main.health_check "1.0.0" fresh).1 = "healthy"
  /\ Main.status (Main.health_check "1.0.0" unreachable).1 = "degraded"
  /\ Main.redis_status (Main.health_check "1.0.0" unreachable).1 = "disconnected".
Proof.
  destruct (health_check_reports_reachability "1.0.0" fresh) as (Hup & _).
  destruct (health_check_reports_reachability "1.0.0" unreachable)
    as (_ & Hdown & _).
  split; [exact (proj1 (Hup eq_refl))|].
  exact (Hdown eq_refl).
Defined.

Lemma serve_runs_handler_limit_times_witness :
  strategy_of small_strategies (_extract_identifier keyed_request).2 = Some small
  /\ Redis.cells (redis fresh) !! key7 = None
  /\ (serve small_strategies counting_handler 5 keyed_request fresh O).2 = 2%nat
  /\ length (serve small_strategies counting_handler 5 keyed_request fresh O).1.1
     = 5%nat.
Proof.
  assert (Hcfg : strategy_of small_strategies (_extract_identifier keyed_request).2
                 = Some small) by (vm_compute; reflexivity).
  assert (Habsent : Redis.cells (redis fresh) !! key7 = None) by reflexivity.
  destruct (serve_runs_handler_limit_times small_strategies counting_handler
              keyed_request small label7
              (fun w h => redis_advance w)
              (fun w h => ex_intro _ 1%nat (conj eq_refl eq_refl))
              (fun w w' h => eq_refl)
              resource_path_is_limited Hcfg ltac:(simpl; lia)
              ltac:(vm_compute; discriminate)
              5 fresh O fresh_is_steady Habsent ltac:(simpl; lia))
    as (Hruns & Hlen & _).
  split; [exact Hcfg|]. split; [exact Habsent|].
  split; [exact Hruns | exact Hlen].
Defined.

Lemma sentinel_hosts_round_trip_witness :
  Sentinel._parse_sentinel_hosts "sentinel-1:26379,10.0.0.5:26380"
  = Some two_sentinels.
Proof.
  apply (sentinel_hosts_round_trip two_sentinels); [discriminate|].
  repeat constructor; vm_compute; reflexivity.
Defined.

Lemma sentinel_hosts_one_per_entry_witness :
  "::1" ∈ Text.split "," "sentinel-1:26379,::1"
  /\ (2 <= Text.count ":" (Py.strip "::1"))%nat
  /\ Sentinel._parse_sentinel_hosts "sentinel-1:26379,::1" = None.
Proof.
  assert (H1 : "::1" ∈ Text.split "," "sentinel-1:26379,::1")
    by (apply (bool_decide_unpack _); vm_compute; exact I).
  assert (H2 : (2 <= Text.count ":" (Py.strip "::1"))%nat) by (vm_compute; lia).
  split; [exact H1|]. split; [exact H2|].
  exact (proj2 (sentinel_hosts_one_per_entry "sentinel-1:26379,::1") "::1" H1 H2).
Defined.

Lemma client_is_created_once_witness :
  (Singleton.get_redis_client server_down).1 = inl Redis.ConnectionError
  /\ (Singleton.get_redis_client (Singleton.get_redis_client server_down).2).1
     = inr O.
Proof.
  destruct (client_is_created_once server_down) as (_ & Hdown).
  destruct (Hdown eq_refl eq_refl) as (Hfirst & Hsecond & _).
  split; [exact Hfirst | exact Hsecond].
Defined.

End ServiceRuns.

Section ClockRuns.

Import RateLimiter Scenario Cases.

Lemma reset_at_follows_second_reading_witness :
  (get_rate_limit_status Config.RATE_LIMIT_STRATEGIES "u1" "user"
     across_boundary).1 = Py.Returned late_status
  /\ label_at 60 (clock across_boundary) = Some (window late_status)
  /\ reset_for 60 (clock across_boundary) = Some reset0
  /\ reset0 + 60 * Datetime.us_per_second <= reset_at late_status.
Proof.
  assert (Hrun : (get_rate_limit_status Config.RATE_LIMIT_STRATEGIES "u1" "user"
                    across_boundary).1 = Py.Returned late_status)
    by (vm_compute; reflexivity).
  assert (Hend0 : reset_for 60 (clock across_boundary) = Some reset0)
    by (vm_compute; reflexivity).
  destruct (reset_at_follows_second_reading Config.RATE_LIMIT_STRATEGIES "u1"
              "user" across_boundary late_status free_minute reset0 []
              shipped_user_strategy ltac:(simpl; lia) eq_refl
              ltac:(vm_compute; split; discriminate)
              ltac:(vm_compute; reflexivity) (or_intror Hrun))
    as (Hlabel & _ & _ & window_end & Hend & _ & Hlate).
  split; [exact Hrun|]. split; [exact Hlabel|]. split; [exact Hend0|].
  change (Config.window free_minute) with 60 in Hend, Hlate.
  rewrite Hend0 in Hend. injection Hend as <-.
  apply Hlate. lia.
Defined.

End ClockRuns.
